(** * TileBoundingS2Cell: the 6-plane k-DOP around an S2 cell

    A shallow embedding of [Source/Scene/TileBoundingS2Cell.js].

    Numbers.  A JavaScript Number is modelled by a real number of [R]:
    sums, products, quotients and square roots are the exact ones, and
    [NaN], the infinities and rounding are outside the model.  Every
    statement below is therefore a statement about the arithmetic the
    source writes down, evaluated exactly.

    Exceptions.  Reading a property of [undefined] throws a [TypeError];
    a computation that may throw returns an [option], [None] standing for
    the thrown exception.  Arrays are lists, [a[i]] is [nth_error a i]
    and an index out of range reads [undefined].

    The argument checks between the [includeStart('debug')] and
    [includeEnd('debug')] pragmas are stripped from release builds and are
    not modelled. *)

From Stdlib Require Import Reals Lra Lia List Arith PeanoNat Bool.
Import ListNotations.

Open Scope R_scope.

(** ** Exceptions as [option] *)

Definition bind {A B : Type} (c : option A) (k : A -> option B) : option B :=
  match c with
  | Some a => k a
  | None => None
  end.

Notation "x <- c ;; k" := (bind c (fun x => k))
  (at level 61, c at next level, right associativity).

Fixpoint mapM {A B : Type} (f : A -> option B) (l : list A) : option (list B) :=
  match l with
  | [] => Some []
  | a :: l' => b <- f a ;; bs <- mapM f l' ;; Some (b :: bs)
  end.

(** [a[i]] for an array whose slots may hold [undefined]. *)
Definition index {A : Type} (a : list (option A)) (i : nat) : option A :=
  match nth_error a i with
  | Some (Some v) => Some v
  | _ => None
  end.

(** [a.slice(from, to)]. *)
Definition slice {A : Type} (from to : nat) (a : list A) : list A :=
  firstn (to - from) (skipn from a).

(** ** Core/Math.js *)

Module CesiumMath.

(** Modelled from the spec: [Core/Math.js] is not part of the sources;
    the tolerance is "a small positive tolerance", [EPSILON14] being
    [0.00000000000001]. *)
Definition EPSILON14 : R := / 10 ^ 14.

(** Modelled from the spec: [greaterThan(left, right, absoluteEpsilon)] of
    the missing [Core/Math.js]; a plane is selected when its "signed
    distance is strictly greater than the tolerance". *)
Definition greaterThan (left right absoluteEpsilon : R) : bool :=
  if Rgt_dec (left - right) absoluteEpsilon then true else false.

End CesiumMath.

(** [Number.MAX_VALUE] of the language, the largest finite double. *)
Definition MAX_VALUE : R := (2 - / 2 ^ 52) * 2 ^ 1023.

(** ** Core/Cartesian3.js *)

Module Cartesian3.

(** Modelled from the spec: the 3D point or vector of the missing
    [Core/Cartesian3.js] ("GeometryPrimitives: vector/plane algebra"). *)
Record t : Type := mk { x : R; y : R; z : R }.

(** Modelled from the spec: [Cartesian3.add] of the missing
    [Core/Cartesian3.js], the componentwise sum. *)
Definition add (left right : t) : t :=
  mk (x left + x right) (y left + y right) (z left + z right).

(** Modelled from the spec: [Cartesian3.subtract] of the missing
    [Core/Cartesian3.js], the componentwise difference. *)
Definition subtract (left right : t) : t :=
  mk (x left - x right) (y left - y right) (z left - z right).

(** Modelled from the spec: [Cartesian3.multiplyByScalar] of the missing
    [Core/Cartesian3.js]. *)
Definition multiplyByScalar (cartesian : t) (scalar : R) : t :=
  mk (x cartesian * scalar) (y cartesian * scalar) (z cartesian * scalar).

(** Modelled from the spec: [Cartesian3.negate] of the missing
    [Core/Cartesian3.js]. *)
Definition negate (cartesian : t) : t :=
  mk (- x cartesian) (- y cartesian) (- z cartesian).

(** Modelled from the spec: [Cartesian3.dot] of the missing
    [Core/Cartesian3.js], the [dot] of the signed distance. *)
Definition dot (left right : t) : R :=
  x left * x right + y left * y right + z left * z right.

(** Modelled from the spec: [Cartesian3.cross] of the missing
    [Core/Cartesian3.js], the [cross] of the closed form of the
    intersection. *)
Definition cross (left right : t) : t :=
  mk (y left * z right - z left * y right)
     (z left * x right - x left * z right)
     (x left * y right - y left * x right).

(** Modelled from the spec: [Cartesian3.magnitudeSquared] of the missing
    [Core/Cartesian3.js], the [|v|^2] of the clamped projection. *)
Definition magnitudeSquared (cartesian : t) : R :=
  x cartesian * x cartesian + y cartesian * y cartesian
  + z cartesian * z cartesian.

(** Modelled from the spec: [Cartesian3.magnitude] of the missing
    [Core/Cartesian3.js], the Euclidean length. *)
Definition magnitude (cartesian : t) : R := sqrt (magnitudeSquared cartesian).

(** Modelled from the spec: [Cartesian3.normalize] of the missing
    [Core/Cartesian3.js]; the vector divided by its length ("normalized").
    A zero vector has no defined result. *)
Definition normalize (cartesian : t) : t :=
  let magnitude := magnitude cartesian in
  mk (x cartesian / magnitude) (y cartesian / magnitude)
     (z cartesian / magnitude).

(** Modelled from the spec: [Cartesian3.distance] of the missing
    [Core/Cartesian3.js], the "Euclidean distance" between two points. *)
Definition distance (left right : t) : R := magnitude (subtract left right).

End Cartesian3.

(** ** Core/Plane.js *)

Module Plane.

(** Modelled from the spec: the plane [{ normal, distance }] of the
    missing [Core/Plane.js]. *)
Record t : Type := mk { normal : Cartesian3.t; distance : R }.

(** Modelled from the spec: [Plane.fromPointNormal] of the missing
    [Core/Plane.js], the plane through [point] with the given normal. *)
Definition fromPointNormal (point normal : Cartesian3.t) : t :=
  mk normal (- Cartesian3.dot normal point).

(** Modelled from the spec: [Plane.getPointDistance] of the missing
    [Core/Plane.js], the signed distance
    [dot(normal, point) + planeOffset]. *)
Definition getPointDistance (plane : t) (point : Cartesian3.t) : R :=
  Cartesian3.dot (normal plane) point + distance plane.

(** Modelled from the spec: [Plane.projectPointOntoPlane] of the missing
    [Core/Plane.js]: the point minus its signed distance along the
    normal. *)
Definition projectPointOntoPlane (plane : t) (point : Cartesian3.t)
  : Cartesian3.t :=
  let pointDistance := getPointDistance plane point in
  let scaledNormal := Cartesian3.multiplyByScalar (normal plane) pointDistance in
  Cartesian3.subtract point scaledNormal.

(** Modelled from the spec: [Plane.clone] of the missing [Core/Plane.js],
    a copy with its own normal. *)
Definition clone (plane : t) : t := mk (normal plane) (distance plane).

End Plane.

(** ** Core/Matrix3.js *)

Module Matrix3.

(** Modelled from the spec: the 3x3 matrix of the missing
    [Core/Matrix3.js], whose constructor takes the entries row by row. *)
Record t : Type := mk {
  m11 : R; m12 : R; m13 : R;
  m21 : R; m22 : R; m23 : R;
  m31 : R; m32 : R; m33 : R }.

(** Modelled from the spec: [Matrix3.determinant] of the missing
    [Core/Matrix3.js] ("3x3 linear solve"), by cofactors of the first
    row. *)
Definition determinant (matrix : t) : R :=
  m11 matrix * (m22 matrix * m33 matrix - m23 matrix * m32 matrix)
  + m12 matrix * (m23 matrix * m31 matrix - m21 matrix * m33 matrix)
  + m13 matrix * (m21 matrix * m32 matrix - m22 matrix * m31 matrix).

End Matrix3.

(** ** Core/Intersect.js *)

(** Modelled from the spec: the three answers [{INSIDE, OUTSIDE,
    INTERSECTING}] of the missing [Core/Intersect.js]. *)
Inductive Intersect : Type := OUTSIDE | INTERSECTING | INSIDE.

(** ** The external collaborators of the constructor *)

(** Modelled from the spec: the geographic coordinates
    (longitude, latitude, height) of the missing [Core/Cartographic.js]. *)
Record Cartographic : Type := mkCartographic {
  longitude : R; latitude : R; height : R }.

(** The assignment [cartographic.height = h]. *)
Definition setHeight (c : Cartographic) (h : R) : Cartographic :=
  mkCartographic (longitude c) (latitude c) h.

(** Modelled from the spec: the ellipsoid of the missing
    [Core/Ellipsoid.js], at its interface [toGeographic], [toCartesian]
    and [geodeticSurfaceNormal]. *)
Record Ellipsoid : Type := mkEllipsoid {
  geodeticSurfaceNormal : Cartesian3.t -> Cartesian3.t;
  cartesianToCartographic : Cartesian3.t -> Cartographic;
  cartographicToCartesian : Cartographic -> Cartesian3.t }.

(** Modelled from the spec: the cell of the missing [Core/S2Cell.js], at
    its interface [center()] and [vertex(i)]. *)
Record S2Cell : Type := mkS2Cell {
  getCenter : Cartesian3.t;
  getVertex : nat -> Cartesian3.t }.

(** ** computeBoundingPlanes

    The source returns its two scratch planes as [planes[0]] and
    [planes[1]]; what follows is one construction, read before any
    other. *)

(** The corner [i] of the cell at height [minimumHeight]. *)
Definition lowerCorner (s2Cell : S2Cell) (minimumHeight : R)
    (ellipsoid : Ellipsoid) (i : nat) : Cartesian3.t :=
  let vertex := getVertex s2Cell i in
  let vertexCartographic := cartesianToCartographic ellipsoid vertex in
  cartographicToCartesian ellipsoid (setHeight vertexCartographic minimumHeight).

Definition topPlaneOf (s2Cell : S2Cell) (maximumHeight : R)
    (ellipsoid : Ellipsoid) : Plane.t :=
  let centerPoint := getCenter s2Cell in
  let centerSurfaceNormal := geodeticSurfaceNormal ellipsoid centerPoint in
  let topCartographic := cartesianToCartographic ellipsoid centerPoint in
  let top := cartographicToCartesian ellipsoid
               (setHeight topCartographic maximumHeight) in
  Plane.fromPointNormal top centerSurfaceNormal.

(** The loop [for (i = 0; i < 4; i++)] that lowers [maxDistance]. *)
Definition lowerMaxDistance (topPlane : Plane.t) (corner : nat -> Cartesian3.t)
    (maxDistance : R) (i : nat) : R :=
  let distance := Plane.getPointDistance topPlane (corner i) in
  if Rlt_dec distance maxDistance then distance else maxDistance.

Definition bottomPlaneOf (topPlane : Plane.t) (maxDistance : R) : Plane.t :=
  let bottomPlane := Plane.clone topPlane in
  Plane.mk (Cartesian3.negate (Plane.normal bottomPlane))
           (Plane.distance bottomPlane * -1 + maxDistance).

Definition sidePlaneOf (s2Cell : S2Cell) (ellipsoid : Ellipsoid) (i : nat)
  : Plane.t :=
  let vertex := getVertex s2Cell i in
  let adjacentVertex := getVertex s2Cell ((i + 1) mod 4) in
  let geodeticNormal := geodeticSurfaceNormal ellipsoid vertex in
  let side := Cartesian3.subtract adjacentVertex vertex in
  let sideNormal := Cartesian3.cross side geodeticNormal in
  let sideNormal := Cartesian3.normalize sideNormal in
  Plane.fromPointNormal vertex sideNormal.

Definition computeBoundingPlanes (s2Cell : S2Cell)
    (minimumHeight maximumHeight : R) (ellipsoid : Ellipsoid) : list Plane.t :=
  let topPlane := topPlaneOf s2Cell maximumHeight ellipsoid in
  let maxDistance :=
    fold_left (lowerMaxDistance topPlane
                 (lowerCorner s2Cell minimumHeight ellipsoid))
              [0; 1; 2; 3]%nat 0 in
  let bottomPlane := bottomPlaneOf topPlane maxDistance in
  topPlane :: bottomPlane
    :: map (sidePlaneOf s2Cell ellipsoid) [0; 1; 2; 3]%nat.

(** ** computeIntersection, computeVertices, computeEdgeNormals *)

Definition computeIntersection (p0 p1 p2 : Plane.t) : Cartesian3.t :=
  let n0 := Plane.normal p0 in
  let n1 := Plane.normal p1 in
  let n2 := Plane.normal p2 in
  let x0 := Cartesian3.multiplyByScalar (Plane.normal p0) (- Plane.distance p0) in
  let x1 := Cartesian3.multiplyByScalar (Plane.normal p1) (- Plane.distance p1) in
  let x2 := Cartesian3.multiplyByScalar (Plane.normal p2) (- Plane.distance p2) in
  let f0 := Cartesian3.multiplyByScalar (Cartesian3.cross n1 n2)
              (Cartesian3.dot x0 n0) in
  let f1 := Cartesian3.multiplyByScalar (Cartesian3.cross n2 n0)
              (Cartesian3.dot x1 n1) in
  let f2 := Cartesian3.multiplyByScalar (Cartesian3.cross n0 n1)
              (Cartesian3.dot x2 n2) in
  let matrix := Matrix3.mk
      (Cartesian3.x n0) (Cartesian3.y n0) (Cartesian3.z n0)
      (Cartesian3.x n1) (Cartesian3.y n1) (Cartesian3.z n1)
      (Cartesian3.x n2) (Cartesian3.y n2) (Cartesian3.z n2) in
  let determinant := Matrix3.determinant matrix in
  let s := Cartesian3.add (Cartesian3.add f0 f1) f2 in
  Cartesian3.mk (Cartesian3.x s / determinant)
                (Cartesian3.y s / determinant)
                (Cartesian3.z s / determinant).

(** [vertices[i]] (with [base = 0], the top plane) and [vertices[i + 4]]
    (with [base = 1], the bottom plane) of the loop of [computeVertices]. *)
Definition cornerVertex (boundingPlanes : list Plane.t) (base i : nat)
  : option Cartesian3.t :=
  p0 <- nth_error boundingPlanes base ;;
  p1 <- nth_error boundingPlanes (2 + (i + 3) mod 4) ;;
  p2 <- nth_error boundingPlanes (2 + i mod 4) ;;
  Some (computeIntersection p0 p1 p2).

Definition computeVertices (boundingPlanes : list Plane.t)
  : option (list Cartesian3.t) :=
  top <- mapM (cornerVertex boundingPlanes 0) [0; 1; 2; 3]%nat ;;
  bottom <- mapM (cornerVertex boundingPlanes 1) [0; 1; 2; 3]%nat ;;
  Some (top ++ bottom).

Definition computeEdgeNormals (plane : Plane.t)
    (vertices : list (option Cartesian3.t)) : option (list Cartesian3.t) :=
  mapM (fun i =>
          vi <- index vertices i ;;
          vj <- index vertices ((i + 1) mod 4) ;;
          let edge := Cartesian3.subtract vi vj in
          let edgeNormal := Cartesian3.cross (Plane.normal plane) edge in
          Some (Cartesian3.normalize edgeNormal))
       [0; 1; 2; 3]%nat.

(** ** The bounding volume and its constructor *)

Record TileBoundingS2Cell : Type := mkTileBoundingS2Cell {
  _boundingPlanes : list Plane.t;
  _vertices : list Cartesian3.t;
  _edgeNormals : list (list Cartesian3.t) }.

(** The quadrilateral of side face [i], as the constructor and
    [distanceToCamera] both spell it out. *)
Definition sideFace (vertices : list Cartesian3.t) (i : nat)
  : list (option Cartesian3.t) :=
  [ nth_error vertices (i mod 4);
    nth_error vertices (4 + i);
    nth_error vertices (4 + (i + 1) mod 4);
    nth_error vertices ((i + 1) mod 4) ].

(** The constructor from the bounding planes on: vertices, then the edge
    normals of the six faces.  The centre and the two coarse volumes it
    also stores are read by no query here and are left out. *)
Definition fromBoundingPlanes (boundingPlanes : list Plane.t)
  : option TileBoundingS2Cell :=
  vertices <- computeVertices boundingPlanes ;;
  p0 <- nth_error boundingPlanes 0 ;;
  e0 <- computeEdgeNormals p0 (map Some (slice 0 4 vertices)) ;;
  p1 <- nth_error boundingPlanes 1 ;;
  e1 <- computeEdgeNormals p1 (map Some (slice 4 8 vertices)) ;;
  sides <- mapM (fun i =>
                   p <- nth_error boundingPlanes (2 + i) ;;
                   computeEdgeNormals p (sideFace vertices i))
                [0; 1; 2; 3]%nat ;;
  Some (mkTileBoundingS2Cell boundingPlanes vertices (e0 :: e1 :: sides)).

Definition construct (s2Cell : S2Cell) (minimumHeight maximumHeight : R)
    (ellipsoid : Ellipsoid) : option TileBoundingS2Cell :=
  fromBoundingPlanes
    (computeBoundingPlanes s2Cell minimumHeight maximumHeight ellipsoid).

(** ** closestPointLineSegment, closestPointPolygon *)

Definition closestPointLineSegment (p l0 l1 : Cartesian3.t) : Cartesian3.t :=
  let d := Cartesian3.subtract l1 l0 in
  let pL0 := Cartesian3.subtract p l0 in
  let t := Cartesian3.dot d pL0 in
  if Rle_dec t 0 then l0
  else
    let dMag := Cartesian3.dot d d in
    if Rge_dec t dMag then l1
    else
      let t := t / dMag in
      Cartesian3.mk
        ((1 - t) * Cartesian3.x l0 + t * Cartesian3.x l1)
        ((1 - t) * Cartesian3.y l0 + t * Cartesian3.y l1)
        ((1 - t) * Cartesian3.z l0 + t * Cartesian3.z l1).

(** What [closestPointPolygon] receives as [edgeNormals]: the array of a
    face, a single vector (the caller wrote [edgeNormals[0]]), or
    [undefined].  Only an array has indexed slots. *)
Inductive EdgeNormalsArg : Type :=
| NormalsArray (a : list Cartesian3.t)
| NormalsVector (c : Cartesian3.t)
| NormalsUndefined.

Definition edgeNormalAt (edgeNormals : EdgeNormalsArg) (i : nat)
  : option Cartesian3.t :=
  match edgeNormals with
  | NormalsArray a => nth_error a i
  | NormalsVector _ => None
  | NormalsUndefined => None
  end.

(** The loop state: [minDistance] and [closestPoint] (initially
    [undefined]). *)
Definition PolygonState : Type := (R * option Cartesian3.t)%type.

Definition polygonStep (p : Cartesian3.t) (vertices : list (option Cartesian3.t))
    (edgeNormals : EdgeNormalsArg) (dir : R) (st : PolygonState) (i : nat)
  : option PolygonState :=
  vi <- index vertices i ;;
  ni <- edgeNormalAt edgeNormals i ;;
  let edgePlane := Plane.fromPointNormal vi ni in
  let edgePlaneDistance := Plane.getPointDistance edgePlane p in
  if Rgt_dec (dir * edgePlaneDistance) 0 then Some st
  else
    vj <- index vertices ((i + 1) mod 4) ;;
    let closestPointOnEdge := closestPointLineSegment p vi vj in
    let distance := Cartesian3.distance p closestPointOnEdge in
    if Rlt_dec distance (fst st) then Some (distance, Some closestPointOnEdge)
    else Some st.

Fixpoint polygonLoop (p : Cartesian3.t) (vertices : list (option Cartesian3.t))
    (edgeNormals : EdgeNormalsArg) (dir : R) (indices : list nat) (st : PolygonState)
  : option PolygonState :=
  match indices with
  | [] => Some st
  | i :: rest =>
      st' <- polygonStep p vertices edgeNormals dir st i ;;
      polygonLoop p vertices edgeNormals dir rest st'
  end.

Definition closestPointPolygon (p : Cartesian3.t)
    (vertices : list (option Cartesian3.t)) (plane : Plane.t)
    (edgeNormals : EdgeNormalsArg) (dir : R) : option Cartesian3.t :=
  st <- polygonLoop p vertices edgeNormals dir
          (seq 0 (length vertices)) (MAX_VALUE, None) ;;
  match snd st with
  | None => Some p
  | Some closestPoint => Some closestPoint
  end.

(** ** distanceToCamera *)

(** The locals [vertices], [edgeNormals] and [rotation], which the source
    always assigns together. *)
Record Face : Type := mkFace {
  faceVertices : list (option Cartesian3.t);
  faceEdgeNormals : option (list Cartesian3.t);
  faceRotation : R }.

(** [selectedPlaneIndices] and the working face ([None] while the three
    locals are still [undefined]). *)
Definition Selection : Type := (list nat * option Face)%type.

Definition violated (plane : Plane.t) (point : Cartesian3.t) : bool :=
  CesiumMath.greaterThan (Plane.getPointDistance plane point) 0
    CesiumMath.EPSILON14.

(** The [if ... else if ...] over the top and the bottom plane. *)
Definition selectTopBottom (this : TileBoundingS2Cell) (point : Cartesian3.t)
  : option Selection :=
  p0 <- nth_error (_boundingPlanes this) 0 ;;
  if violated p0 point then
    Some ([0%nat],
          Some (mkFace (map Some (slice 0 4 (_vertices this)))
                       (nth_error (_edgeNormals this) 0) (-1)))
  else
    p1 <- nth_error (_boundingPlanes this) 1 ;;
    if violated p1 point then
      Some ([1%nat],
            Some (mkFace (map Some (slice 4 8 (_vertices this)))
                         (nth_error (_edgeNormals this) 1) 1))
    else Some ([], None).

(** One turn of the loop over the four side planes. *)
Definition selectSide (this : TileBoundingS2Cell) (point : Cartesian3.t)
    (sel : Selection) (i : nat) : option Selection :=
  let sidePlaneIndex := (2 + i)%nat in
  p <- nth_error (_boundingPlanes this) sidePlaneIndex ;;
  if violated p point then
    Some (fst sel ++ [(2 + i)%nat],
          Some (mkFace (sideFace (_vertices this) i)
                       (nth_error (_edgeNormals this) (2 + i)) (-1)))
  else Some sel.

Fixpoint selectSides (this : TileBoundingS2Cell) (point : Cartesian3.t)
    (indices : list nat) (sel : Selection) : option Selection :=
  match indices with
  | [] => Some sel
  | i :: rest =>
      sel' <- selectSide this point sel i ;;
      selectSides this point rest sel'
  end.

Definition selectPlanes (this : TileBoundingS2Cell) (point : Cartesian3.t)
  : option Selection :=
  sel <- selectTopBottom this point ;;
  selectSides this point [0; 1; 2; 3]%nat sel.

Definition normalsOf (edgeNormals : option (list Cartesian3.t))
  : EdgeNormalsArg :=
  match edgeNormals with
  | Some a => NormalsArray a
  | None => NormalsUndefined
  end.

(** [edgeNormals[0]], an element of the face's array. *)
Definition firstNormalOf (edgeNormals : option (list Cartesian3.t))
  : option EdgeNormalsArg :=
  a <- edgeNormals ;;
  match nth_error a 0 with
  | Some c => Some (NormalsVector c)
  | None => Some NormalsUndefined
  end.

Definition distanceToCamera (this : TileBoundingS2Cell) (point : Cartesian3.t)
  : option R :=
  sel <- selectPlanes this point ;;
  let vertices := _vertices this in
  match fst sel with
  | [] => Some 0
  | [k] =>
      selectedPlane <- nth_error (_boundingPlanes this) k ;;
      face <- snd sel ;;
      facePoint <- closestPointPolygon
                     (Plane.projectPointOntoPlane selectedPlane point)
                     (faceVertices face) selectedPlane
                     (normalsOf (faceEdgeNormals face)) (faceRotation face) ;;
      Some (Cartesian3.distance facePoint point)
  | [k0; k1] =>
      edge <- (if Nat.eqb k0 0 then
                 e0 <- nth_error vertices ((k1 + 3) mod 4) ;;
                 e1 <- nth_error vertices ((k1 + 2) mod 4) ;;
                 Some (e0, e1)
               else if Nat.eqb k0 1 then
                 e0 <- nth_error vertices (k1 mod 4) ;;
                 e1 <- nth_error vertices ((k1 + 1) mod 4) ;;
                 Some (e0, e1)
               else
                 e0 <- nth_error vertices (4 + (k0 + 3) mod 4) ;;
                 e1 <- nth_error vertices ((k0 + 3) mod 4) ;;
                 Some (e0, e1)) ;;
      let facePoint := closestPointLineSegment point (fst edge) (snd edge) in
      Some (Cartesian3.distance facePoint point)
  | [k0; k1; _] =>
      if Nat.eqb k0 0 then
        vertex <- nth_error vertices (k1 mod 4) ;;
        Some (Cartesian3.distance point vertex)
      else
        vertex <- nth_error vertices (4 + (k0 + 1) mod 4) ;;
        Some (Cartesian3.distance point vertex)
  | _ =>
      p0 <- nth_error (_boundingPlanes this) 0 ;;
      face <- snd sel ;;
      normal0 <- firstNormalOf (faceEdgeNormals face) ;;
      facePoint <- closestPointPolygon
                     (Plane.projectPointOntoPlane p0 point)
                     (faceVertices face) p0 normal0 1 ;;
      Some (Cartesian3.distance facePoint point)
  end.

(** ** intersectPlane *)

Definition countVertex (plane : Plane.t) (counts : nat * nat)
    (vertex : Cartesian3.t) : nat * nat :=
  let distanceToPlane :=
    Cartesian3.dot (Plane.normal plane) vertex + Plane.distance plane in
  if Rlt_dec distanceToPlane 0 then (fst counts, S (snd counts))
  else (S (fst counts), snd counts).

Definition intersectPlane (this : TileBoundingS2Cell) (plane : Plane.t)
  : Intersect :=
  let '(plusCount, negCount) :=
    fold_left (countVertex plane) (_vertices this) (0%nat, 0%nat) in
  if Nat.eqb plusCount (length (_vertices this)) then INSIDE
  else if Nat.eqb negCount (length (_vertices this)) then OUTSIDE
  else INTERSECTING.


(** ** The constructor: the centre and the points of the coarse volumes *)

(** [a[k] = v]: inside the array the slot is replaced, beyond its end the
    array grows and the slots in between stay empty. *)
Definition assign {A : Type} (a : list (option A)) (k : nat) (v : A)
  : list (option A) :=
  firstn k a ++ repeat None (k - length a) ++ Some v :: skipn (S k) a.

(** [this.center]: the centre of the cell at the middle height.  The call
    writes its result into the object the local [center] names, so
    [center] is [this.center] from here on. *)
Definition centerOf (s2Cell : S2Cell) (minimumHeight maximumHeight : R)
    (ellipsoid : Ellipsoid) : Cartesian3.t :=
  let center := getCenter s2Cell in
  let centerCartographic := cartesianToCartographic ellipsoid center in
  cartographicToCartesian ellipsoid
    (setHeight centerCartographic ((maximumHeight + minimumHeight) / 2)).

(** One turn of the loop [for (i = 0; i <= 3; i++)] that adds corner [i]
    at both heights.  [Cartographic.fromCartesian] and
    [Cartographic.toCartesian] are called without an ellipsoid and work on
    their default one, [defaultEllipsoid]. *)
Definition addCornerPoints (s2Cell : S2Cell) (minimumHeight maximumHeight : R)
    (defaultEllipsoid : Ellipsoid) (points : list (option Cartesian3.t))
    (i : nat) : list (option Cartesian3.t) :=
  let scratchCartographic :=
    cartesianToCartographic defaultEllipsoid (getVertex s2Cell i) in
  let scratchCartographic := setHeight scratchCartographic maximumHeight in
  let points :=
    assign points (2 + i)
      (cartographicToCartesian defaultEllipsoid scratchCartographic) in
  let scratchCartographic := setHeight scratchCartographic minimumHeight in
  assign points (2 + i + 1)
    (cartographicToCartesian defaultEllipsoid scratchCartographic).

(** The array [points] the constructor hands to
    [OrientedBoundingBox.fromPoints]. *)
Definition boundingPoints (s2Cell : S2Cell) (minimumHeight maximumHeight : R)
    (ellipsoid defaultEllipsoid : Ellipsoid)
  : option (list (option Cartesian3.t)) :=
  let center := centerOf s2Cell minimumHeight maximumHeight ellipsoid in
  let points := repeat None 7 in
  let points := assign points 0 center in
  p0 <- index points 0 ;;
  let scratchCartographic := cartesianToCartographic defaultEllipsoid p0 in
  let scratchCartographic := setHeight scratchCartographic maximumHeight in
  let points :=
    assign points 0
      (cartographicToCartesian defaultEllipsoid scratchCartographic) in
  let scratchCartographic := setHeight scratchCartographic minimumHeight in
  let points :=
    assign points 1
      (cartographicToCartesian defaultEllipsoid scratchCartographic) in
  Some (fold_left
          (addCornerPoints s2Cell minimumHeight maximumHeight defaultEllipsoid)
          [0; 1; 2; 3]%nat points).

(** ** createDebugVolume *)

(** The [positions] of the six outlines of [createDebugVolume], in the
    order of its [geometryInstances]: the four sides, the bottom, the top.
    The geometry, instance and primitive objects built around them belong
    to other files and are left out. *)
Definition debugOutlinePositions (this : TileBoundingS2Cell)
  : list (list (option Cartesian3.t)) :=
  let topPositions := map Some (slice 0 4 (_vertices this)) in
  let bottomPositions := map Some (skipn 4 (_vertices this)) in
  let sidePositions := map (sideFace (_vertices this)) [0; 1; 2; 3]%nat in
  sidePositions ++ [bottomPositions; topPositions].
(** * Specification vocabulary *)

(** A unit vector, as the data model asks of every plane normal. *)
Definition isUnit (n : Cartesian3.t) : Prop := Cartesian3.magnitude n = 1.

(** The determinant [D] of the matrix whose rows are the three normals. *)
Definition normalDeterminant (p0 p1 p2 : Plane.t) : R :=
  let n0 := Plane.normal p0 in
  let n1 := Plane.normal p1 in
  let n2 := Plane.normal p2 in
  Matrix3.determinant
    (Matrix3.mk (Cartesian3.x n0) (Cartesian3.y n0) (Cartesian3.z n0)
                (Cartesian3.x n1) (Cartesian3.y n1) (Cartesian3.z n1)
                (Cartesian3.x n2) (Cartesian3.y n2) (Cartesian3.z n2)).

(** [sum_k cross(n_{k+1}, n_{k+2}) * dot(x_k, n_k)] with
    [x_k = -distance_k * normal_k]. *)
Definition cramerSum (p0 p1 p2 : Plane.t) : Cartesian3.t :=
  let n0 := Plane.normal p0 in
  let n1 := Plane.normal p1 in
  let n2 := Plane.normal p2 in
  let x0 := Cartesian3.multiplyByScalar n0 (- Plane.distance p0) in
  let x1 := Cartesian3.multiplyByScalar n1 (- Plane.distance p1) in
  let x2 := Cartesian3.multiplyByScalar n2 (- Plane.distance p2) in
  Cartesian3.add
    (Cartesian3.add
       (Cartesian3.multiplyByScalar (Cartesian3.cross n1 n2) (Cartesian3.dot x0 n0))
       (Cartesian3.multiplyByScalar (Cartesian3.cross n2 n0) (Cartesian3.dot x1 n1)))
    (Cartesian3.multiplyByScalar (Cartesian3.cross n0 n1) (Cartesian3.dot x2 n2)).

(** The vector [c] with each component divided by [s]. *)
Definition divideByScalar (c : Cartesian3.t) (s : R) : Cartesian3.t :=
  Cartesian3.mk (Cartesian3.x c / s) (Cartesian3.y c / s) (Cartesian3.z c / s).

(** The point [l0 + s * (l1 - l0)] of the line through [l0] and [l1]. *)
Definition segmentPoint (l0 l1 : Cartesian3.t) (s : R) : Cartesian3.t :=
  Cartesian3.add l0
    (Cartesian3.multiplyByScalar (Cartesian3.subtract l1 l0) s).

(** [s] clamped to the interval [[0, 1]]. *)
Definition clamp01 (s : R) : R := Rmax 0 (Rmin s 1).

(** The parameter [dot(p - l0, l1 - l0) / |l1 - l0|^2] of the projection
    of [p] onto the line through [l0] and [l1]. *)
Definition projectionParameter (p l0 l1 : Cartesian3.t) : R :=
  Cartesian3.dot (Cartesian3.subtract p l0) (Cartesian3.subtract l1 l0)
  / Cartesian3.magnitudeSquared (Cartesian3.subtract l1 l0).

(** The signed distance [dot(plane.normal, vertex) + plane.distance] that
    [intersectPlane] computes for a vertex. *)
Definition signedDistance (plane : Plane.t) (vertex : Cartesian3.t) : R :=
  Cartesian3.dot (Plane.normal plane) vertex + Plane.distance plane.

(** Plane [k] of the volume is violated by [point]: its signed distance
    exceeds the tolerance. *)
Definition planeViolated (this : TileBoundingS2Cell) (point : Cartesian3.t)
    (k : nat) : bool :=
  match nth_error (_boundingPlanes this) k with
  | Some plane => violated plane point
  | None => false
  end.

(** The selection the [if ... else if ...] makes among top and bottom. *)
Definition topBottomIndices (this : TileBoundingS2Cell) (point : Cartesian3.t)
  : list nat :=
  if planeViolated this point 0 then [0%nat]
  else if planeViolated this point 1 then [1%nat]
  else [].

(** The sides [i] of [0..3] whose plane [2 + i] is violated, in order. *)
Definition violatedSides (this : TileBoundingS2Cell) (point : Cartesian3.t)
    (indices : list nat) : list nat :=
  filter (fun i => planeViolated this point (2 + i)) indices.

(** The working face [distanceToCamera] keeps for plane [k] when it is the
    last one selected: the top face, the bottom face, or side [k - 2]. *)
Definition faceOf (this : TileBoundingS2Cell) (k : nat) : Face :=
  match k with
  | 0%nat => mkFace (map Some (slice 0 4 (_vertices this)))
                    (nth_error (_edgeNormals this) 0) (-1)
  | 1%nat => mkFace (map Some (slice 4 8 (_vertices this)))
                    (nth_error (_edgeNormals this) 1) 1
  | S (S i) => mkFace (sideFace (_vertices this) i)
                      (nth_error (_edgeNormals this) (2 + i)) (-1)
  end.

(** The planes of the six whose signed distance at [point] exceeds the
    tolerance. *)
Definition violatedPlanes (this : TileBoundingS2Cell) (point : Cartesian3.t)
  : list nat :=
  filter (planeViolated this point) [0; 1; 2; 3; 4; 5]%nat.

(** The indices [distanceToCamera] collects, in the order it pushes them:
    top or else bottom, then the violated sides. *)
Definition selectedIndices (this : TileBoundingS2Cell) (point : Cartesian3.t)
  : list nat :=
  topBottomIndices this point
  ++ map (Nat.add 2) (violatedSides this point [0; 1; 2; 3]%nat).

(** The face of the plane selected last, if any. *)
Definition workingFace (this : TileBoundingS2Cell) (point : Cartesian3.t)
  : option Face :=
  match rev (selectedIndices this point) with
  | [] => None
  | k :: _ => Some (faceOf this k)
  end.

(** The vertex [v] lies on the planes [k0] and [k1] of the volume. *)
Definition onBothPlanes (this : TileBoundingS2Cell) (k0 k1 : nat)
    (v : Cartesian3.t) : Prop :=
  exists pa pb : Plane.t,
    nth_error (_boundingPlanes this) k0 = Some pa
    /\ nth_error (_boundingPlanes this) k1 = Some pb
    /\ Plane.getPointDistance pa v = 0
    /\ Plane.getPointDistance pb v = 0.

(** The loop of [closestPointPolygon] keeps [closestPoint], once defined,
    on the plane of the face. *)
Definition closestOnPlane (plane : Plane.t) (st : PolygonState) : Prop :=
  match snd st with
  | None => True
  | Some c => Plane.getPointDistance plane c = 0
  end.

(** Exactly plane [k] of the six is violated by [point]. *)
Definition onlyViolated (this : TileBoundingS2Cell) (point : Cartesian3.t)
    (k : nat) : Prop :=
  (k < 6)%nat
  /\ planeViolated this point k = true
  /\ (forall j, (j < 6)%nat -> j <> k -> planeViolated this point j = false).

(** The edge normals of a quadrilateral face, one per edge
    [(a, b), (b, c), (c, d), (d, a)], as [computeEdgeNormals] forms them. *)
Definition edgeNormalOf (plane : Plane.t) (vi vj : Cartesian3.t)
  : Cartesian3.t :=
  Cartesian3.normalize
    (Cartesian3.cross (Plane.normal plane) (Cartesian3.subtract vi vj)).

Definition faceNormals (plane : Plane.t) (a b c d : Cartesian3.t)
  : list Cartesian3.t :=
  [ edgeNormalOf plane a b; edgeNormalOf plane b c;
    edgeNormalOf plane c d; edgeNormalOf plane d a ].

(** The edge normals the constructor stores for six planes and eight
    vertices. *)
Definition edgeNormalsOf (planes : list Plane.t) (vertices : list Cartesian3.t)
  : list (list Cartesian3.t) :=
  match planes, vertices with
  | p0 :: p1 :: p2 :: p3 :: p4 :: p5 :: _,
    [v0; v1; v2; v3; v4; v5; v6; v7] =>
      [ faceNormals p0 v0 v1 v2 v3;
        faceNormals p1 v4 v5 v6 v7;
        faceNormals p2 v0 v4 v5 v1;
        faceNormals p3 v1 v5 v6 v2;
        faceNormals p4 v2 v6 v7 v3;
        faceNormals p5 v3 v7 v4 v0 ]
  | _, _ => []
  end.

(** The determinants of the eight plane triples of [computeVertices] are
    not zero: no vertex is degenerate. *)
Definition nonDegenerate (planes : list Plane.t) : Prop :=
  match planes with
  | p0 :: p1 :: p2 :: p3 :: p4 :: p5 :: _ =>
      normalDeterminant p0 p5 p2 <> 0 /\ normalDeterminant p0 p2 p3 <> 0
      /\ normalDeterminant p0 p3 p4 <> 0 /\ normalDeterminant p0 p4 p5 <> 0
      /\ normalDeterminant p1 p5 p2 <> 0 /\ normalDeterminant p1 p2 p3 <> 0
      /\ normalDeterminant p1 p3 p4 <> 0 /\ normalDeterminant p1 p4 p5 <> 0
  | _ => False
  end.

(** What the comment of the source announces for more than three selected
    planes: the search of the one-plane case on the bottom face's own
    data. *)
Definition bottomFaceDistance (this : TileBoundingS2Cell)
    (point : Cartesian3.t) : option R :=
  bottomPlane <- nth_error (_boundingPlanes this) 1 ;;
  let face := faceOf this 1 in
  facePoint <- closestPointPolygon
                 (Plane.projectPointOntoPlane bottomPlane point)
                 (faceVertices face) bottomPlane
                 (normalsOf (faceEdgeNormals face)) (faceRotation face) ;;
  Some (Cartesian3.distance facePoint point).

(** ** Concrete instances *)

(** A flat stand-in for the ellipsoid: the surface is the plane [z = 0],
    the height is [z] and every surface normal is the [z] axis. *)
Definition flatEllipsoid : Ellipsoid :=
  mkEllipsoid
    (fun _ => Cartesian3.mk 0 0 1)
    (fun c => mkCartographic (Cartesian3.x c) (Cartesian3.y c) (Cartesian3.z c))
    (fun g => Cartesian3.mk (longitude g) (latitude g) (height g)).

(** The unit square as a cell, corners in counter-clockwise order. *)
Definition unitCell : S2Cell :=
  mkS2Cell
    (Cartesian3.mk (1 / 2) (1 / 2) 0)
    (fun i => match i with
              | 0%nat => Cartesian3.mk 0 0 0
              | 1%nat => Cartesian3.mk 1 0 0
              | 2%nat => Cartesian3.mk 1 1 0
              | _ => Cartesian3.mk 0 1 0
              end).

(** The bounding planes of [unitCell] between the heights 0 and 1 on
    [flatEllipsoid]: the unit cube. *)
Definition boxPlanes : list Plane.t :=
  [ Plane.mk (Cartesian3.mk 0 0 1) (-1);
    Plane.mk (Cartesian3.mk 0 0 (-1)) 0;
    Plane.mk (Cartesian3.mk 0 (-1) 0) 0;
    Plane.mk (Cartesian3.mk 1 0 0) (-1);
    Plane.mk (Cartesian3.mk 0 1 0) (-1);
    Plane.mk (Cartesian3.mk (-1) 0 0) 0 ].

Definition boxVertices : list Cartesian3.t :=
  [ Cartesian3.mk 0 0 1; Cartesian3.mk 1 0 1;
    Cartesian3.mk 1 1 1; Cartesian3.mk 0 1 1;
    Cartesian3.mk 0 0 0; Cartesian3.mk 1 0 0;
    Cartesian3.mk 1 1 0; Cartesian3.mk 0 1 0 ].

Definition box : TileBoundingS2Cell :=
  mkTileBoundingS2Cell boxPlanes boxVertices
    (edgeNormalsOf boxPlanes boxVertices).

(** A stand-in for a curved ellipsoid: heights as on [flatEllipsoid], but
    the surface normal leans away from the [z] axis with the distance to
    it, so that the side planes of a cell around the axis meet below the
    cell. *)
Definition tiltedEllipsoid : Ellipsoid :=
  mkEllipsoid
    (fun c => Cartesian3.mk (3 / 4 * Cartesian3.x c) (3 / 4 * Cartesian3.y c) 1)
    (fun c => mkCartographic (Cartesian3.x c) (Cartesian3.y c) (Cartesian3.z c))
    (fun g => Cartesian3.mk (longitude g) (latitude g) (height g)).

(** The square of side 2 around the [z] axis as a cell. *)
Definition frustumCell : S2Cell :=
  mkS2Cell
    (Cartesian3.mk 0 0 0)
    (fun i => match i with
              | 0%nat => Cartesian3.mk (-1) (-1) 0
              | 1%nat => Cartesian3.mk 1 (-1) 0
              | 2%nat => Cartesian3.mk 1 1 0
              | _ => Cartesian3.mk (-1) 1 0
              end).

(** The bounding planes of [frustumCell] between the heights 0 and 1 on
    [tiltedEllipsoid].  The sides lean outwards with the height, as the
    sides of a cell on a globe do, and meet below the volume. *)
Definition frustumPlanes : list Plane.t :=
  [ Plane.mk (Cartesian3.mk 0 0 1) (-1);
    Plane.mk (Cartesian3.mk 0 0 (-1)) 0;
    Plane.mk (Cartesian3.mk 0 (- (4 / 5)) (- (3 / 5))) (- (4 / 5));
    Plane.mk (Cartesian3.mk (4 / 5) 0 (- (3 / 5))) (- (4 / 5));
    Plane.mk (Cartesian3.mk 0 (4 / 5) (- (3 / 5))) (- (4 / 5));
    Plane.mk (Cartesian3.mk (- (4 / 5)) 0 (- (3 / 5))) (- (4 / 5)) ].

Definition frustumVertices : list Cartesian3.t :=
  [ Cartesian3.mk (- (7 / 4)) (- (7 / 4)) 1; Cartesian3.mk (7 / 4) (- (7 / 4)) 1;
    Cartesian3.mk (7 / 4) (7 / 4) 1; Cartesian3.mk (- (7 / 4)) (7 / 4) 1;
    Cartesian3.mk (-1) (-1) 0; Cartesian3.mk 1 (-1) 0;
    Cartesian3.mk 1 1 0; Cartesian3.mk (-1) 1 0 ].

Definition frustum : TileBoundingS2Cell :=
  mkTileBoundingS2Cell frustumPlanes frustumVertices
    (edgeNormalsOf frustumPlanes frustumVertices).

(** Camera positions used below. *)
Definition belowFrustum : Cartesian3.t := Cartesian3.mk 0 0 (-10).
Definition besideBottomEdge : Cartesian3.t := Cartesian3.mk (1 / 2) (-3) (-2).
Definition beyondTopCorner : Cartesian3.t := Cartesian3.mk 2 (-1) 3.
Definition beyondBottomCorner : Cartesian3.t := Cartesian3.mk 2 (-1) (-2).
Definition boxCenter : Cartesian3.t := Cartesian3.mk (1 / 2) (1 / 2) (1 / 2).
Definition aboveBox : Cartesian3.t := Cartesian3.mk (1 / 2) (1 / 2) 2.
Definition besideVerticalEdge : Cartesian3.t := Cartesian3.mk (-3) (-3) (1 / 2).

(** The planes [z = -1] (normal up) and the three planes that meet at the
    first top corner of the unit cube. *)
Definition planeBelowBox : Plane.t := Plane.mk (Cartesian3.mk 0 0 1) 1.
Definition boxTop : Plane.t := Plane.mk (Cartesian3.mk 0 0 1) (-1).
Definition boxSide0 : Plane.t := Plane.mk (Cartesian3.mk 0 (-1) 0) 0.
Definition boxSide3 : Plane.t := Plane.mk (Cartesian3.mk (-1) 0 0) 0.

(** ** Vocabulary of the further properties *)

(** The point [c] moved to the height [h] on an ellipsoid. *)
Definition liftTo (ellipsoid : Ellipsoid) (c : Cartesian3.t) (h : R)
  : Cartesian3.t :=
  cartographicToCartesian ellipsoid
    (setHeight (cartesianToCartographic ellipsoid c) h).

(** The plane seen from its other side. *)
Definition flipPlane (plane : Plane.t) : Plane.t :=
  Plane.mk (Cartesian3.negate (Plane.normal plane)) (- Plane.distance plane).

(** The plane moved by [c] along its normal. *)
Definition movePlane (plane : Plane.t) (c : R) : Plane.t :=
  Plane.mk (Plane.normal plane) (Plane.distance plane - c).

(** Edge [i] of a face is skipped by [closestPointPolygon]: the query
    point is on the inner side of the edge. *)
Definition edgeSkipped (p vi ni : Cartesian3.t) (dir : R) : Prop :=
  dir * Plane.getPointDistance (Plane.fromPointNormal vi ni) p > 0.

(** The point [v] lies on plane [k] of the volume. *)
Definition onPlaneOf (this : TileBoundingS2Cell) (k : nat)
    (v : Cartesian3.t) : Prop :=
  exists plane : Plane.t,
    nth_error (_boundingPlanes this) k = Some plane
    /\ Plane.getPointDistance plane v = 0.

(** Every plane of the list has a unit normal. *)
Definition unitNormals (planes : list Plane.t) : Prop :=
  Forall (fun plane => isUnit (Plane.normal plane)) planes.

(** The nearest point of edge [i] of a face, from [vertices[i]] to
    [vertices[(i + 1) % 4]]. *)
Definition edgeCandidate (p : Cartesian3.t)
    (vertices : list (option Cartesian3.t)) (i : nat)
  : option Cartesian3.t :=
  vi <- index vertices i ;;
  vj <- index vertices ((i + 1) mod 4) ;;
  Some (closestPointLineSegment p vi vj).

(** Edge [i] is not skipped by [closestPointPolygon]. *)
Definition edgeTested (p : Cartesian3.t)
    (vertices : list (option Cartesian3.t)) (normals : list Cartesian3.t)
    (dir : R) (i : nat) : Prop :=
  exists vi ni : Cartesian3.t,
    index vertices i = Some vi
    /\ nth_error normals i = Some ni
    /\ ~ edgeSkipped p vi ni dir.

(** What the loop of [closestPointPolygon] keeps true of
    [(minDistance, closestPoint)] after the edges [done]. *)
Definition polygonInvariant (p : Cartesian3.t)
    (vertices : list (option Cartesian3.t)) (normals : list Cartesian3.t)
    (dir : R) (done : list nat) (st : PolygonState) : Prop :=
  (snd st = None -> fst st = MAX_VALUE)
  /\ (forall c, snd st = Some c ->
        fst st = Cartesian3.distance p c
        /\ exists i, In i done /\ edgeTested p vertices normals dir i
                     /\ edgeCandidate p vertices i = Some c)
  /\ (forall i e, In i done -> edgeTested p vertices normals dir i ->
        edgeCandidate p vertices i = Some e ->
        fst st <= Cartesian3.distance p e).

(** The bounding plane that outline [i] of [createDebugVolume] draws: the
    four sides first, then the bottom, then the top. *)
Definition outlinePlane (i : nat) : nat :=
  match i with
  | 4%nat => 1%nat
  | 5%nat => 0%nat
  | _ => (2 + i)%nat
  end.

(** Camera positions for the instances of the further properties. *)
Definition aboveFrontEdge : Cartesian3.t := Cartesian3.mk (1 / 2) (-1) 2.
Definition besideFrontRightEdge : Cartesian3.t := Cartesian3.mk 2 (-1) (1 / 2).

(** * Properties *)

(** ** Exceptions *)

Lemma bind_Some {A B : Type} (c : option A) (k : A -> option B) (b : B) :
  bind c k = Some b -> exists a, c = Some a /\ k a = Some b.
Proof. destruct c as [a |]; simpl; [eauto | discriminate]. Qed.

(** ** Vector algebra *)

Lemma c3_eq (a b : Cartesian3.t) :
  Cartesian3.x a = Cartesian3.x b ->
  Cartesian3.y a = Cartesian3.y b ->
  Cartesian3.z a = Cartesian3.z b -> a = b.
Proof. destruct a, b; simpl; intros; subst; reflexivity. Qed.

Lemma magnitudeSquared_nonneg (a : Cartesian3.t) :
  0 <= Cartesian3.magnitudeSquared a.
Proof. unfold Cartesian3.magnitudeSquared; nra. Qed.

Lemma magnitudeSquared_zero (a : Cartesian3.t) :
  Cartesian3.magnitudeSquared a = 0 ->
  Cartesian3.x a = 0 /\ Cartesian3.y a = 0 /\ Cartesian3.z a = 0.
Proof. unfold Cartesian3.magnitudeSquared; intros; repeat split; nra. Qed.

Lemma sqrt_of_square (r s : R) : 0 <= r -> s = r * r -> sqrt s = r.
Proof. intros Hr Hs. subst s. apply sqrt_square. exact Hr. Qed.

Lemma isUnit_dot (n : Cartesian3.t) : isUnit n -> Cartesian3.dot n n = 1.
Proof.
  unfold isUnit, Cartesian3.magnitude; intros H.
  change (Cartesian3.dot n n) with (Cartesian3.magnitudeSquared n).
  rewrite <- (sqrt_sqrt _ (magnitudeSquared_nonneg n)), H; ring.
Qed.

Lemma dot_isUnit (n : Cartesian3.t) : Cartesian3.dot n n = 1 -> isUnit n.
Proof.
  unfold isUnit, Cartesian3.magnitude; intros H.
  change (Cartesian3.magnitudeSquared n) with (Cartesian3.dot n n).
  rewrite H; apply sqrt_1.
Qed.

(** ** computeIntersection *)

Lemma computeIntersection_closed_form (p0 p1 p2 : Plane.t) :
  computeIntersection p0 p1 p2
  = divideByScalar (cramerSum p0 p1 p2) (normalDeterminant p0 p1 p2).
Proof. reflexivity. Qed.

Ltac unfold_geometry :=
  unfold computeIntersection, cramerSum, divideByScalar, normalDeterminant,
    Matrix3.determinant, Plane.projectPointOntoPlane, Plane.fromPointNormal,
    Plane.getPointDistance, Cartesian3.distance, Cartesian3.magnitude,
    Cartesian3.magnitudeSquared, Cartesian3.dot, Cartesian3.cross,
    Cartesian3.add, Cartesian3.subtract, Cartesian3.multiplyByScalar,
    Cartesian3.negate in *;
  cbn [Cartesian3.x Cartesian3.y Cartesian3.z Plane.normal Plane.distance
       Matrix3.m11 Matrix3.m12 Matrix3.m13 Matrix3.m21 Matrix3.m22 Matrix3.m23
       Matrix3.m31 Matrix3.m32 Matrix3.m33] in *.

(** The first plane of the triple contains the computed point as soon as
    its own normal is a unit vector and the determinant is not zero. *)
Lemma computeIntersection_on_p0 (p0 p1 p2 : Plane.t) :
  Cartesian3.dot (Plane.normal p0) (Plane.normal p0) = 1 ->
  normalDeterminant p0 p1 p2 <> 0 ->
  Plane.getPointDistance p0 (computeIntersection p0 p1 p2) = 0.
Proof.
  destruct p0 as [[a0 b0 c0] d0], p1 as [[a1 b1 c1] d1], p2 as [[a2 b2 c2] d2].
  unfold_geometry; intros U D.
  replace (a0 * - d0 * a0 + b0 * - d0 * b0 + c0 * - d0 * c0)
    with (- d0 * (a0 * a0 + b0 * b0 + c0 * c0)) by ring.
  rewrite U. field. exact D.
Qed.

Lemma computeIntersection_on_p1 (p0 p1 p2 : Plane.t) :
  Cartesian3.dot (Plane.normal p1) (Plane.normal p1) = 1 ->
  normalDeterminant p0 p1 p2 <> 0 ->
  Plane.getPointDistance p1 (computeIntersection p0 p1 p2) = 0.
Proof.
  destruct p0 as [[a0 b0 c0] d0], p1 as [[a1 b1 c1] d1], p2 as [[a2 b2 c2] d2].
  unfold_geometry; intros U D.
  replace (a1 * - d1 * a1 + b1 * - d1 * b1 + c1 * - d1 * c1)
    with (- d1 * (a1 * a1 + b1 * b1 + c1 * c1)) by ring.
  rewrite U. field. exact D.
Qed.

Lemma computeIntersection_on_p2 (p0 p1 p2 : Plane.t) :
  Cartesian3.dot (Plane.normal p2) (Plane.normal p2) = 1 ->
  normalDeterminant p0 p1 p2 <> 0 ->
  Plane.getPointDistance p2 (computeIntersection p0 p1 p2) = 0.
Proof.
  destruct p0 as [[a0 b0 c0] d0], p1 as [[a1 b1 c1] d1], p2 as [[a2 b2 c2] d2].
  unfold_geometry; intros U D.
  replace (a2 * - d2 * a2 + b2 * - d2 * b2 + c2 * - d2 * c2)
    with (- d2 * (a2 * a2 + b2 * b2 + c2 * c2)) by ring.
  rewrite U. field. exact D.
Qed.

(** Cramer's rule read backwards: a common point of the three planes is
    the computed one. *)
Lemma computeIntersection_unique (p0 p1 p2 : Plane.t) (v : Cartesian3.t) :
  Cartesian3.dot (Plane.normal p0) (Plane.normal p0) = 1 ->
  Cartesian3.dot (Plane.normal p1) (Plane.normal p1) = 1 ->
  Cartesian3.dot (Plane.normal p2) (Plane.normal p2) = 1 ->
  normalDeterminant p0 p1 p2 <> 0 ->
  Plane.getPointDistance p0 v = 0 ->
  Plane.getPointDistance p1 v = 0 ->
  Plane.getPointDistance p2 v = 0 ->
  v = computeIntersection p0 p1 p2.
Proof.
  destruct p0 as [[a0 b0 c0] d0], p1 as [[a1 b1 c1] d1], p2 as [[a2 b2 c2] d2].
  destruct v as [vx vy vz].
  unfold_geometry; intros U0 U1 U2 D H0 H1 H2.
  replace (a0 * - d0 * a0 + b0 * - d0 * b0 + c0 * - d0 * c0)
    with (- d0 * (a0 * a0 + b0 * b0 + c0 * c0)) by ring.
  replace (a1 * - d1 * a1 + b1 * - d1 * b1 + c1 * - d1 * c1)
    with (- d1 * (a1 * a1 + b1 * b1 + c1 * c1)) by ring.
  replace (a2 * - d2 * a2 + b2 * - d2 * b2 + c2 * - d2 * c2)
    with (- d2 * (a2 * a2 + b2 * b2 + c2 * c2)) by ring.
  rewrite U0, U1, U2.
  assert (E0 : d0 = - (a0 * vx + b0 * vy + c0 * vz)) by lra.
  assert (E1 : d1 = - (a1 * vx + b1 * vy + c1 * vz)) by lra.
  assert (E2 : d2 = - (a2 * vx + b2 * vy + c2 * vz)) by lra.
  rewrite E0, E1, E2.
  apply c3_eq; cbn [Cartesian3.x Cartesian3.y Cartesian3.z]; field; exact D.
Qed.

(** C5.  For three planes with unit normals whose normal matrix has a
    determinant [D <> 0], [computeIntersection] returns the accumulated
    Cramer sum divided by [D]; that point lies on each of the three planes
    and is the only point that does. *)
Theorem computeIntersection_unique_solution (p0 p1 p2 : Plane.t) :
  isUnit (Plane.normal p0) ->
  isUnit (Plane.normal p1) ->
  isUnit (Plane.normal p2) ->
  normalDeterminant p0 p1 p2 <> 0 ->
  let v := computeIntersection p0 p1 p2 in
  v = divideByScalar (cramerSum p0 p1 p2) (normalDeterminant p0 p1 p2)
  /\ Cartesian3.dot (Plane.normal p0) v + Plane.distance p0 = 0
  /\ Cartesian3.dot (Plane.normal p1) v + Plane.distance p1 = 0
  /\ Cartesian3.dot (Plane.normal p2) v + Plane.distance p2 = 0
  /\ (forall w : Cartesian3.t,
         Cartesian3.dot (Plane.normal p0) w + Plane.distance p0 = 0 ->
         Cartesian3.dot (Plane.normal p1) w + Plane.distance p1 = 0 ->
         Cartesian3.dot (Plane.normal p2) w + Plane.distance p2 = 0 ->
         w = v).
Proof.
  intros U0 U1 U2 D v.
  apply isUnit_dot in U0, U1, U2.
  split; [reflexivity|].
  split; [apply (computeIntersection_on_p0 p0 p1 p2 U0 D)|].
  split; [apply (computeIntersection_on_p1 p0 p1 p2 U1 D)|].
  split; [apply (computeIntersection_on_p2 p0 p1 p2 U2 D)|].
  intros w H0 H1 H2.
  apply computeIntersection_unique; assumption.
Qed.

(** ** closestPointLineSegment *)

Lemma distinct_magnitudeSquared_pos (l0 l1 : Cartesian3.t) :
  l0 <> l1 -> 0 < Cartesian3.magnitudeSquared (Cartesian3.subtract l1 l0).
Proof.
  intros H.
  destruct (Rle_lt_or_eq_dec _ _
              (magnitudeSquared_nonneg (Cartesian3.subtract l1 l0)))
    as [Hlt | Heq]; [exact Hlt | exfalso].
  symmetry in Heq. apply magnitudeSquared_zero in Heq.
  destruct Heq as (Hx & Hy & Hz). apply H.
  unfold Cartesian3.subtract in *; simpl in *.
  apply c3_eq; lra.
Qed.

(** The squared distance from [p] to the point of parameter [s] is a
    quadratic in [s]. *)
Lemma segmentPoint_quadratic (p l0 l1 : Cartesian3.t) (s : R) :
  Cartesian3.magnitudeSquared (Cartesian3.subtract p (segmentPoint l0 l1 s))
  = Cartesian3.magnitudeSquared (Cartesian3.subtract p l0)
    - 2 * s * Cartesian3.dot (Cartesian3.subtract l1 l0) (Cartesian3.subtract p l0)
    + s * s * Cartesian3.magnitudeSquared (Cartesian3.subtract l1 l0).
Proof.
  destruct p, l0, l1; unfold segmentPoint; unfold_geometry; ring.
Qed.

(** The three branches of the source are the three cases of the clamp. *)
Lemma closestPointLineSegment_clamped (p l0 l1 : Cartesian3.t) :
  l0 <> l1 ->
  closestPointLineSegment p l0 l1
  = segmentPoint l0 l1 (clamp01 (projectionParameter p l0 l1)).
Proof.
  intros Hne.
  pose proof (distinct_magnitudeSquared_pos l0 l1 Hne) as Hpos.
  unfold closestPointLineSegment, projectionParameter, clamp01.
  change (Cartesian3.dot (Cartesian3.subtract l1 l0) (Cartesian3.subtract l1 l0))
    with (Cartesian3.magnitudeSquared (Cartesian3.subtract l1 l0)).
  replace (Cartesian3.dot (Cartesian3.subtract p l0) (Cartesian3.subtract l1 l0))
    with (Cartesian3.dot (Cartesian3.subtract l1 l0) (Cartesian3.subtract p l0))
    by (unfold Cartesian3.dot; ring).
  set (t := Cartesian3.dot (Cartesian3.subtract l1 l0) (Cartesian3.subtract p l0)) in *.
  set (dMag := Cartesian3.magnitudeSquared (Cartesian3.subtract l1 l0)) in *.
  assert (Hdiv : t / dMag * dMag = t) by (field; lra).
  destruct (Rle_dec t 0) as [Hle | Hgt].
  - assert (Hq : t / dMag <= 0) by nra.
    rewrite (Rmin_left (t / dMag) 1) by lra.
    rewrite Rmax_left by lra.
    destruct l0, l1; unfold segmentPoint; unfold_geometry.
    apply c3_eq; simpl; ring.
  - assert (Hq : 0 < t / dMag) by nra.
    destruct (Rge_dec t dMag) as [Hge | Hlt].
    + assert (Hq1 : 1 <= t / dMag) by nra.
      rewrite (Rmin_right (t / dMag) 1) by lra.
      rewrite Rmax_right by lra.
      destruct l0, l1; unfold segmentPoint; unfold_geometry.
      apply c3_eq; simpl; ring.
    + assert (Hq1 : t / dMag < 1) by nra.
      rewrite (Rmin_left (t / dMag) 1) by lra.
      rewrite Rmax_right by lra.
      clear Hdiv Hq Hq1. generalize (t / dMag); intros q.
      destruct l0, l1; unfold segmentPoint; unfold_geometry.
      apply c3_eq; simpl; ring.
Qed.

(** A quadratic [a - 2 s t + s^2 m] with [m > 0] is smallest on [[0, 1]]
    at the clamp of [t / m], and only there. *)
Lemma clamped_quadratic_minimum (a t m s : R) :
  0 < m -> 0 <= s <= 1 ->
  let q := clamp01 (t / m) in
  a - 2 * q * t + q * q * m <= a - 2 * s * t + s * s * m
  /\ (a - 2 * s * t + s * s * m <= a - 2 * q * t + q * q * m -> s = q).
Proof.
  intros Hm Hs q.
  assert (Ht : t = t / m * m) by (field; lra).
  set (r := t / m) in *.
  assert (Hq : (r <= 0 /\ q = 0) \/ (1 <= r /\ q = 1) \/ (0 <= r <= 1 /\ q = r)).
  { unfold q, clamp01.
    destruct (Rle_dec r 0); [left|right; destruct (Rle_dec 1 r); [left|right]].
    - rewrite (Rmin_left r 1), Rmax_left by lra; lra.
    - rewrite (Rmin_right r 1), Rmax_right by lra; lra.
    - rewrite (Rmin_left r 1), Rmax_right by lra; lra. }
  rewrite Ht. clearbody q r. clear Ht.
  destruct Hq as [[Hr Hq] | [[Hr Hq] | [Hr Hq]]]; subst q.
  - assert (P1 : 0 <= s * (- r) * m)
      by (apply Rmult_le_pos; [apply Rmult_le_pos|]; lra).
    assert (P2 : 0 <= s * s * m)
      by (apply Rmult_le_pos; [apply Rmult_le_pos|]; lra).
    split; [lra|]. intros H.
    assert (Z : s * s * m = 0) by lra.
    apply Rmult_integral in Z. destruct Z as [Z | Z]; [|lra].
    apply Rmult_integral in Z. destruct Z; assumption.
  - assert (P1 : 0 <= (1 - s) * (r - 1) * m)
      by (apply Rmult_le_pos; [apply Rmult_le_pos|]; lra).
    assert (P2 : 0 <= (1 - s) * (1 - s) * m)
      by (apply Rmult_le_pos; [apply Rmult_le_pos|]; lra).
    assert (E : a - 2 * s * (r * m) + s * s * m
                - (a - 2 * 1 * (r * m) + 1 * 1 * m)
                = (1 - s) * (1 - s) * m + 2 * ((1 - s) * (r - 1) * m)) by ring.
    split; [lra|]. intros H.
    assert (Z : (1 - s) * (1 - s) * m = 0) by lra.
    apply Rmult_integral in Z. destruct Z as [Z | Z]; [|lra].
    apply Rmult_integral in Z. destruct Z; lra.
  - assert (E : a - 2 * s * (r * m) + s * s * m
                - (a - 2 * r * (r * m) + r * r * m)
                = (s - r) * (s - r) * m) by ring.
    assert (P : 0 <= (s - r) * (s - r) * m)
      by (apply Rmult_le_pos; [apply Rle_0_sqr|lra]).
    split; [lra|]. intros H.
    assert (Z : (s - r) * (s - r) * m = 0) by lra.
    apply Rmult_integral in Z. destruct Z as [Z | Z]; [|lra].
    apply Rmult_integral in Z. destruct Z; lra.
Qed.

Lemma distance_sym (a b : Cartesian3.t) :
  Cartesian3.distance a b = Cartesian3.distance b a.
Proof.
  unfold Cartesian3.distance, Cartesian3.magnitude. f_equal.
  destruct a, b; unfold_geometry; ring.
Qed.

(** C8.  For distinct endpoints, [closestPointLineSegment(p, l0, l1)] is
    the point of parameter [t = dot(p - l0, l1 - l0) / |l1 - l0|^2] clamped
    to [[0, 1]]; no point of the closed segment is nearer to [p], and a
    point of the segment that is as near is that point. *)
Theorem closestPointLineSegment_minimizes (p l0 l1 : Cartesian3.t) :
  l0 <> l1 ->
  let c := closestPointLineSegment p l0 l1 in
  c = segmentPoint l0 l1 (clamp01 (projectionParameter p l0 l1))
  /\ (forall s, 0 <= s <= 1 ->
        Cartesian3.distance p c <= Cartesian3.distance p (segmentPoint l0 l1 s))
  /\ (forall s, 0 <= s <= 1 ->
        Cartesian3.distance p (segmentPoint l0 l1 s) <= Cartesian3.distance p c ->
        segmentPoint l0 l1 s = c).
Proof.
  intros Hne c.
  pose proof (closestPointLineSegment_clamped p l0 l1 Hne) as Hc.
  fold c in Hc.
  pose proof (distinct_magnitudeSquared_pos l0 l1 Hne) as Hpos.
  assert (Hpar : projectionParameter p l0 l1
                 = Cartesian3.dot (Cartesian3.subtract l1 l0)
                     (Cartesian3.subtract p l0)
                   / Cartesian3.magnitudeSquared (Cartesian3.subtract l1 l0)).
  { unfold projectionParameter. f_equal. unfold Cartesian3.dot; ring. }
  split; [exact Hc|].
  split; intros s Hs.
  - rewrite Hc. unfold Cartesian3.distance, Cartesian3.magnitude.
    apply sqrt_le_1_alt. rewrite !segmentPoint_quadratic, Hpar.
    apply clamped_quadratic_minimum; assumption.
  - rewrite Hc. unfold Cartesian3.distance, Cartesian3.magnitude.
    intros Hle.
    apply sqrt_le_0 in Hle; try apply magnitudeSquared_nonneg.
    rewrite !segmentPoint_quadratic, Hpar in Hle.
    apply clamped_quadratic_minimum in Hle; try assumption.
    rewrite Hpar, <- Hle. reflexivity.
Qed.

(** ** intersectPlane *)

(** The two counters after the loop: how many vertices fell on either
    side, and when a counter reaches the number of vertices. *)
Lemma countVertex_fold (plane : Plane.t) (vs : list Cartesian3.t) :
  forall plusCount negCount : nat,
  exists plus neg : nat,
    fold_left (countVertex plane) vs (plusCount, negCount)
    = ((plusCount + plus)%nat, (negCount + neg)%nat)
    /\ (plus + neg = length vs)%nat
    /\ (plus = length vs <-> Forall (fun v => signedDistance plane v >= 0) vs)
    /\ (neg = length vs <-> Forall (fun v => signedDistance plane v < 0) vs).
Proof.
  induction vs as [| v vs IH]; intros plusCount negCount.
  - exists 0%nat, 0%nat. simpl. rewrite !Nat.add_0_r.
    repeat split; auto.
  - simpl. unfold countVertex at 2. fold (signedDistance plane v). simpl.
    destruct (Rlt_dec (signedDistance plane v) 0) as [Hneg | Hpos].
    + destruct (IH plusCount (S negCount)) as (plus & neg & E & L & HP & HN).
      exists plus, (S neg). rewrite E.
      split; [f_equal; lia|]. split; [lia|]. split; split.
      * intros; lia.
      * intros F. inversion F; subst. lra.
      * intros Hn. constructor; [exact Hneg|]. apply HN; lia.
      * intros F. inversion F; subst. f_equal. apply HN; assumption.
    + destruct (IH (S plusCount) negCount) as (plus & neg & E & L & HP & HN).
      exists (S plus), neg. rewrite E.
      split; [f_equal; lia|]. split; [lia|]. split; split.
      * intros Hp. constructor; [lra|]. apply HP; lia.
      * intros F. inversion F; subst. f_equal. apply HP; assumption.
      * intros; lia.
      * intros F. inversion F; subst. lra.
Qed.

(** C4.  With its 8 stored vertices, [intersectPlane] answers [INSIDE]
    exactly when every vertex has a signed distance [>= 0] (zero counts for
    the normal side), [OUTSIDE] exactly when every vertex has a signed
    distance [< 0], and [INTERSECTING] in every other case. *)
Theorem intersectPlane_vertex_vote (this : TileBoundingS2Cell) (plane : Plane.t) :
  length (_vertices this) = 8%nat ->
  (intersectPlane this plane = INSIDE
   <-> Forall (fun v => signedDistance plane v >= 0) (_vertices this))
  /\ (intersectPlane this plane = OUTSIDE
      <-> Forall (fun v => signedDistance plane v < 0) (_vertices this))
  /\ (intersectPlane this plane = INTERSECTING
      <-> ~ Forall (fun v => signedDistance plane v >= 0) (_vertices this)
          /\ ~ Forall (fun v => signedDistance plane v < 0) (_vertices this)).
Proof.
  intros Hlen. unfold intersectPlane.
  destruct (countVertex_fold plane (_vertices this) 0 0)
    as (plus & neg & E & L & HP & HN).
  rewrite E. simpl Nat.add. rewrite <- HP, <- HN.
  destruct (Nat.eqb_spec plus (length (_vertices this))) as [Hp | Hp];
    [| destruct (Nat.eqb_spec neg (length (_vertices this))) as [Hn | Hn]];
    intuition (try discriminate; try lia).
Qed.

(** ** computeBoundingPlanes *)

Lemma bottomPlaneOf_distance (topPlane : Plane.t) (maxDistance : R)
    (c : Cartesian3.t) :
  Plane.getPointDistance (bottomPlaneOf topPlane maxDistance) c
  = maxDistance - Plane.getPointDistance topPlane c.
Proof.
  destruct topPlane as [[a b c0] d], c as [cx cy cz].
  unfold bottomPlaneOf, Plane.clone; unfold_geometry; ring.
Qed.

(** After the loop, [maxDistance] is the least of [0] and the four signed
    distances. *)
Lemma lowerMaxDistance_fold (topPlane : Plane.t) (corner : nat -> Cartesian3.t) :
  let m := fold_left (lowerMaxDistance topPlane corner) [0; 1; 2; 3]%nat 0 in
  m <= 0
  /\ (forall i, (i < 4)%nat -> m <= Plane.getPointDistance topPlane (corner i))
  /\ (m = 0 \/ exists i, (i < 4)%nat
                         /\ m = Plane.getPointDistance topPlane (corner i)).
Proof.
  simpl. unfold lowerMaxDistance.
  set (d0 := Plane.getPointDistance topPlane (corner 0%nat)).
  set (d1 := Plane.getPointDistance topPlane (corner 1%nat)).
  set (d2 := Plane.getPointDistance topPlane (corner 2%nat)).
  set (d3 := Plane.getPointDistance topPlane (corner 3%nat)).
  assert (Hcases : forall i, (i < 4)%nat ->
            Plane.getPointDistance topPlane (corner i) = d0
            \/ Plane.getPointDistance topPlane (corner i) = d1
            \/ Plane.getPointDistance topPlane (corner i) = d2
            \/ Plane.getPointDistance topPlane (corner i) = d3).
  { intros i Hi.
    destruct i as [| [| [| [| i]]]]; [tauto | tauto | tauto | tauto | lia]. }
  destruct (Rlt_dec d0 0); cbv beta iota;
    destruct (Rlt_dec d1 _); cbv beta iota;
    destruct (Rlt_dec d2 _); cbv beta iota;
    destruct (Rlt_dec d3 _); cbv beta iota;
    (split; [lra|]; split;
     [ intros i Hi; destruct (Hcases i Hi) as [E | [E | [E | E]]];
       rewrite E; lra
     | first [ left; reflexivity
             | right; exists 0%nat; split; [lia | reflexivity]
             | right; exists 1%nat; split; [lia | reflexivity]
             | right; exists 2%nat; split; [lia | reflexivity]
             | right; exists 3%nat; split; [lia | reflexivity] ] ]).
Qed.

(** C6.  The bottom plane is the top plane with its normal negated and its
    offset shifted by [maxDistance]: no corner lifted to [minimumHeight]
    is on its outward side, and when some lifted corner is at or below the
    top plane, the lifted corner farthest below it lies on the bottom
    plane. *)
Theorem computeBoundingPlanes_bottom (s2Cell : S2Cell)
    (minimumHeight maximumHeight : R) (ellipsoid : Ellipsoid) :
  let corner := lowerCorner s2Cell minimumHeight ellipsoid in
  exists (topPlane bottomPlane : Plane.t) (sides : list Plane.t) (shift : R),
    computeBoundingPlanes s2Cell minimumHeight maximumHeight ellipsoid
    = topPlane :: bottomPlane :: sides
    /\ Plane.normal bottomPlane = Cartesian3.negate (Plane.normal topPlane)
    /\ Plane.distance bottomPlane = - Plane.distance topPlane + shift
    /\ shift <= 0
    /\ (forall i, (i < 4)%nat ->
          Plane.getPointDistance bottomPlane (corner i) <= 0)
    /\ ((exists i, (i < 4)%nat
                   /\ Plane.getPointDistance topPlane (corner i) <= 0) ->
        forall j, (j < 4)%nat ->
          (forall i, (i < 4)%nat ->
             Plane.getPointDistance topPlane (corner j)
             <= Plane.getPointDistance topPlane (corner i)) ->
          Plane.getPointDistance bottomPlane (corner j) = 0).
Proof.
  intros corner. unfold computeBoundingPlanes.
  set (topPlane := topPlaneOf s2Cell maximumHeight ellipsoid).
  fold corner.
  destruct (lowerMaxDistance_fold topPlane corner) as (Hm0 & Hmin & Hattained).
  set (m := fold_left (lowerMaxDistance topPlane corner) [0; 1; 2; 3]%nat 0) in *.
  exists topPlane, (bottomPlaneOf topPlane m),
    (map (sidePlaneOf s2Cell ellipsoid) [0; 1; 2; 3]%nat), m.
  split; [reflexivity|].
  split; [reflexivity|].
  split; [unfold bottomPlaneOf, Plane.clone; simpl; ring|].
  split; [exact Hm0|].
  split.
  - intros i Hi. rewrite bottomPlaneOf_distance.
    specialize (Hmin i Hi). lra.
  - intros (i0 & Hi0 & Hbelow) j Hj Hleast.
    rewrite bottomPlaneOf_distance.
    pose proof (Hmin j Hj) as Hmj.
    destruct Hattained as [Hz | (k & Hk & Hmk)].
    + pose proof (Hleast i0 Hi0). lra.
    + pose proof (Hleast k Hk). lra.
Qed.

(** ** The constructor *)

Lemma mapM_Some {A B : Type} (f : A -> option B) (l : list A) (r : list B) :
  mapM f l = Some r -> length r = length l.
Proof.
  revert r. induction l as [| a l IH]; intros r H; cbn [mapM] in H.
  - inversion H; reflexivity.
  - apply bind_Some in H. destruct H as (b & Hb & H).
    apply bind_Some in H. destruct H as (bs & Hbs & H).
    inversion H; subst. cbn [length]. f_equal. apply IH. exact Hbs.
Qed.

(** With six planes (or more) the constructor does not throw; it stores
    the eight intersections and the edge normals of the six faces. *)
Lemma fromBoundingPlanes_six (p0 p1 p2 p3 p4 p5 : Plane.t)
    (rest : list Plane.t) :
  let planes := p0 :: p1 :: p2 :: p3 :: p4 :: p5 :: rest in
  let vertices :=
    [ computeIntersection p0 p5 p2; computeIntersection p0 p2 p3;
      computeIntersection p0 p3 p4; computeIntersection p0 p4 p5;
      computeIntersection p1 p5 p2; computeIntersection p1 p2 p3;
      computeIntersection p1 p3 p4; computeIntersection p1 p4 p5 ] in
  computeVertices planes = Some vertices
  /\ fromBoundingPlanes planes
     = Some (mkTileBoundingS2Cell planes vertices
               (edgeNormalsOf planes vertices)).
Proof. split; reflexivity. Qed.

Ltac solve_vertex := apply c3_eq; unfold_geometry; field_simplify; lra.

Lemma box_vertices : computeVertices boxPlanes = Some boxVertices.
Proof.
  unfold boxPlanes.
  rewrite (proj1 (fromBoundingPlanes_six _ _ _ _ _ _ [])).
  unfold boxVertices. apply f_equal.
  repeat (apply f_equal2; [solve_vertex|]). reflexivity.
Qed.

Lemma box_constructed : fromBoundingPlanes boxPlanes = Some box.
Proof.
  unfold fromBoundingPlanes. rewrite box_vertices. reflexivity.
Qed.

Lemma normalize_unit (a : Cartesian3.t) :
  Cartesian3.dot a a = 1 -> Cartesian3.normalize a = a.
Proof.
  intros H. apply dot_isUnit in H. unfold isUnit in H.
  unfold Cartesian3.normalize. rewrite H.
  destruct a; apply c3_eq; simpl; field.
Qed.

Lemma plane_eq (n n' : Cartesian3.t) (d d' : R) :
  n = n' -> d = d' -> Plane.mk n d = Plane.mk n' d'.
Proof. intros; subst; reflexivity. Qed.

(** The flat cell between the heights 0 and 1 is bounded by the planes of
    the unit cube. *)
Lemma unitCell_planes :
  computeBoundingPlanes unitCell 0 1 flatEllipsoid = boxPlanes.
Proof.
  unfold computeBoundingPlanes.
  assert (Htop : topPlaneOf unitCell 1 flatEllipsoid
                 = Plane.mk (Cartesian3.mk 0 0 1) (-1)).
  { unfold topPlaneOf, Plane.fromPointNormal. simpl.
    apply plane_eq; [reflexivity | unfold Cartesian3.dot; simpl; lra]. }
  rewrite Htop.
  assert (Hm : fold_left
                 (lowerMaxDistance (Plane.mk (Cartesian3.mk 0 0 1) (-1))
                    (lowerCorner unitCell 0 flatEllipsoid))
                 [0; 1; 2; 3]%nat 0 = -1).
  { cbn [fold_left]. unfold lowerMaxDistance, lowerCorner. simpl.
    unfold Plane.getPointDistance, Cartesian3.dot. simpl.
    repeat match goal with
           | |- context [Rlt_dec ?a ?b] =>
               destruct (Rlt_dec a b); try lra
           end. }
  rewrite Hm. unfold boxPlanes.
  apply f_equal2; [reflexivity|].
  apply f_equal2.
  { unfold bottomPlaneOf, Plane.clone, Cartesian3.negate. simpl.
    apply plane_eq; [apply c3_eq; simpl; lra | lra]. }
  cbn [map].
  repeat (apply f_equal2;
          [ unfold sidePlaneOf; simpl;
            match goal with
            | |- Plane.fromPointNormal _ (Cartesian3.normalize ?c) = Plane.mk ?n _ =>
                replace c with n by (apply c3_eq; unfold_geometry; lra)
            end;
            rewrite normalize_unit by (unfold Cartesian3.dot; simpl; lra);
            unfold Plane.fromPointNormal;
            apply plane_eq; [reflexivity | unfold Cartesian3.dot; simpl; lra]
          |]).
  reflexivity.
Qed.

(** The unit cube is what the constructor builds for the flat cell. *)
Lemma box_is_constructed : construct unitCell 0 1 flatEllipsoid = Some box.
Proof. unfold construct. rewrite unitCell_planes. apply box_constructed. Qed.

Lemma frustum_vertices : computeVertices frustumPlanes = Some frustumVertices.
Proof.
  unfold frustumPlanes.
  rewrite (proj1 (fromBoundingPlanes_six _ _ _ _ _ _ [])).
  unfold frustumVertices. apply f_equal.
  repeat (apply f_equal2; [solve_vertex|]). reflexivity.
Qed.

Lemma frustum_constructed : fromBoundingPlanes frustumPlanes = Some frustum.
Proof.
  unfold fromBoundingPlanes. rewrite frustum_vertices. reflexivity.
Qed.

Lemma normalize_scaled (c n : Cartesian3.t) (m : R) :
  0 < m -> c = Cartesian3.multiplyByScalar n m -> Cartesian3.dot n n = 1 ->
  Cartesian3.normalize c = n.
Proof.
  intros Hm Hc Hn. subst c.
  assert (Hmag : Cartesian3.magnitude (Cartesian3.multiplyByScalar n m) = m).
  { unfold Cartesian3.magnitude. apply sqrt_of_square; [lra|].
    destruct n as [a b c]. unfold_geometry.
    match goal with
    | |- ?L = _ => replace L with (m * m * (a * a + b * b + c * c)) by ring
    end.
    rewrite Hn. ring. }
  unfold Cartesian3.normalize. rewrite Hmag.
  destruct n; apply c3_eq; simpl; field; lra.
Qed.

(** The cell around the axis of the tilted ellipsoid is bounded by the
    planes of the frustum. *)
Lemma frustumCell_planes :
  computeBoundingPlanes frustumCell 0 1 tiltedEllipsoid = frustumPlanes.
Proof.
  unfold computeBoundingPlanes.
  assert (Htop : topPlaneOf frustumCell 1 tiltedEllipsoid
                 = Plane.mk (Cartesian3.mk 0 0 1) (-1)).
  { unfold topPlaneOf, Plane.fromPointNormal. simpl.
    apply plane_eq; [apply c3_eq; simpl; lra
                    | unfold Cartesian3.dot; simpl; lra]. }
  rewrite Htop.
  assert (Hm : fold_left
                 (lowerMaxDistance (Plane.mk (Cartesian3.mk 0 0 1) (-1))
                    (lowerCorner frustumCell 0 tiltedEllipsoid))
                 [0; 1; 2; 3]%nat 0 = -1).
  { cbn [fold_left]. unfold lowerMaxDistance, lowerCorner. simpl.
    unfold Plane.getPointDistance, Cartesian3.dot. simpl.
    repeat match goal with
           | |- context [Rlt_dec ?a ?b] =>
               destruct (Rlt_dec a b); try lra
           end. }
  rewrite Hm. unfold frustumPlanes.
  apply f_equal2; [reflexivity|].
  apply f_equal2.
  { unfold bottomPlaneOf, Plane.clone, Cartesian3.negate. simpl.
    apply plane_eq; [apply c3_eq; simpl; lra | lra]. }
  cbn [map].
  repeat (apply f_equal2;
          [ unfold sidePlaneOf; simpl;
            match goal with
            | |- Plane.fromPointNormal _ (Cartesian3.normalize ?c)
                 = Plane.mk ?n _ =>
                rewrite (normalize_scaled c n (5 / 2))
                  by first [ lra
                           | apply c3_eq; unfold_geometry; lra
                           | unfold Cartesian3.dot; simpl; lra ]
            end;
            unfold Plane.fromPointNormal;
            apply plane_eq; [reflexivity | unfold Cartesian3.dot; simpl; lra]
          |]).
  reflexivity.
Qed.

(** The frustum is what the constructor builds for that cell. *)
Lemma frustum_is_constructed :
  construct frustumCell 0 1 tiltedEllipsoid = Some frustum.
Proof.
  unfold construct. rewrite frustumCell_planes. apply frustum_constructed.
Qed.

(** ** Plane selection in distanceToCamera *)

Lemma violated_true (plane : Plane.t) (point : Cartesian3.t) :
  violated plane point = true
  <-> Plane.getPointDistance plane point > CesiumMath.EPSILON14.
Proof.
  unfold violated, CesiumMath.greaterThan.
  destruct (Rgt_dec _ _) as [H | H]; split; intros; try discriminate;
    try reflexivity; lra.
Qed.

Lemma violated_false (plane : Plane.t) (point : Cartesian3.t) :
  violated plane point = false
  <-> Plane.getPointDistance plane point <= CesiumMath.EPSILON14.
Proof.
  unfold violated, CesiumMath.greaterThan.
  destruct (Rgt_dec _ _) as [H | H]; split; intros; try discriminate;
    try reflexivity; lra.
Qed.

Lemma EPSILON14_pos : 0 < CesiumMath.EPSILON14.
Proof.
  unfold CesiumMath.EPSILON14. apply Rinv_0_lt_compat.
  apply pow_lt. lra.
Qed.

Lemma selectTopBottom_indices (this : TileBoundingS2Cell)
    (point : Cartesian3.t) (sel : Selection) :
  selectTopBottom this point = Some sel ->
  fst sel = topBottomIndices this point.
Proof.
  unfold selectTopBottom, topBottomIndices, planeViolated.
  destruct (nth_error (_boundingPlanes this) 0) as [p0 |]; cbn [bind];
    [| discriminate].
  destruct (violated p0 point).
  - intros E; inversion E; reflexivity.
  - destruct (nth_error (_boundingPlanes this) 1) as [p1 |]; cbn [bind];
      [| discriminate].
    destruct (violated p1 point); intros E; inversion E; reflexivity.
Qed.

Lemma selectSides_indices (this : TileBoundingS2Cell) (point : Cartesian3.t) :
  forall (indices : list nat) (sel sel' : Selection),
    selectSides this point indices sel = Some sel' ->
    fst sel' = fst sel ++ map (Nat.add 2) (violatedSides this point indices).
Proof.
  induction indices as [| i rest IH]; intros sel sel' H;
    cbn [selectSides] in H.
  - inversion H; subst. cbn [violatedSides filter map].
    rewrite app_nil_r. reflexivity.
  - apply bind_Some in H. destruct H as (s1 & Hstep & Hrest).
    apply IH in Hrest. rewrite Hrest. clear IH Hrest.
    unfold selectSide in Hstep. unfold violatedSides.
    cbn [filter]. unfold planeViolated at 2.
    destruct (nth_error (_boundingPlanes this) (2 + i)) as [p |];
      cbn [bind] in Hstep; [| discriminate].
    destruct (violated p point); inversion Hstep; subst; cbn [fst map].
    + rewrite <- app_assoc. reflexivity.
    + reflexivity.
Qed.

Lemma selectPlanes_indices (this : TileBoundingS2Cell) (point : Cartesian3.t)
    (sel : Selection) :
  selectPlanes this point = Some sel ->
  fst sel = topBottomIndices this point
            ++ map (Nat.add 2) (violatedSides this point [0; 1; 2; 3]%nat).
Proof.
  unfold selectPlanes. intros H.
  apply bind_Some in H. destruct H as (s0 & H0 & H1).
  apply selectSides_indices in H1. apply selectTopBottom_indices in H0.
  rewrite H1, H0. reflexivity.
Qed.

(** With six planes, no lookup of the selection reads [undefined]. *)
Lemma selectPlanes_total (this : TileBoundingS2Cell) (point : Cartesian3.t) :
  length (_boundingPlanes this) = 6%nat ->
  exists sel, selectPlanes this point = Some sel.
Proof.
  intros Hlen.
  unfold selectPlanes, selectTopBottom, selectSides, selectSide.
  destruct (_boundingPlanes this) as [| p0 [| p1 [| p2 [| p3 [| p4 [| p5 [| ? ?]]]]]]];
    try discriminate.
  simpl.
  destruct (violated p0 point); [| destruct (violated p1 point)]; simpl;
    destruct (violated p2 point); simpl;
    destruct (violated p3 point); simpl;
    destruct (violated p4 point); simpl;
    destruct (violated p5 point); simpl; eauto.
Qed.

(** ** The selection, computed *)

(** With six planes, the selection loop ends with the indices of
    [selectedIndices] and the face of the last of them. *)
Lemma selectPlanes_spec (this : TileBoundingS2Cell) (point : Cartesian3.t) :
  (6 <= length (_boundingPlanes this))%nat ->
  selectPlanes this point
  = Some (selectedIndices this point, workingFace this point).
Proof.
  intros Hlen.
  unfold workingFace, selectedIndices, topBottomIndices, violatedSides,
    planeViolated, selectPlanes, selectTopBottom, selectSides, selectSide,
    faceOf.
  destruct (_boundingPlanes this)
    as [| p0 [| p1 [| p2 [| p3 [| p4 [| p5 rest]]]]]];
    try (exfalso; simpl in Hlen; lia).
  cbn [nth_error Nat.add filter bind].
  destruct (violated p0 point); [| destruct (violated p1 point)];
    cbn [bind fst snd];
    destruct (violated p2 point); cbn [bind fst snd];
    destruct (violated p3 point); cbn [bind fst snd];
    destruct (violated p4 point); cbn [bind fst snd];
    destruct (violated p5 point); reflexivity.
Qed.

Lemma EPSILON14_lt_1 : CesiumMath.EPSILON14 < 1.
Proof. unfold CesiumMath.EPSILON14. simpl. lra. Qed.

(** Decides [planeViolated] for a concrete volume, point and index. *)
Ltac decide_violated :=
  cbv [planeViolated box boxPlanes frustum frustumPlanes _boundingPlanes
       nth_error belowFrustum besideBottomEdge beyondTopCorner
       beyondBottomCorner boxCenter aboveBox besideVerticalEdge];
  first [apply violated_true | apply violated_false];
  unfold_geometry;
  pose proof EPSILON14_pos; pose proof EPSILON14_lt_1; lra.

(** Computes [violatedPlanes] for a concrete volume and point. *)
Ltac decide_planes :=
  unfold violatedPlanes; cbn [filter];
  repeat match goal with
         | |- context [planeViolated ?t ?p ?k] =>
             first [ replace (planeViolated t p k) with true
                       by (symmetry; decide_violated)
                   | replace (planeViolated t p k) with false
                       by (symmetry; decide_violated) ]
         end;
  reflexivity.

(** ** Volumes built by the constructor select the violated planes *)

Lemma construct_planes (s2Cell : S2Cell) (minimumHeight maximumHeight : R)
    (ellipsoid : Ellipsoid) (this : TileBoundingS2Cell) :
  construct s2Cell minimumHeight maximumHeight ellipsoid = Some this ->
  exists (topPlane : Plane.t) (shift : R) (s0 s1 s2 s3 : Plane.t),
    shift <= 0
    /\ _boundingPlanes this
       = [topPlane; bottomPlaneOf topPlane shift; s0; s1; s2; s3].
Proof.
  unfold construct, computeBoundingPlanes. cbn [map].
  set (topPlane := topPlaneOf s2Cell maximumHeight ellipsoid).
  destruct (lowerMaxDistance_fold topPlane
              (lowerCorner s2Cell minimumHeight ellipsoid)) as (Hm & _).
  set (m := fold_left _ _ 0) in *.
  rewrite (proj2 (fromBoundingPlanes_six _ _ _ _ _ _ [])).
  intros H. inversion H; subst this.
  exists topPlane, m. do 4 eexists. split; [exact Hm | reflexivity].
Qed.

(** The bottom plane is the top plane turned over and moved down: a point
    beyond the top plane is not beyond the bottom plane. *)
Lemma constructed_top_excludes_bottom (s2Cell : S2Cell)
    (minimumHeight maximumHeight : R) (ellipsoid : Ellipsoid)
    (this : TileBoundingS2Cell) (point : Cartesian3.t) :
  construct s2Cell minimumHeight maximumHeight ellipsoid = Some this ->
  planeViolated this point 0 = true ->
  planeViolated this point 1 = false.
Proof.
  intros Hbuilt.
  destruct (construct_planes _ _ _ _ _ Hbuilt)
    as (topPlane & m & s0 & s1 & s2 & s3 & Hm & Hplanes).
  unfold planeViolated. rewrite Hplanes. cbn [nth_error].
  rewrite violated_true, violated_false, bottomPlaneOf_distance.
  pose proof EPSILON14_pos. lra.
Qed.

(** So the indices the source collects are those of the violated planes,
    in increasing order. *)
Lemma constructed_selection (s2Cell : S2Cell)
    (minimumHeight maximumHeight : R) (ellipsoid : Ellipsoid)
    (this : TileBoundingS2Cell) (point : Cartesian3.t) :
  construct s2Cell minimumHeight maximumHeight ellipsoid = Some this ->
  (6 <= length (_boundingPlanes this))%nat
  /\ selectedIndices this point = violatedPlanes this point.
Proof.
  intros Hbuilt. split.
  { destruct (construct_planes _ _ _ _ _ Hbuilt)
      as (topPlane & m & s0 & s1 & s2 & s3 & _ & Hplanes).
    rewrite Hplanes. simpl. lia. }
  pose proof (constructed_top_excludes_bottom _ _ _ _ _ point Hbuilt) as Hex.
  unfold selectedIndices, violatedPlanes, topBottomIndices, violatedSides.
  cbn [filter Nat.add].
  destruct (planeViolated this point 0);
    [rewrite (Hex eq_refl) | destruct (planeViolated this point 1)];
    destruct (planeViolated this point 2);
    destruct (planeViolated this point 3);
    destruct (planeViolated this point 4);
    destruct (planeViolated this point 5); reflexivity.
Qed.

(** ** distanceToCamera: no plane selected *)

(** C7.  A point whose signed distance to each of the six bounding planes
    is at most the tolerance selects no plane, and [distanceToCamera]
    returns 0. *)
Theorem distanceToCamera_inside (this : TileBoundingS2Cell)
    (point : Cartesian3.t) :
  length (_boundingPlanes this) = 6%nat ->
  Forall (fun plane =>
            Plane.getPointDistance plane point <= CesiumMath.EPSILON14)
         (_boundingPlanes this) ->
  distanceToCamera this point = Some 0.
Proof.
  intros Hlen Hall.
  destruct (selectPlanes_total this point Hlen) as (sel & Hsel).
  pose proof (selectPlanes_indices this point sel Hsel) as Hidx.
  assert (Hnone : forall k, planeViolated this point k = false).
  { intros k. unfold planeViolated.
    destruct (nth_error (_boundingPlanes this) k) as [p |] eqn:E;
      [| reflexivity].
    apply violated_false. apply nth_error_In in E.
    rewrite Forall_forall in Hall. apply Hall; exact E. }
  unfold topBottomIndices, violatedSides in Hidx. simpl in Hidx.
  rewrite !Hnone in Hidx. simpl in Hidx.
  unfold distanceToCamera. rewrite Hsel. simpl. rewrite Hidx. reflexivity.
Qed.

(** ** distanceToCamera: one plane selected *)

Lemma onlyViolated_selected (this : TileBoundingS2Cell) (point : Cartesian3.t)
    (k : nat) :
  onlyViolated this point k -> selectedIndices this point = [k].
Proof.
  intros (Hk & Hv & Hothers).
  unfold selectedIndices, topBottomIndices, violatedSides.
  cbn [filter Nat.add].
  destruct k as [| [| [| [| [| [| k]]]]]]; [ | | | | | | lia];
    rewrite Hv;
    rewrite ?(Hothers 0%nat), ?(Hothers 1%nat), ?(Hothers 2%nat),
      ?(Hothers 3%nat), ?(Hothers 4%nat), ?(Hothers 5%nat) by lia;
    reflexivity.
Qed.

Lemma distanceToCamera_one_selected (this : TileBoundingS2Cell)
    (point : Cartesian3.t) (k : nat) (plane : Plane.t) :
  (6 <= length (_boundingPlanes this))%nat ->
  selectedIndices this point = [k] ->
  nth_error (_boundingPlanes this) k = Some plane ->
  distanceToCamera this point
  = (facePoint <- closestPointPolygon
                    (Plane.projectPointOntoPlane plane point)
                    (faceVertices (faceOf this k)) plane
                    (normalsOf (faceEdgeNormals (faceOf this k)))
                    (faceRotation (faceOf this k)) ;;
     Some (Cartesian3.distance facePoint point)).
Proof.
  intros Hlen Hsel Hplane.
  unfold distanceToCamera. rewrite selectPlanes_spec by exact Hlen.
  unfold workingFace. rewrite Hsel.
  cbn [bind fst snd rev app]. rewrite Hplane. reflexivity.
Qed.

Lemma closestPointLineSegment_on_plane (plane : Plane.t)
    (p l0 l1 : Cartesian3.t) :
  Plane.getPointDistance plane l0 = 0 ->
  Plane.getPointDistance plane l1 = 0 ->
  Plane.getPointDistance plane (closestPointLineSegment p l0 l1) = 0.
Proof.
  intros H0 H1. unfold closestPointLineSegment.
  destruct (Rle_dec _ _); [exact H0|].
  destruct (Rge_dec _ _); [exact H1|].
  match goal with |- context [?a / ?b] => generalize (a / b) end.
  intros t.
  destruct plane as [[a b c] d], l0 as [x0 y0 z0], l1 as [x1 y1 z1].
  unfold_geometry.
  replace (a * ((1 - t) * x0 + t * x1) + b * ((1 - t) * y0 + t * y1)
           + c * ((1 - t) * z0 + t * z1) + d)
    with ((1 - t) * (a * x0 + b * y0 + c * z0 + d)
          + t * (a * x1 + b * y1 + c * z1 + d)) by ring.
  rewrite H0, H1. ring.
Qed.

Lemma polygonStep_on_plane (plane : Plane.t) (p : Cartesian3.t)
    (vertices : list (option Cartesian3.t)) (normals : list Cartesian3.t)
    (dir : R) (st : PolygonState) (i : nat) (vi vj ni : Cartesian3.t) :
  index vertices i = Some vi ->
  index vertices ((i + 1) mod 4) = Some vj ->
  nth_error normals i = Some ni ->
  Plane.getPointDistance plane vi = 0 ->
  Plane.getPointDistance plane vj = 0 ->
  closestOnPlane plane st ->
  exists st', polygonStep p vertices (NormalsArray normals) dir st i = Some st'
              /\ closestOnPlane plane st'.
Proof.
  intros Hvi Hvj Hni Hi Hj Hst.
  unfold polygonStep. rewrite Hvi. cbn [bind edgeNormalAt]. rewrite Hni.
  cbn [bind]. destruct (Rgt_dec _ _); [eauto|].
  rewrite Hvj. cbn [bind]. destruct (Rlt_dec _ _); [| eauto].
  eexists; split; [reflexivity|].
  unfold closestOnPlane; cbn [snd].
  apply closestPointLineSegment_on_plane; assumption.
Qed.

(** On a face with its four vertices on the plane, the search returns a
    point of the plane for every query point of the plane. *)
Lemma closestPointPolygon_on_plane (plane anyPlane : Plane.t)
    (p a b c d : Cartesian3.t) (normals : list Cartesian3.t) (dir : R) :
  length normals = 4%nat ->
  Plane.getPointDistance plane a = 0 ->
  Plane.getPointDistance plane b = 0 ->
  Plane.getPointDistance plane c = 0 ->
  Plane.getPointDistance plane d = 0 ->
  Plane.getPointDistance plane p = 0 ->
  exists facePoint,
    closestPointPolygon p [Some a; Some b; Some c; Some d] anyPlane
      (NormalsArray normals) dir = Some facePoint
    /\ Plane.getPointDistance plane facePoint = 0.
Proof.
  intros Hlen Ha Hb Hc Hd Hp.
  destruct normals as [| n0 [| n1 [| n2 [| n3 [| ? ?]]]]]; try discriminate.
  unfold closestPointPolygon. cbn [length seq polygonLoop].
  set (vs := [Some a; Some b; Some c; Some d]).
  set (ns := [n0; n1; n2; n3]).
  assert (H0 : closestOnPlane plane (MAX_VALUE, None)) by exact I.
  destruct (polygonStep_on_plane plane p vs ns dir _ 0 a b n0
              eq_refl eq_refl eq_refl Ha Hb H0) as (s1 & E1 & H1).
  rewrite E1; cbn [bind].
  destruct (polygonStep_on_plane plane p vs ns dir _ 1 b c n1
              eq_refl eq_refl eq_refl Hb Hc H1) as (s2 & E2 & H2).
  rewrite E2; cbn [bind].
  destruct (polygonStep_on_plane plane p vs ns dir _ 2 c d n2
              eq_refl eq_refl eq_refl Hc Hd H2) as (s3 & E3 & H3).
  rewrite E3; cbn [bind].
  destruct (polygonStep_on_plane plane p vs ns dir _ 3 d a n3
              eq_refl eq_refl eq_refl Hd Ha H3) as (s4 & E4 & H4).
  rewrite E4; cbn [bind].
  unfold closestOnPlane in H4.
  destruct (snd s4) as [cp |]; eauto.
Qed.

(** Facts about a plane whose normal is a unit vector. *)
Section UnitNormal.

Variable plane : Plane.t.
Hypothesis unit_normal :
  Cartesian3.dot (Plane.normal plane) (Plane.normal plane) = 1.

Lemma projectPointOntoPlane_on_plane (point : Cartesian3.t) :
  Plane.getPointDistance plane (Plane.projectPointOntoPlane plane point) = 0.
Proof.
  pose proof unit_normal as U. destruct point as [px py pz].
  unfold_geometry.
  set (a := Cartesian3.x (Plane.normal plane)) in *.
  set (b := Cartesian3.y (Plane.normal plane)) in *.
  set (c := Cartesian3.z (Plane.normal plane)) in *.
  match goal with
  | |- ?L = _ =>
      replace L with ((a * px + b * py + c * pz + Plane.distance plane)
                      * (1 - (a * a + b * b + c * c))) by ring
  end.
  rewrite U. ring.
Qed.

(** Moving a point along the normal moves its signed distance by as much
    and leaves its projection where it was. *)
Lemma getPointDistance_along_normal (point : Cartesian3.t) (t : R) :
  Plane.getPointDistance plane
    (Cartesian3.add point (Cartesian3.multiplyByScalar (Plane.normal plane) t))
  = Plane.getPointDistance plane point + t.
Proof.
  pose proof unit_normal as U. destruct point as [px py pz].
  unfold_geometry.
  set (a := Cartesian3.x (Plane.normal plane)) in *.
  set (b := Cartesian3.y (Plane.normal plane)) in *.
  set (c := Cartesian3.z (Plane.normal plane)) in *.
  match goal with
  | |- ?L = ?R =>
      replace L with (R + t * ((a * a + b * b + c * c) - 1)) by ring
  end.
  rewrite U. ring.
Qed.

Lemma projectPointOntoPlane_along_normal (point : Cartesian3.t) (t : R) :
  Plane.projectPointOntoPlane plane
    (Cartesian3.add point (Cartesian3.multiplyByScalar (Plane.normal plane) t))
  = Plane.projectPointOntoPlane plane point.
Proof.
  unfold Plane.projectPointOntoPlane.
  rewrite getPointDistance_along_normal.
  destruct point as [px py pz]. unfold_geometry.
  apply c3_eq; cbn [Cartesian3.x Cartesian3.y Cartesian3.z]; ring.
Qed.

(** Pythagoras: from a point [f] of the plane, the squared distance to
    [point] is the squared distance to its projection plus the square of
    its signed distance. *)
Lemma magnitudeSquared_from_plane (f point : Cartesian3.t) :
  Plane.getPointDistance plane f = 0 ->
  Cartesian3.magnitudeSquared (Cartesian3.subtract f point)
  = Cartesian3.magnitudeSquared
      (Cartesian3.subtract f (Plane.projectPointOntoPlane plane point))
    + Plane.getPointDistance plane point * Plane.getPointDistance plane point.
Proof.
  pose proof unit_normal as U.
  destruct point as [px py pz], f as [fx fy fz].
  unfold_geometry. intros HF.
  set (a := Cartesian3.x (Plane.normal plane)) in *.
  set (b := Cartesian3.y (Plane.normal plane)) in *.
  set (c := Cartesian3.z (Plane.normal plane)) in *.
  set (d := Plane.distance plane) in *.
  match goal with
  | |- ?L = ?R =>
      replace R with (L + 2 * (a * px + b * py + c * pz + d)
                          * (a * fx + b * fy + c * fz + d)
                      + (a * px + b * py + c * pz + d)
                        * (a * px + b * py + c * pz + d)
                        * ((a * a + b * b + c * c) - 1)) by ring
  end.
  rewrite U, HF. ring.
Qed.

End UnitNormal.

(** The face the constructor stores for plane [k]: four vertices, each an
    intersection that involves plane [k], and four edge normals. *)
Lemma constructed_face (p0 p1 p2 p3 p4 p5 : Plane.t) (rest : list Plane.t)
    (k : nat) (plane : Plane.t) :
  let planes := p0 :: p1 :: p2 :: p3 :: p4 :: p5 :: rest in
  let vertices :=
    [ computeIntersection p0 p5 p2; computeIntersection p0 p2 p3;
      computeIntersection p0 p3 p4; computeIntersection p0 p4 p5;
      computeIntersection p1 p5 p2; computeIntersection p1 p2 p3;
      computeIntersection p1 p3 p4; computeIntersection p1 p4 p5 ] in
  let this := mkTileBoundingS2Cell planes vertices
                (edgeNormalsOf planes vertices) in
  nonDegenerate planes ->
  (k < 6)%nat ->
  nth_error planes k = Some plane ->
  Cartesian3.dot (Plane.normal plane) (Plane.normal plane) = 1 ->
  exists (a b c d : Cartesian3.t) (normals : list Cartesian3.t),
    faceVertices (faceOf this k) = [Some a; Some b; Some c; Some d]
    /\ faceEdgeNormals (faceOf this k) = Some normals
    /\ length normals = 4%nat
    /\ Plane.getPointDistance plane a = 0
    /\ Plane.getPointDistance plane b = 0
    /\ Plane.getPointDistance plane c = 0
    /\ Plane.getPointDistance plane d = 0.
Proof.
  intros planes vertices this
    (D0 & D1 & D2 & D3 & D4 & D5 & D6 & D7) Hk Hplane U.
  destruct k as [| [| [| [| [| [| k]]]]]]; [ | | | | | | lia];
    cbn [nth_error planes] in Hplane; inversion Hplane; subst plane;
    do 5 eexists;
    (split; [reflexivity|]); (split; [reflexivity|]);
    (split; [reflexivity|]);
    repeat split;
    first [ apply computeIntersection_on_p0; assumption
          | apply computeIntersection_on_p1; assumption
          | apply computeIntersection_on_p2; assumption ].
Qed.

(** C9.  On a volume built from planes with no degenerate vertex, let
    exactly one plane be violated at [P], its normal [n] a unit vector, and
    let exactly the same plane be violated at [P + t * n] for a [t > 0].
    Then [distanceToCamera] returns a distance at both points, and a
    strictly greater one at [P + t * n]. *)
Theorem distanceToCamera_increases_outward (planes : list Plane.t)
    (this : TileBoundingS2Cell) (P : Cartesian3.t) (k : nat)
    (plane : Plane.t) (t : R) :
  fromBoundingPlanes planes = Some this ->
  nonDegenerate planes ->
  nth_error planes k = Some plane ->
  isUnit (Plane.normal plane) ->
  onlyViolated this P k ->
  0 < t ->
  onlyViolated this
    (Cartesian3.add P (Cartesian3.multiplyByScalar (Plane.normal plane) t)) k ->
  exists d d' : R,
    distanceToCamera this P = Some d
    /\ distanceToCamera this
         (Cartesian3.add P (Cartesian3.multiplyByScalar (Plane.normal plane) t))
       = Some d'
    /\ d < d'.
Proof.
  intros Hbuilt Hnd Hplane Hunit Hat Ht Hat'.
  apply isUnit_dot in Hunit.
  destruct planes as [| p0 [| p1 [| p2 [| p3 [| p4 [| p5 rest]]]]]];
    try contradiction.
  rewrite (proj2 (fromBoundingPlanes_six p0 p1 p2 p3 p4 p5 rest)) in Hbuilt.
  match type of Hbuilt with
  | Some ?v = Some _ => assert (Hthis : this = v) by congruence
  end.
  clear Hbuilt. subst this.
  assert (Hk : (k < 6)%nat) by (destruct Hat; assumption).
  destruct (constructed_face p0 p1 p2 p3 p4 p5 rest k plane Hnd Hk Hplane Hunit)
    as (a & b & c & d0 & normals & Hvs & Hns & Hlen & Ha & Hb & Hc & Hd).
  match type of Hvs with
  | faceVertices (faceOf ?v _) = _ => set (this := v) in *
  end.
  assert (Hsix : (6 <= length (_boundingPlanes this))%nat)
    by (simpl; lia).
  assert (Hplane' : nth_error (_boundingPlanes this) k = Some plane)
    by exact Hplane.
  assert (Hh : Plane.getPointDistance plane P > CesiumMath.EPSILON14).
  { destruct Hat as (_ & Hv & _). unfold planeViolated in Hv.
    rewrite Hplane' in Hv. apply violated_true. exact Hv. }
  rewrite (distanceToCamera_one_selected this P k plane Hsix
             (onlyViolated_selected _ _ _ Hat) Hplane').
  rewrite (distanceToCamera_one_selected this _ k plane Hsix
             (onlyViolated_selected _ _ _ Hat') Hplane').
  rewrite (projectPointOntoPlane_along_normal plane Hunit).
  rewrite Hvs, Hns. cbn [normalsOf].
  destruct (closestPointPolygon_on_plane plane plane
              (Plane.projectPointOntoPlane plane P) a b c d0 normals
              (faceRotation (faceOf this k)) Hlen Ha Hb Hc Hd
              (projectPointOntoPlane_on_plane plane Hunit P))
    as (facePoint & Hface & Hon).
  rewrite Hface. cbn [bind].
  do 2 eexists. split; [reflexivity|]. split; [reflexivity|].
  unfold Cartesian3.distance, Cartesian3.magnitude.
  apply sqrt_lt_1_alt.
  rewrite (magnitudeSquared_from_plane plane Hunit facePoint P Hon).
  rewrite (magnitudeSquared_from_plane plane Hunit facePoint
             (Cartesian3.add P
                (Cartesian3.multiplyByScalar (Plane.normal plane) t))
             Hon).
  rewrite (projectPointOntoPlane_along_normal plane Hunit),
    (getPointDistance_along_normal plane Hunit).
  pose proof (magnitudeSquared_nonneg
                (Cartesian3.subtract facePoint
                   (Plane.projectPointOntoPlane plane P))) as Hnn.
  pose proof EPSILON14_pos as Heps.
  set (h := Plane.getPointDistance plane P) in *.
  assert (0 <= h * h) by nra.
  assert (h * h < (h + t) * (h + t)) by nra.
  lra.
Qed.

(** ** distanceToCamera: two planes selected *)

Lemma box_violated_bottom_side :
  violatedPlanes box besideBottomEdge = [1; 2]%nat
  /\ selectedIndices box besideBottomEdge = [1; 2]%nat.
Proof.
  rewrite (proj2 (constructed_selection _ _ _ _ _ besideBottomEdge box_is_constructed)).
  split; decide_planes.
Qed.

(** Evaluates [closestPointLineSegment] at concrete points. *)
Ltac eval_segment :=
  unfold closestPointLineSegment;
  repeat match goal with
         | |- context [Rle_dec ?a ?b] =>
             let Hc := fresh "Hc" in
             destruct (Rle_dec a b) as [Hc | Hc];
             [ try (exfalso; unfold_geometry; lra)
             | try (exfalso; apply Hc; unfold_geometry; lra) ]
         | |- context [Rge_dec ?a ?b] =>
             let Hc := fresh "Hc" in
             destruct (Rge_dec a b) as [Hc | Hc];
             [ try (exfalso; unfold_geometry; lra)
             | try (exfalso; apply Hc; unfold_geometry; lra) ]
         end.

Lemma box_violated_two_sides :
  violatedPlanes box besideVerticalEdge = [2; 5]%nat
  /\ selectedIndices box besideVerticalEdge = [2; 5]%nat.
Proof.
  rewrite (proj2 (constructed_selection _ _ _ _ _ besideVerticalEdge box_is_constructed)).
  split; decide_planes.
Qed.

Lemma sqrt_not (a r : R) : 0 <= a -> a <> r * r -> sqrt a <> r.
Proof.
  intros Ha Hne H. apply Hne. rewrite <- H. symmetry. apply sqrt_sqrt. exact Ha.
Qed.

(** Which stored vertices of the unit cube lie on two given planes. *)
Ltac solve_shared_vertices :=
  let v := fresh "v" in
  let Hin := fresh "Hin" in
  intros v Hin; cbv [box _vertices boxVertices In] in Hin;
  split;
  [ intros (pa & pb & Ea & Eb & Ha & Hb);
    cbv [box _boundingPlanes boxPlanes nth_error] in Ea, Eb;
    inversion Ea; inversion Eb; subst pa pb;
    repeat (destruct Hin as [Hin | Hin];
            [ subst v; unfold_geometry;
              first [ left; reflexivity | right; reflexivity
                    | exfalso; lra ] |]);
    contradiction
  | intros [E | E]; subst v; do 2 eexists;
    (split; [reflexivity|]); (split; [reflexivity|]);
    unfold_geometry; split; lra ].

(** C2, at two failing inputs on the unit cube.  Beside its bottom edge
    only the bottom plane and the first side plane are violated; the
    stored vertices on both are [vertices[4]] and [vertices[5]], at
    distance [sqrt 13], and the source measures to the segment from
    [vertices[2]] to [vertices[3]] and returns 5.  Beside its vertical
    edge only the first and the last side plane are violated; the stored
    vertices on both are [vertices[0]] and [vertices[4]], at distance
    [sqrt 18], and the source measures to the segment from [vertices[5]]
    to [vertices[1]] and returns 5. *)
Theorem distanceToCamera_two_selected_wrong_edge :
  construct unitCell 0 1 flatEllipsoid = Some box
  /\ (violatedPlanes box besideBottomEdge = [1; 2]%nat
      /\ (forall v, In v (_vertices box) ->
            onBothPlanes box 1 2 v
            <-> (v = Cartesian3.mk 0 0 0 \/ v = Cartesian3.mk 1 0 0))
      /\ Cartesian3.distance
           (closestPointLineSegment besideBottomEdge
              (Cartesian3.mk 0 0 0) (Cartesian3.mk 1 0 0))
           besideBottomEdge = sqrt 13
      /\ distanceToCamera box besideBottomEdge = Some 5
      /\ sqrt 13 <> 5)
  /\ (violatedPlanes box besideVerticalEdge = [2; 5]%nat
      /\ (forall v, In v (_vertices box) ->
            onBothPlanes box 2 5 v
            <-> (v = Cartesian3.mk 0 0 1 \/ v = Cartesian3.mk 0 0 0))
      /\ Cartesian3.distance
           (closestPointLineSegment besideVerticalEdge
              (Cartesian3.mk 0 0 1) (Cartesian3.mk 0 0 0))
           besideVerticalEdge = sqrt 18
      /\ distanceToCamera box besideVerticalEdge = Some 5
      /\ sqrt 18 <> 5).
Proof.
  split; [exact box_is_constructed|]. split.
  - split; [exact (proj1 box_violated_bottom_side)|].
    split; [solve_shared_vertices|].
    split.
    { unfold besideBottomEdge. eval_segment.
      unfold Cartesian3.distance, Cartesian3.magnitude. f_equal.
      unfold_geometry. field. }
    split; [| apply sqrt_not; lra].
    unfold distanceToCamera.
    rewrite selectPlanes_spec by (simpl; lia).
    cbn [bind fst]. rewrite (proj2 box_violated_bottom_side).
    cbv [Nat.eqb bind box _vertices boxVertices nth_error Nat.add Nat.modulo
         Nat.divmod fst snd Nat.sub].
    f_equal. unfold besideBottomEdge. eval_segment.
    unfold Cartesian3.distance, Cartesian3.magnitude.
    apply sqrt_of_square; [lra|]. unfold_geometry. field.
  - split; [exact (proj1 box_violated_two_sides)|].
    split; [solve_shared_vertices|].
    split.
    { unfold besideVerticalEdge. eval_segment.
      unfold Cartesian3.distance, Cartesian3.magnitude. f_equal.
      unfold_geometry. field. }
    split; [| apply sqrt_not; lra].
    unfold distanceToCamera.
    rewrite selectPlanes_spec by (simpl; lia).
    cbn [bind fst]. rewrite (proj2 box_violated_two_sides).
    cbv [Nat.eqb bind box _vertices boxVertices nth_error Nat.add Nat.modulo
         Nat.divmod fst snd Nat.sub].
    f_equal. unfold besideVerticalEdge. eval_segment.
    unfold Cartesian3.distance, Cartesian3.magnitude.
    apply sqrt_of_square; [lra|]. unfold_geometry. field.
Qed.

(** ** distanceToCamera: three planes selected *)

Lemma topBottomIndices_cases (this : TileBoundingS2Cell) (point : Cartesian3.t) :
  topBottomIndices this point = [0%nat]
  \/ topBottomIndices this point = [1%nat]
  \/ topBottomIndices this point = [].
Proof.
  unfold topBottomIndices.
  destruct (planeViolated this point 0); [tauto|].
  destruct (planeViolated this point 1); tauto.
Qed.

Lemma side_indices_ge_2 (l : list nat) (k : nat) :
  In k (map (Nat.add 2) l) -> (2 <= k)%nat.
Proof. rewrite in_map_iff. intros (i & E & _). lia. Qed.

(** The first element of the filtered sides is the first violated side. *)
Lemma violatedSides_head (this : TileBoundingS2Cell) (point : Cartesian3.t)
    (i : nat) (rest : list nat) :
  violatedSides this point [0; 1; 2; 3]%nat = i :: rest ->
  (i < 4)%nat
  /\ planeViolated this point (2 + i) = true
  /\ (forall j, (j < i)%nat -> planeViolated this point (2 + j) = false).
Proof.
  unfold violatedSides. cbn [filter].
  destruct (planeViolated this point (2 + 0)) eqn:B0;
    [ intros E; inversion E; subst; repeat split; [lia | exact B0 | intros; lia] |].
  destruct (planeViolated this point (2 + 1)) eqn:B1;
    [ intros E; inversion E; subst; repeat split; [lia | exact B1 |];
      intros [| j] Hj; [exact B0 | lia] |].
  destruct (planeViolated this point (2 + 2)) eqn:B2;
    [ intros E; inversion E; subst; repeat split; [lia | exact B2 |];
      intros [| [| j]] Hj; [exact B0 | exact B1 | lia] |].
  destruct (planeViolated this point (2 + 3)) eqn:B3;
    [ intros E; inversion E; subst; repeat split; [lia | exact B3 |];
      intros [| [| [| j]]] Hj; [exact B0 | exact B1 | exact B2 | lia] |].
  discriminate.
Qed.

Lemma vertex_defined (this : TileBoundingS2Cell) (k : nat) :
  length (_vertices this) = 8%nat -> (k < 8)%nat ->
  exists vertex, nth_error (_vertices this) k = Some vertex.
Proof.
  intros Hlen Hk.
  destruct (nth_error (_vertices this) k) as [v |] eqn:E; [eauto|].
  apply nth_error_None in E. lia.
Qed.

(** C10.  With exactly three planes selected and the top plane not among
    them, [distanceToCamera] returns the distance to
    [vertices[4 + ((i0 + 1) % 4)]], [i0] being the first selected index.
    When the bottom plane is selected, [i0 = 1] and the vertex is
    [vertices[6]] whichever two sides are selected.  When the three
    selected planes are sides, [i0] is the index of the first violated
    side plane. *)
Theorem distanceToCamera_three_selected (this : TileBoundingS2Cell)
    (point : Cartesian3.t) (sel : Selection) :
  length (_vertices this) = 8%nat ->
  selectPlanes this point = Some sel ->
  length (fst sel) = 3%nat ->
  let i0 := nth 0 (fst sel) 0%nat in
  (~ In 0%nat (fst sel) ->
     exists vertex,
       nth_error (_vertices this) (4 + (i0 + 1) mod 4) = Some vertex
       /\ distanceToCamera this point
          = Some (Cartesian3.distance point vertex))
  /\ (In 1%nat (fst sel) ->
        i0 = 1%nat
        /\ exists vertex,
             nth_error (_vertices this) 6 = Some vertex
             /\ distanceToCamera this point
                = Some (Cartesian3.distance point vertex))
  /\ (~ In 0%nat (fst sel) -> ~ In 1%nat (fst sel) ->
        exists i, i0 = (2 + i)%nat /\ (i < 4)%nat
                  /\ planeViolated this point (2 + i) = true
                  /\ (forall j, (j < i)%nat ->
                        planeViolated this point (2 + j) = false)).
Proof.
  intros Hlen Hsel H3 i0.
  pose proof (selectPlanes_indices this point sel Hsel) as Hidx.
  assert (Hbranch : ~ In 0%nat (fst sel) ->
            exists vertex,
              nth_error (_vertices this) (4 + (i0 + 1) mod 4) = Some vertex
              /\ distanceToCamera this point
                 = Some (Cartesian3.distance point vertex)).
  { intros Hno0.
    destruct (vertex_defined this (4 + (i0 + 1) mod 4) Hlen) as (vertex & Hv).
    { pose proof (Nat.mod_upper_bound (i0 + 1) 4). lia. }
    exists vertex. split; [exact Hv|].
    unfold distanceToCamera. rewrite Hsel. cbn [bind].
    subst i0.
    destruct (fst sel) as [| k0 [| k1 [| k2 [| k3 rest]]]]; try discriminate.
    cbn [nth] in Hv.
    destruct (Nat.eqb_spec k0 0) as [E0 | E0].
    - exfalso. apply Hno0. left. exact E0.
    - rewrite Hv. reflexivity. }
  split; [exact Hbranch|]. split.
  - intros H1.
    assert (Htb : topBottomIndices this point = [1%nat]).
    { destruct (topBottomIndices_cases this point) as [E | [E | E]];
        [| exact E |]; rewrite E in Hidx; rewrite Hidx in H1;
        cbn [app In] in H1.
      - destruct H1 as [H1 | H1]; [discriminate|].
        apply side_indices_ge_2 in H1. lia.
      - apply side_indices_ge_2 in H1. lia. }
    rewrite Htb in Hidx.
    assert (Hi0 : i0 = 1%nat) by (subst i0; rewrite Hidx; reflexivity).
    split; [exact Hi0|].
    assert (Hno0 : ~ In 0%nat (fst sel)).
    { rewrite Hidx. cbn [app In]. intros [E | E]; [discriminate|].
      apply side_indices_ge_2 in E. lia. }
    destruct (Hbranch Hno0) as (vertex & Hv & Hd).
    rewrite Hi0 in Hv. exists vertex. split; [exact Hv | exact Hd].
  - intros Hno0 Hno1.
    assert (Htb : topBottomIndices this point = []).
    { destruct (topBottomIndices_cases this point) as [E | [E | E]];
        [| | exact E]; exfalso; rewrite E in Hidx;
        [apply Hno0 | apply Hno1]; rewrite Hidx; left; reflexivity. }
    rewrite Htb in Hidx. cbn [app] in Hidx.
    destruct (violatedSides this point [0; 1; 2; 3]%nat) as [| i rest] eqn:Hv.
    + rewrite Hidx in H3. discriminate.
    + apply violatedSides_head in Hv. destruct Hv as (Hi & Hvi & Hfirst).
      exists i. split; [subst i0; rewrite Hidx; reflexivity|].
      repeat split; assumption.
Qed.

(** ** distanceToCamera: three planes selected, at the corners *)

Lemma box_violated_top_corner :
  violatedPlanes box beyondTopCorner = [0; 2; 3]%nat
  /\ selectedIndices box beyondTopCorner = [0; 2; 3]%nat.
Proof.
  rewrite (proj2 (constructed_selection _ _ _ _ _ beyondTopCorner box_is_constructed)).
  split; decide_planes.
Qed.

Lemma box_violated_bottom_corner :
  violatedPlanes box beyondBottomCorner = [1; 2; 3]%nat
  /\ selectedIndices box beyondBottomCorner = [1; 2; 3]%nat.
Proof.
  rewrite (proj2 (constructed_selection _ _ _ _ _ beyondBottomCorner box_is_constructed)).
  split; decide_planes.
Qed.

Lemma sqrt_6_not_3 : sqrt 6 <> 3.
Proof.
  intros H.
  assert (Hsq : sqrt 6 * sqrt 6 = 6) by (apply sqrt_sqrt; lra).
  rewrite H in Hsq. lra.
Qed.

(** C3, at two failing inputs.  Beyond a top corner of the unit cube the
    top plane and the first two side planes are violated and meet at
    [vertices[1]], at distance [sqrt 6]; the source measures to
    [vertices[2]] and returns 3.  Beyond the bottom corner below it the
    bottom plane and the same two sides meet at [vertices[5]], at distance
    [sqrt 6]; the source measures to [vertices[6]] and returns 3. *)
Theorem distanceToCamera_corner_wrong_vertex :
  construct unitCell 0 1 flatEllipsoid = Some box
  /\ (violatedPlanes box beyondTopCorner = [0; 2; 3]%nat
      /\ nth_error (_vertices box) 1 = Some (Cartesian3.mk 1 0 1)
      /\ (forall k, In k [0; 2; 3]%nat ->
            planeViolated box beyondTopCorner k = true
            /\ exists plane, nth_error (_boundingPlanes box) k = Some plane
                 /\ Plane.getPointDistance plane (Cartesian3.mk 1 0 1) = 0)
      /\ Cartesian3.distance beyondTopCorner (Cartesian3.mk 1 0 1) = sqrt 6
      /\ distanceToCamera box beyondTopCorner = Some 3)
  /\ (violatedPlanes box beyondBottomCorner = [1; 2; 3]%nat
      /\ nth_error (_vertices box) 5 = Some (Cartesian3.mk 1 0 0)
      /\ (forall k, In k [1; 2; 3]%nat ->
            planeViolated box beyondBottomCorner k = true
            /\ exists plane, nth_error (_boundingPlanes box) k = Some plane
                 /\ Plane.getPointDistance plane (Cartesian3.mk 1 0 0) = 0)
      /\ Cartesian3.distance beyondBottomCorner (Cartesian3.mk 1 0 0) = sqrt 6
      /\ distanceToCamera box beyondBottomCorner = Some 3)
  /\ sqrt 6 <> 3.
Proof.
  split; [exact box_is_constructed|].
  split; [| split; [| exact sqrt_6_not_3]].
  - split; [exact (proj1 box_violated_top_corner)|].
    split; [reflexivity|].
    split.
    { intros k Hk. cbn [In] in Hk.
      destruct Hk as [E | [E | [E | []]]]; subst k;
        (split; [decide_violated|]);
        eexists; (split; [reflexivity|]); unfold_geometry; lra. }
    split.
    { unfold Cartesian3.distance, Cartesian3.magnitude, beyondTopCorner.
      f_equal. unfold_geometry. lra. }
    unfold distanceToCamera.
    rewrite selectPlanes_spec by (simpl; lia).
    cbn [bind fst]. rewrite (proj2 box_violated_top_corner).
    cbv [Nat.eqb bind box _vertices boxVertices nth_error Nat.add Nat.modulo
         Nat.divmod fst snd Nat.sub].
    f_equal. unfold Cartesian3.distance, Cartesian3.magnitude, beyondTopCorner.
    apply sqrt_of_square; [lra|]. unfold_geometry. lra.
  - split; [exact (proj1 box_violated_bottom_corner)|].
    split; [reflexivity|].
    split.
    { intros k Hk. cbn [In] in Hk.
      destruct Hk as [E | [E | [E | []]]]; subst k;
        (split; [decide_violated|]);
        eexists; (split; [reflexivity|]); unfold_geometry; lra. }
    split.
    { unfold Cartesian3.distance, Cartesian3.magnitude, beyondBottomCorner.
      f_equal. unfold_geometry. lra. }
    unfold distanceToCamera.
    rewrite selectPlanes_spec by (simpl; lia).
    cbn [bind fst]. rewrite (proj2 box_violated_bottom_corner).
    cbv [Nat.eqb bind box _vertices boxVertices nth_error Nat.add Nat.modulo
         Nat.divmod fst snd Nat.sub].
    f_equal. unfold Cartesian3.distance, Cartesian3.magnitude, beyondBottomCorner.
    apply sqrt_of_square; [lra|]. unfold_geometry. lra.
Qed.

(** ** distanceToCamera: more than three planes selected *)

Lemma topBottomIndices_length (this : TileBoundingS2Cell)
    (point : Cartesian3.t) :
  (length (topBottomIndices this point) <= 1)%nat.
Proof.
  destruct (topBottomIndices_cases this point) as [E | [E | E]];
    rewrite E; simpl; lia.
Qed.

(** Once a side is selected, the working face is a side face. *)
Lemma selectSides_face (this : TileBoundingS2Cell) (point : Cartesian3.t) :
  forall (indices : list nat) (sel sel' : Selection),
    selectSides this point indices sel = Some sel' ->
    sel' = sel
    \/ exists i, snd sel' = Some (faceOf this (2 + i)).
Proof.
  induction indices as [| i rest IH]; intros sel sel' H;
    cbn [selectSides] in H.
  - left. inversion H; reflexivity.
  - apply bind_Some in H. destruct H as (s1 & Hstep & Hrest).
    apply IH in Hrest. destruct Hrest as [E | Hside]; [subst sel' | right; exact Hside].
    unfold selectSide in Hstep.
    destruct (nth_error (_boundingPlanes this) (2 + i)) as [p |];
      cbn [bind] in Hstep; [| discriminate].
    destruct (violated p point); inversion Hstep; subst.
    + right. exists i. reflexivity.
    + left. reflexivity.
Qed.

(** With more than three planes selected the call passes
    [edgeNormals[0]], a single vector, where [closestPointPolygon] indexes
    an array of edge normals: the first turn of its loop reads [undefined]
    and [Plane.fromPointNormal] throws. *)
Lemma more_than_three_selected_throws (this : TileBoundingS2Cell)
    (point : Cartesian3.t) (sel : Selection) :
  selectPlanes this point = Some sel ->
  (3 < length (fst sel))%nat ->
  distanceToCamera this point = None.
Proof.
  intros Hsel Hlen.
  assert (Hface : exists i, snd sel = Some (faceOf this (2 + i))).
  { unfold selectPlanes in Hsel. apply bind_Some in Hsel.
    destruct Hsel as (s0 & H0 & H1).
    destruct (selectSides_face this point _ _ _ H1) as [E | Hside];
      [| exact Hside].
    subst sel. apply selectTopBottom_indices in H0.
    pose proof (topBottomIndices_length this point). rewrite H0 in Hlen. lia. }
  destruct Hface as (i & Hface).
  unfold distanceToCamera. rewrite Hsel. cbn [bind].
  destruct (fst sel) as [| k0 [| k1 [| k2 [| k3 rest]]]];
    try (simpl in Hlen; lia).
  destruct (nth_error (_boundingPlanes this) 0) as [p0 |]; cbn [bind];
    [| reflexivity].
  rewrite Hface. cbn [bind faceOf Nat.add faceEdgeNormals faceVertices].
  unfold firstNormalOf.
  destruct (nth_error (_edgeNormals this) (S (S i))) as [a |]; cbn [bind];
    [| reflexivity].
  destruct (nth_error a 0) as [c |]; cbn [bind];
    unfold closestPointPolygon, sideFace;
    cbn [length seq polygonLoop]; unfold polygonStep at 1;
    (destruct (index _ 0) as [vi |]; cbn [bind edgeNormalAt]; reflexivity).
Qed.

(** C1, as the code has it.  On a volume built by the constructor, a
    point that violates more than three of the six planes makes
    [distanceToCamera] throw: no distance is returned, neither the one to
    the bottom face nor any other. *)
Theorem distanceToCamera_more_than_three_throws (s2Cell : S2Cell)
    (minimumHeight maximumHeight : R) (ellipsoid : Ellipsoid)
    (this : TileBoundingS2Cell) (point : Cartesian3.t) :
  construct s2Cell minimumHeight maximumHeight ellipsoid = Some this ->
  (3 < length (violatedPlanes this point))%nat ->
  distanceToCamera this point = None.
Proof.
  intros Hbuilt Hlen.
  destruct (constructed_selection _ _ _ _ _ point Hbuilt) as (Hsix & Hsel).
  apply (more_than_three_selected_throws this point
           (selectedIndices this point, workingFace this point)).
  - apply selectPlanes_spec. exact Hsix.
  - cbn [fst]. rewrite Hsel. exact Hlen.
Qed.

Lemma frustum_violated :
  violatedPlanes frustum belowFrustum = [1; 2; 3; 4; 5]%nat.
Proof. decide_planes. Qed.

Lemma polygonStep_skip (p : Cartesian3.t)
    (vertices : list (option Cartesian3.t)) (edgeNormals : EdgeNormalsArg)
    (dir : R) (st : PolygonState) (i : nat) (vi ni : Cartesian3.t) :
  index vertices i = Some vi ->
  edgeNormalAt edgeNormals i = Some ni ->
  dir * Plane.getPointDistance (Plane.fromPointNormal vi ni) p > 0 ->
  polygonStep p vertices edgeNormals dir st i = Some st.
Proof.
  intros Hvi Hni Hout. unfold polygonStep. rewrite Hvi, Hni. cbn [bind].
  destruct (Rgt_dec _ _); [reflexivity | contradiction].
Qed.

(** An edge normal of the bottom face of the frustum, whose edges have
    length 2. *)
Lemma frustum_bottom_edgeNormal (vi vj n : Cartesian3.t) :
  Cartesian3.cross (Cartesian3.mk 0 0 (-1)) (Cartesian3.subtract vi vj)
  = Cartesian3.multiplyByScalar n 2 ->
  Cartesian3.dot n n = 1 ->
  edgeNormalOf (Plane.mk (Cartesian3.mk 0 0 (-1)) 0) vi vj = n.
Proof.
  intros Hc Hn. unfold edgeNormalOf. cbn [Plane.normal].
  apply (normalize_scaled _ n 2); [lra | exact Hc | exact Hn].
Qed.

(** The search the comment announces, on the bottom face of the frustum:
    the projection of the camera is inside the face, at distance 10. *)
Lemma bottomFaceDistance_below_frustum :
  bottomFaceDistance frustum belowFrustum = Some 10.
Proof.
  unfold bottomFaceDistance.
  cbv [frustum frustumPlanes frustumVertices _boundingPlanes _vertices
       _edgeNormals nth_error bind faceOf faceVertices faceEdgeNormals
       faceRotation edgeNormalsOf slice skipn firstn Nat.sub map normalsOf
       faceNormals].
  rewrite (frustum_bottom_edgeNormal _ _ (Cartesian3.mk 0 1 0))
    by (first [apply c3_eq | idtac]; unfold_geometry; lra).
  rewrite (frustum_bottom_edgeNormal _ _ (Cartesian3.mk (-1) 0 0))
    by (first [apply c3_eq | idtac]; unfold_geometry; lra).
  rewrite (frustum_bottom_edgeNormal _ _ (Cartesian3.mk 0 (-1) 0))
    by (first [apply c3_eq | idtac]; unfold_geometry; lra).
  rewrite (frustum_bottom_edgeNormal _ _ (Cartesian3.mk 1 0 0))
    by (first [apply c3_eq | idtac]; unfold_geometry; lra).
  unfold closestPointPolygon. cbn [length seq polygonLoop].
  do 4 (match goal with
        | |- context [polygonStep ?p ?vs ?en ?dir ?st ?i] =>
            rewrite (polygonStep_skip p vs en dir st i _ _ eq_refl eq_refl)
              by (unfold belowFrustum; unfold_geometry; lra)
        end; cbn [bind]).
  cbn [bind snd]. f_equal.
  unfold Cartesian3.distance, Cartesian3.magnitude, belowFrustum.
  apply sqrt_of_square; [lra|]. unfold_geometry. lra.
Qed.

(** Below the frustum its bottom and its four sides are violated.  The
    search on the bottom face would give 10; [distanceToCamera] throws. *)
Lemma distanceToCamera_below_frustum :
  construct frustumCell 0 1 tiltedEllipsoid = Some frustum
  /\ violatedPlanes frustum belowFrustum = [1; 2; 3; 4; 5]%nat
  /\ (3 < length (violatedPlanes frustum belowFrustum))%nat
  /\ bottomFaceDistance frustum belowFrustum = Some 10
  /\ distanceToCamera frustum belowFrustum = None.
Proof.
  assert (Hlen : (3 < length (violatedPlanes frustum belowFrustum))%nat)
    by (rewrite frustum_violated; simpl; lia).
  split; [exact frustum_is_constructed|].
  split; [exact frustum_violated|].
  split; [exact Hlen|].
  split; [exact bottomFaceDistance_below_frustum|].
  exact (distanceToCamera_more_than_three_throws frustumCell 0 1
           tiltedEllipsoid frustum belowFrustum frustum_is_constructed Hlen).
Defined.

(** * Instances *)

(** C4 at the unit cube and the plane [z = -1]: all eight vertices are on
    the normal side. *)
Lemma intersectPlane_vertex_vote_witness :
  length (_vertices box) = 8%nat
  /\ intersectPlane box planeBelowBox = INSIDE.
Proof.
  split; [reflexivity|].
  apply (proj1 (intersectPlane_vertex_vote box planeBelowBox eq_refl)).
  cbv [box _vertices boxVertices planeBelowBox].
  repeat constructor; unfold signedDistance; unfold_geometry; lra.
Defined.

(** C5 at the top plane and the two sides that meet at [vertices[0]] of
    the unit cube. *)
Lemma computeIntersection_unique_solution_witness :
  isUnit (Plane.normal boxTop)
  /\ isUnit (Plane.normal boxSide3)
  /\ isUnit (Plane.normal boxSide0)
  /\ normalDeterminant boxTop boxSide3 boxSide0 <> 0
  /\ Plane.getPointDistance boxTop
       (computeIntersection boxTop boxSide3 boxSide0) = 0
  /\ (forall w : Cartesian3.t,
        Cartesian3.dot (Plane.normal boxTop) w + Plane.distance boxTop = 0 ->
        Cartesian3.dot (Plane.normal boxSide3) w + Plane.distance boxSide3 = 0 ->
        Cartesian3.dot (Plane.normal boxSide0) w + Plane.distance boxSide0 = 0 ->
        w = computeIntersection boxTop boxSide3 boxSide0).
Proof.
  assert (U0 : isUnit (Plane.normal boxTop))
    by (apply dot_isUnit; unfold boxTop; unfold_geometry; lra).
  assert (U1 : isUnit (Plane.normal boxSide3))
    by (apply dot_isUnit; unfold boxSide3; unfold_geometry; lra).
  assert (U2 : isUnit (Plane.normal boxSide0))
    by (apply dot_isUnit; unfold boxSide0; unfold_geometry; lra).
  assert (D : normalDeterminant boxTop boxSide3 boxSide0 <> 0)
    by (unfold boxTop, boxSide3, boxSide0; unfold_geometry; lra).
  split; [exact U0|]. split; [exact U1|]. split; [exact U2|].
  split; [exact D|].
  destruct (computeIntersection_unique_solution boxTop boxSide3 boxSide0
              U0 U1 U2 D) as (_ & H0 & _ & _ & Huniq).
  split; [exact H0 | exact Huniq].
Defined.

(** C6 at the flat unit cell between the heights 0 and 1: every lowered
    corner is 1 below the top plane, and the first of them lies on the
    bottom plane. *)
Lemma computeBoundingPlanes_bottom_witness :
  exists bottomPlane : Plane.t,
    nth_error (computeBoundingPlanes unitCell 0 1 flatEllipsoid) 1
    = Some bottomPlane
    /\ Plane.getPointDistance bottomPlane
         (lowerCorner unitCell 0 flatEllipsoid 0) = 0.
Proof.
  destruct (computeBoundingPlanes_bottom unitCell 0 1 flatEllipsoid)
    as (topPlane & bottomPlane & sides & shift & E & _ & _ & _ & _ & Hlowest).
  exists bottomPlane. split; [rewrite E; reflexivity|].
  assert (Htop : topPlane = boxTop).
  { rewrite unitCell_planes in E. unfold boxPlanes in E.
    injection E as E0 _. symmetry. exact E0. }
  assert (Hd : forall i, (i < 4)%nat ->
            Plane.getPointDistance topPlane
              (lowerCorner unitCell 0 flatEllipsoid i) = -1).
  { intros i Hi. rewrite Htop.
    destruct i as [| [| [| [| i]]]]; [ | | | | lia];
      unfold lowerCorner, boxTop; simpl; unfold_geometry; lra. }
  apply Hlowest.
  - exists 0%nat. split; [lia|]. rewrite Hd by lia. lra.
  - lia.
  - intros i Hi. rewrite !Hd by lia. lra.
Defined.

(** C7 at the centre of the unit cube. *)
Lemma distanceToCamera_inside_witness :
  length (_boundingPlanes box) = 6%nat
  /\ Forall (fun plane =>
               Plane.getPointDistance plane boxCenter <= CesiumMath.EPSILON14)
            (_boundingPlanes box)
  /\ distanceToCamera box boxCenter = Some 0.
Proof.
  assert (Hall : Forall (fun plane =>
                   Plane.getPointDistance plane boxCenter
                   <= CesiumMath.EPSILON14) (_boundingPlanes box)).
  { cbv [box _boundingPlanes boxPlanes boxCenter].
    pose proof EPSILON14_pos.
    repeat constructor; unfold_geometry; lra. }
  split; [reflexivity|]. split; [exact Hall|].
  exact (distanceToCamera_inside box boxCenter eq_refl Hall).
Defined.

(** C8 at the bottom edge of the unit cube along [x] and the camera
    beside it. *)
Lemma closestPointLineSegment_minimizes_witness :
  Cartesian3.mk 0 0 0 <> Cartesian3.mk 1 0 0
  /\ closestPointLineSegment besideBottomEdge
       (Cartesian3.mk 0 0 0) (Cartesian3.mk 1 0 0)
     = segmentPoint (Cartesian3.mk 0 0 0) (Cartesian3.mk 1 0 0)
         (clamp01 (projectionParameter besideBottomEdge
                     (Cartesian3.mk 0 0 0) (Cartesian3.mk 1 0 0))).
Proof.
  assert (Hne : Cartesian3.mk 0 0 0 <> Cartesian3.mk 1 0 0).
  { intros H. apply (f_equal Cartesian3.x) in H. simpl in H. lra. }
  split; [exact Hne|].
  exact (proj1 (closestPointLineSegment_minimizes besideBottomEdge
                  (Cartesian3.mk 0 0 0) (Cartesian3.mk 1 0 0) Hne)).
Defined.

Lemma box_nonDegenerate : nonDegenerate boxPlanes.
Proof. unfold boxPlanes, nonDegenerate. unfold_geometry. repeat split; lra. Qed.

Lemma box_onlyViolated_top (point : Cartesian3.t) :
  point = aboveBox
  \/ point = Cartesian3.add aboveBox
              (Cartesian3.multiplyByScalar (Plane.normal boxTop) 1) ->
  onlyViolated box point 0.
Proof.
  intros Hpoint. split; [lia|].
  split; [| intros j Hj Hne;
            destruct j as [| [| [| [| [| [| j]]]]]]; try lia];
    destruct Hpoint; subst point; unfold boxTop; decide_violated.
Qed.

(** C9 above the top face of the unit cube, one unit further up. *)
Lemma distanceToCamera_increases_outward_witness :
  fromBoundingPlanes boxPlanes = Some box
  /\ nonDegenerate boxPlanes
  /\ nth_error boxPlanes 0 = Some boxTop
  /\ isUnit (Plane.normal boxTop)
  /\ onlyViolated box aboveBox 0
  /\ 0 < 1
  /\ onlyViolated box
       (Cartesian3.add aboveBox
          (Cartesian3.multiplyByScalar (Plane.normal boxTop) 1)) 0
  /\ exists d d' : R,
       distanceToCamera box aboveBox = Some d
       /\ distanceToCamera box
            (Cartesian3.add aboveBox
               (Cartesian3.multiplyByScalar (Plane.normal boxTop) 1))
          = Some d'
       /\ d < d'.
Proof.
  assert (U : isUnit (Plane.normal boxTop))
    by (apply dot_isUnit; unfold boxTop; unfold_geometry; lra).
  assert (H1 : onlyViolated box aboveBox 0)
    by (apply box_onlyViolated_top; left; reflexivity).
  assert (H2 : onlyViolated box
                 (Cartesian3.add aboveBox
                    (Cartesian3.multiplyByScalar (Plane.normal boxTop) 1)) 0)
    by (apply box_onlyViolated_top; right; reflexivity).
  split; [exact box_constructed|]. split; [exact box_nonDegenerate|].
  split; [reflexivity|]. split; [exact U|]. split; [exact H1|].
  split; [exact Rlt_0_1|]. split; [exact H2|].
  exact (distanceToCamera_increases_outward boxPlanes box aboveBox 0 boxTop 1
           box_constructed box_nonDegenerate eq_refl U H1 Rlt_0_1 H2).
Defined.

(** C10 beyond the bottom corner of the unit cube: bottom plane and two
    sides selected, the distance is measured to [vertices[6]]. *)
Lemma distanceToCamera_three_selected_witness :
  length (_vertices box) = 8%nat
  /\ selectPlanes box beyondBottomCorner
     = Some (selectedIndices box beyondBottomCorner,
             workingFace box beyondBottomCorner)
  /\ length (selectedIndices box beyondBottomCorner) = 3%nat
  /\ In 1%nat (selectedIndices box beyondBottomCorner)
  /\ exists vertex,
       nth_error (_vertices box) 6 = Some vertex
       /\ distanceToCamera box beyondBottomCorner
          = Some (Cartesian3.distance beyondBottomCorner vertex).
Proof.
  assert (Hsel : selectPlanes box beyondBottomCorner
                 = Some (selectedIndices box beyondBottomCorner,
                         workingFace box beyondBottomCorner))
    by (apply selectPlanes_spec; simpl; lia).
  assert (Hlen : length (selectedIndices box beyondBottomCorner) = 3%nat)
    by (rewrite (proj2 box_violated_bottom_corner); reflexivity).
  assert (Hin : In 1%nat (selectedIndices box beyondBottomCorner))
    by (rewrite (proj2 box_violated_bottom_corner); left; reflexivity).
  split; [reflexivity|]. split; [exact Hsel|]. split; [exact Hlen|].
  split; [exact Hin|].
  exact (proj2 (proj1 (proj2 (distanceToCamera_three_selected box
                                beyondBottomCorner _ eq_refl Hsel Hlen))
                  Hin)).
Defined.

(** * Further properties *)

(** ** computeVertices and the constructor *)

Lemma fromBoundingPlanes_inv (planes : list Plane.t)
    (this : TileBoundingS2Cell) :
  fromBoundingPlanes planes = Some this ->
  exists (p0 p1 p2 p3 p4 p5 : Plane.t) (rest : list Plane.t),
    planes = p0 :: p1 :: p2 :: p3 :: p4 :: p5 :: rest
    /\ this
       = mkTileBoundingS2Cell planes
           [ computeIntersection p0 p5 p2; computeIntersection p0 p2 p3;
             computeIntersection p0 p3 p4; computeIntersection p0 p4 p5;
             computeIntersection p1 p5 p2; computeIntersection p1 p2 p3;
             computeIntersection p1 p3 p4; computeIntersection p1 p4 p5 ]
           (edgeNormalsOf planes
              [ computeIntersection p0 p5 p2; computeIntersection p0 p2 p3;
                computeIntersection p0 p3 p4; computeIntersection p0 p4 p5;
                computeIntersection p1 p5 p2; computeIntersection p1 p2 p3;
                computeIntersection p1 p3 p4; computeIntersection p1 p4 p5 ]).
Proof.
  intros H.
  destruct planes as [| p0 [| p1 [| p2 [| p3 [| p4 [| p5 rest]]]]]];
    try discriminate.
  exists p0, p1, p2, p3, p4, p5, rest. split; [reflexivity|].
  rewrite (proj2 (fromBoundingPlanes_six p0 p1 p2 p3 p4 p5 rest)) in H.
  inversion H. reflexivity.
Qed.

(** X1.  [computeVertices] throws when it is given fewer than six planes,
    and returns eight vertices otherwise. *)
Theorem computeVertices_needs_six_planes (planes : list Plane.t) :
  ((length planes < 6)%nat -> computeVertices planes = None)
  /\ ((6 <= length planes)%nat ->
      exists vertices, computeVertices planes = Some vertices
                       /\ length vertices = 8%nat).
Proof.
  destruct planes as [| p0 [| p1 [| p2 [| p3 [| p4 [| p5 rest]]]]]];
    (split; [intros H | intros H]);
    try (simpl in H; lia); try reflexivity.
  eexists. split; [apply (proj1 (fromBoundingPlanes_six p0 p1 p2 p3 p4 p5 rest))|].
  reflexivity.
Qed.


Lemma unitNormals_nth (planes : list Plane.t) (k : nat) (plane : Plane.t) :
  unitNormals planes -> nth_error planes k = Some plane ->
  Cartesian3.dot (Plane.normal plane) (Plane.normal plane) = 1.
Proof.
  intros Hall Hk. apply isUnit_dot.
  unfold unitNormals in Hall. rewrite Forall_forall in Hall.
  apply Hall. eapply nth_error_In. exact Hk.
Qed.

(** X3.  When the planes have unit normals and no vertex is degenerate,
    [vertices[i]] lies on the top plane and on the side planes
    [2 + (i + 3) % 4] and [2 + i], and [vertices[4 + i]] lies on the bottom
    plane and on the same two side planes. *)
Theorem vertices_lie_on_their_planes (planes : list Plane.t)
    (this : TileBoundingS2Cell) (i : nat) :
  fromBoundingPlanes planes = Some this ->
  unitNormals planes ->
  nonDegenerate planes ->
  (i < 4)%nat ->
  exists upper lower : Cartesian3.t,
    nth_error (_vertices this) i = Some upper
    /\ nth_error (_vertices this) (4 + i) = Some lower
    /\ onPlaneOf this 0 upper
    /\ onPlaneOf this (2 + (i + 3) mod 4) upper
    /\ onPlaneOf this (2 + i) upper
    /\ onPlaneOf this 1 lower
    /\ onPlaneOf this (2 + (i + 3) mod 4) lower
    /\ onPlaneOf this (2 + i) lower.
Proof.
  intros Hbuilt Hunit Hnd Hi.
  destruct (fromBoundingPlanes_inv _ _ Hbuilt)
    as (p0 & p1 & p2 & p3 & p4 & p5 & rest & Hplanes & Hthis).
  subst planes this.
  pose proof (unitNormals_nth _ 0 p0 Hunit eq_refl) as U0.
  pose proof (unitNormals_nth _ 1 p1 Hunit eq_refl) as U1.
  pose proof (unitNormals_nth _ 2 p2 Hunit eq_refl) as U2.
  pose proof (unitNormals_nth _ 3 p3 Hunit eq_refl) as U3.
  pose proof (unitNormals_nth _ 4 p4 Hunit eq_refl) as U4.
  pose proof (unitNormals_nth _ 5 p5 Hunit eq_refl) as U5.
  destruct Hnd as (D0 & D1 & D2 & D3 & D4 & D5 & D6 & D7).
  destruct i as [| [| [| [| i]]]]; [ | | | | lia];
    do 2 eexists;
    (split; [reflexivity|]); (split; [reflexivity|]);
    repeat split;
    (eexists; split; [reflexivity|]);
    first [ apply computeIntersection_on_p0; assumption
          | apply computeIntersection_on_p1; assumption
          | apply computeIntersection_on_p2; assumption ].
Qed.

(** ** computeIntersection *)

(** X4.  The point computed for three planes does not depend on the order
    in which they are given, as long as their determinant is not zero. *)
Theorem computeIntersection_any_order (p0 p1 p2 : Plane.t) :
  normalDeterminant p0 p1 p2 <> 0 ->
  computeIntersection p1 p2 p0 = computeIntersection p0 p1 p2
  /\ computeIntersection p2 p0 p1 = computeIntersection p0 p1 p2
  /\ computeIntersection p0 p2 p1 = computeIntersection p0 p1 p2
  /\ computeIntersection p1 p0 p2 = computeIntersection p0 p1 p2
  /\ computeIntersection p2 p1 p0 = computeIntersection p0 p1 p2.
Proof.
  destruct p0 as [[a0 b0 c0] d0], p1 as [[a1 b1 c1] d1], p2 as [[a2 b2 c2] d2].
  unfold_geometry. intros D.
  repeat split; apply c3_eq; cbn [Cartesian3.x Cartesian3.y Cartesian3.z];
    field; repeat split; intros E; apply D; lra.
Qed.

(** ** closestPointLineSegment *)

Lemma segmentPoint_0 (l0 l1 : Cartesian3.t) : segmentPoint l0 l1 0 = l0.
Proof.
  destruct l0, l1. unfold segmentPoint. unfold_geometry.
  apply c3_eq; simpl; ring.
Qed.

Lemma segmentPoint_1 (l0 l1 : Cartesian3.t) : segmentPoint l0 l1 1 = l1.
Proof.
  destruct l0, l1. unfold segmentPoint. unfold_geometry.
  apply c3_eq; simpl; ring.
Qed.

(** X5.  Whatever the arguments, also for a segment reduced to one point,
    [closestPointLineSegment] returns a point of the closed segment; for
    equal endpoints it returns that endpoint and divides by nothing. *)
Theorem closestPointLineSegment_in_segment (p l0 l1 : Cartesian3.t) :
  (exists s : R, 0 <= s <= 1
                 /\ closestPointLineSegment p l0 l1 = segmentPoint l0 l1 s)
  /\ closestPointLineSegment p l0 l0 = l0.
Proof.
  split.
  - unfold closestPointLineSegment.
    destruct (Rle_dec _ _) as [Hle | Hgt].
    { exists 0. split; [lra | symmetry; apply segmentPoint_0]. }
    destruct (Rge_dec _ _) as [Hge | Hlt].
    { exists 1. split; [lra | symmetry; apply segmentPoint_1]. }
    set (t := Cartesian3.dot (Cartesian3.subtract l1 l0)
                (Cartesian3.subtract p l0)) in *.
    set (dMag := Cartesian3.dot (Cartesian3.subtract l1 l0)
                   (Cartesian3.subtract l1 l0)) in *.
    assert (Hpos : 0 < dMag) by lra.
    assert (Hdiv : t / dMag * dMag = t) by (field; lra).
    exists (t / dMag). split; [split; nra|].
    generalize (t / dMag). intros q.
    destruct l0, l1. unfold segmentPoint. unfold_geometry.
    apply c3_eq; simpl; ring.
  - unfold closestPointLineSegment.
    destruct (Rle_dec _ _) as [Hle | Hgt]; [reflexivity|].
    exfalso. apply Hgt. destruct p, l0. unfold_geometry. lra.
Qed.

(** X6.  A point of the closed segment is its own closest point. *)
Theorem closestPointLineSegment_fixes_segment (l0 l1 : Cartesian3.t) (s : R) :
  0 <= s <= 1 ->
  closestPointLineSegment (segmentPoint l0 l1 s) l0 l1 = segmentPoint l0 l1 s.
Proof.
  intros Hs.
  destruct l0 as [x0 y0 z0], l1 as [x1 y1 z1].
  unfold closestPointLineSegment, segmentPoint. unfold_geometry.
  set (dx := x1 - x0). set (dy := y1 - y0). set (dz := z1 - z0).
  set (dd := dx * dx + dy * dy + dz * dz).
  assert (Hdd : 0 <= dd) by (unfold dd; nra).
  assert (Ht : dx * (x0 + dx * s - x0) + dy * (y0 + dy * s - y0)
               + dz * (z0 + dz * s - z0) = s * dd) by (unfold dd; ring).
  rewrite Ht.
  assert (Hzero : dd = 0 -> dx = 0 /\ dy = 0 /\ dz = 0)
    by (unfold dd; intros; repeat split; nra).
  destruct (Rle_dec (s * dd) 0) as [Hle | Hgt].
  - assert (Hprod : s * dd = 0) by (assert (0 <= s * dd) by nra; lra).
    apply Rmult_integral in Hprod. destruct Hprod as [E | E].
    + subst s. apply c3_eq; simpl; ring.
    + destruct (Hzero E) as (Ex & Ey & Ez).
      apply c3_eq; simpl; rewrite ?Ex, ?Ey, ?Ez; ring.
  - destruct (Rge_dec (s * dd) dd) as [Hge | Hlt].
    + assert (Hprod : (1 - s) * dd = 0)
        by (assert (0 <= (1 - s) * dd) by nra; lra).
      apply Rmult_integral in Hprod. destruct Hprod as [E | E].
      * assert (s = 1) by lra. subst s. unfold dx, dy, dz.
        apply c3_eq; simpl; ring.
      * destruct (Hzero E) as (Ex & Ey & Ez).
        apply c3_eq; simpl; rewrite ?Ex, ?Ey, ?Ez;
          unfold dx, dy, dz in Ex, Ey, Ez; lra.
    + assert (Hpos : 0 < dd) by nra.
      replace (s * dd / dd) with s by (field; lra).
      unfold dx, dy, dz. apply c3_eq; simpl; ring.
Qed.

(** ** computeEdgeNormals *)

Lemma computeEdgeNormals_unfold (plane : Plane.t)
    (vertices : list (option Cartesian3.t)) :
  computeEdgeNormals plane vertices
  = (v0 <- index vertices 0 ;; v1 <- index vertices 1 ;;
     v2 <- index vertices 2 ;; v3 <- index vertices 3 ;;
     Some (faceNormals plane v0 v1 v2 v3)).
Proof.
  unfold computeEdgeNormals. cbn [mapM].
  change ((0 + 1) mod 4)%nat with 1%nat.
  change ((1 + 1) mod 4)%nat with 2%nat.
  change ((2 + 1) mod 4)%nat with 3%nat.
  change ((3 + 1) mod 4)%nat with 0%nat.
  destruct (index vertices 0), (index vertices 1), (index vertices 2),
    (index vertices 3); reflexivity.
Qed.


Lemma magnitude_nonzero (c : Cartesian3.t) :
  Cartesian3.magnitude c <> 0 ->
  Cartesian3.magnitude c * Cartesian3.magnitude c
  = Cartesian3.magnitudeSquared c.
Proof.
  intros _. unfold Cartesian3.magnitude.
  apply sqrt_sqrt. apply magnitudeSquared_nonneg.
Qed.

Lemma normalize_isUnit (c : Cartesian3.t) :
  Cartesian3.magnitude c <> 0 -> isUnit (Cartesian3.normalize c).
Proof.
  intros Hm. pose proof (magnitude_nonzero c Hm) as Hsq.
  apply dot_isUnit. unfold Cartesian3.normalize.
  set (m := Cartesian3.magnitude c) in *.
  destruct c as [x y z]. unfold Cartesian3.magnitudeSquared in Hsq.
  unfold Cartesian3.dot. cbn [Cartesian3.x Cartesian3.y Cartesian3.z] in *.
  replace (x / m * (x / m) + y / m * (y / m) + z / m * (z / m))
    with ((x * x + y * y + z * z) / (m * m)) by (field; exact Hm).
  rewrite Hsq. field. rewrite <- Hsq. nra.
Qed.

Lemma normalize_dot (c w : Cartesian3.t) :
  Cartesian3.dot c w = 0 -> Cartesian3.dot (Cartesian3.normalize c) w = 0.
Proof.
  unfold Cartesian3.normalize.
  set (m := Cartesian3.magnitude c).
  destruct c as [x y z], w as [wx wy wz].
  unfold Cartesian3.dot. cbn [Cartesian3.x Cartesian3.y Cartesian3.z].
  intros H.
  replace (x / m * wx + y / m * wy + z / m * wz)
    with ((x * wx + y * wy + z * wz) * / m) by (unfold Rdiv; ring).
  rewrite H. ring.
Qed.

Lemma cross_dot_left (a b : Cartesian3.t) :
  Cartesian3.dot (Cartesian3.cross a b) a = 0.
Proof. destruct a, b. unfold_geometry. ring. Qed.

Lemma cross_dot_right (a b : Cartesian3.t) :
  Cartesian3.dot (Cartesian3.cross a b) b = 0.
Proof. destruct a, b. unfold_geometry. ring. Qed.

(** X8.  Each edge normal that [computeEdgeNormals] returns for an edge
    whose cross product with the face normal is not zero is a unit vector
    perpendicular to the face normal (it lies in the face's plane) and
    perpendicular to its edge. *)
Theorem computeEdgeNormals_in_plane (plane : Plane.t)
    (vertices : list (option Cartesian3.t)) (normals : list Cartesian3.t)
    (i : nat) (vi vj ni : Cartesian3.t) :
  computeEdgeNormals plane vertices = Some normals ->
  (i < 4)%nat ->
  index vertices i = Some vi ->
  index vertices ((i + 1) mod 4) = Some vj ->
  nth_error normals i = Some ni ->
  Cartesian3.magnitude
    (Cartesian3.cross (Plane.normal plane) (Cartesian3.subtract vi vj)) <> 0 ->
  isUnit ni
  /\ Cartesian3.dot ni (Plane.normal plane) = 0
  /\ Cartesian3.dot ni (Cartesian3.subtract vi vj) = 0.
Proof.
  rewrite computeEdgeNormals_unfold.
  intros Hsome Hi Hvi Hvj Hni Hm.
  assert (Eni : ni = edgeNormalOf plane vi vj).
  { destruct i as [| [| [| [| i]]]]; [ | | | | lia];
      change ((0 + 1) mod 4)%nat with 1%nat in Hvj;
      change ((1 + 1) mod 4)%nat with 2%nat in Hvj;
      change ((2 + 1) mod 4)%nat with 3%nat in Hvj;
      change ((3 + 1) mod 4)%nat with 0%nat in Hvj;
      rewrite Hvi, Hvj in Hsome;
      repeat match type of Hsome with
             | context [index vertices ?k] =>
                 destruct (index vertices k); [| discriminate]
             end;
      cbn [bind] in Hsome; inversion Hsome; subst normals;
      cbn [faceNormals nth_error] in Hni; congruence. }
  subst ni. unfold edgeNormalOf.
  split; [apply normalize_isUnit; exact Hm|].
  split; apply normalize_dot; [apply cross_dot_left | apply cross_dot_right].
Qed.

(** ** computeBoundingPlanes: the side planes *)

Lemma fromPointNormal_distance (v n a : Cartesian3.t) :
  Plane.getPointDistance (Plane.fromPointNormal v n) a
  = Cartesian3.dot n (Cartesian3.subtract a v).
Proof. destruct v, n, a. unfold_geometry. ring. Qed.

Lemma subtract_self_dot (n v : Cartesian3.t) :
  Cartesian3.dot n (Cartesian3.subtract v v) = 0.
Proof. destruct n, v. unfold_geometry. ring. Qed.

(** X9.  Side plane [2 + i] of [computeBoundingPlanes] passes through the
    cell corners [i] and [(i + 1) % 4]; when the cross product the source
    normalizes is not zero, its normal is a unit vector perpendicular to
    the surface normal at corner [i].  The heights play no part in it. *)
Theorem computeBoundingPlanes_side_through_corners (s2Cell : S2Cell)
    (minimumHeight maximumHeight : R) (ellipsoid : Ellipsoid) (i : nat) :
  (i < 4)%nat ->
  Cartesian3.magnitude
    (Cartesian3.cross
       (Cartesian3.subtract (getVertex s2Cell ((i + 1) mod 4))
          (getVertex s2Cell i))
       (geodeticSurfaceNormal ellipsoid (getVertex s2Cell i))) <> 0 ->
  exists side : Plane.t,
    nth_error
      (computeBoundingPlanes s2Cell minimumHeight maximumHeight ellipsoid)
      (2 + i) = Some side
    /\ isUnit (Plane.normal side)
    /\ Plane.getPointDistance side (getVertex s2Cell i) = 0
    /\ Plane.getPointDistance side (getVertex s2Cell ((i + 1) mod 4)) = 0
    /\ Cartesian3.dot (Plane.normal side)
         (geodeticSurfaceNormal ellipsoid (getVertex s2Cell i)) = 0.
Proof.
  intros Hi Hm. exists (sidePlaneOf s2Cell ellipsoid i).
  split.
  { unfold computeBoundingPlanes. cbn [map].
    destruct i as [| [| [| [| i]]]]; [ | | | | lia]; reflexivity. }
  unfold sidePlaneOf. cbv zeta.
  rewrite !fromPointNormal_distance.
  cbn [Plane.fromPointNormal Plane.normal].
  split; [apply normalize_isUnit; exact Hm|].
  split; [apply subtract_self_dot|].
  split; apply normalize_dot; [apply cross_dot_left | apply cross_dot_right].
Qed.

(** ** distanceToCamera: what it selects and what it returns *)

(** X10.  On a volume built by the constructor no point violates the top
    and the bottom plane together, so the [else if] loses nothing:
    [selectedPlaneIndices] ends as the list of the violated planes, in
    increasing order. *)
Theorem selection_lists_violated_planes (s2Cell : S2Cell)
    (minimumHeight maximumHeight : R) (ellipsoid : Ellipsoid)
    (this : TileBoundingS2Cell) (point : Cartesian3.t) :
  construct s2Cell minimumHeight maximumHeight ellipsoid = Some this ->
  (planeViolated this point 0 = true -> planeViolated this point 1 = false)
  /\ exists face : option Face,
       selectPlanes this point = Some (violatedPlanes this point, face).
Proof.
  intros Hbuilt.
  split; [apply (constructed_top_excludes_bottom _ _ _ _ _ _ Hbuilt)|].
  destruct (constructed_selection _ _ _ _ _ point Hbuilt) as (Hsix & Hsel).
  exists (workingFace this point).
  rewrite <- Hsel. apply selectPlanes_spec. exact Hsix.
Qed.

Lemma distance_nonneg (a b : Cartesian3.t) : 0 <= Cartesian3.distance a b.
Proof. unfold Cartesian3.distance, Cartesian3.magnitude. apply sqrt_pos. Qed.

(** Opens the [bind]s and branches of a hypothesis [... = Some _]. *)
Ltac open_binds :=
  repeat match goal with
         | H : bind _ _ = Some _ |- _ =>
             let a := fresh "a" in
             let Ha := fresh "Ha" in
             apply bind_Some in H; destruct H as (a & Ha & H)
         | H : (if ?c then _ else _) = Some _ |- _ => destruct c
         | H : Some _ = Some _ |- _ => inversion H; clear H; subst
         end.

(** X11.  Whenever [distanceToCamera] returns, what it returns is not
    negative. *)
Theorem distanceToCamera_nonneg (this : TileBoundingS2Cell)
    (point : Cartesian3.t) (d : R) :
  distanceToCamera this point = Some d -> 0 <= d.
Proof.
  unfold distanceToCamera. intros H.
  apply bind_Some in H. destruct H as (sel & _ & H).
  destruct (fst sel) as [| k0 [| k1 [| k2 [| k3 rest]]]];
    open_binds; first [lra | apply distance_nonneg].
Qed.

(** ** closestPointPolygon *)

Lemma polygonStep_invariant (p : Cartesian3.t)
    (vertices : list (option Cartesian3.t)) (normals : list Cartesian3.t)
    (dir : R) (done : list nat) (st : PolygonState) (i : nat)
    (vi vj ni : Cartesian3.t) :
  index vertices i = Some vi ->
  index vertices ((i + 1) mod 4) = Some vj ->
  nth_error normals i = Some ni ->
  polygonInvariant p vertices normals dir done st ->
  exists st',
    polygonStep p vertices (NormalsArray normals) dir st i = Some st'
    /\ polygonInvariant p vertices normals dir (i :: done) st'.
Proof.
  intros Hvi Hvj Hni (Hnone & Hsome & Hmin).
  assert (Hcand : edgeCandidate p vertices i
                  = Some (closestPointLineSegment p vi vj)).
  { unfold edgeCandidate. rewrite Hvi, Hvj. reflexivity. }
  unfold polygonStep. rewrite Hvi. cbn [bind edgeNormalAt]. rewrite Hni.
  cbn [bind].
  destruct (Rgt_dec _ _) as [Hskip | Htest].
  - exists st. split; [reflexivity|].
    split; [exact Hnone|]. split.
    + intros c Hc. destruct (Hsome c Hc) as (Hd & j & Hj & Ht & Hcj).
      split; [exact Hd|]. exists j. split; [right; exact Hj | tauto].
    + intros j e [Ej | Hj] Ht He; [| eapply Hmin; eassumption].
      subst j. exfalso. destruct Ht as (vi' & ni' & Hvi' & Hni' & Hns).
      apply Hns. unfold edgeSkipped.
      assert (vi' = vi) by congruence. assert (ni' = ni) by congruence.
      subst. exact Hskip.
  - rewrite Hvj. cbn [bind].
    assert (Ht : edgeTested p vertices normals dir i).
    { exists vi, ni. split; [exact Hvi|]. split; [exact Hni|].
      unfold edgeSkipped. exact Htest. }
    destruct (Rlt_dec _ _) as [Hlt | Hge].
    + eexists. split; [reflexivity|]. cbn [fst snd].
      split; [discriminate|]. split.
      * intros c Hc. inversion Hc; subst c. split; [reflexivity|].
        exists i. split; [left; reflexivity|]. split; [exact Ht | exact Hcand].
      * intros j e [Ej | Hj] Htj He.
        { subst j. rewrite Hcand in He. inversion He. cbn [fst]. lra. }
        { pose proof (Hmin j e Hj Htj He). cbn [fst]. lra. }
    + exists st. split; [reflexivity|].
      split; [exact Hnone|]. split.
      * intros c Hc. destruct (Hsome c Hc) as (Hd & j & Hj & Htj & Hcj).
        split; [exact Hd|]. exists j. split; [right; exact Hj | tauto].
      * intros j e [Ej | Hj] Htj He; [| eapply Hmin; eassumption].
        subst j. rewrite Hcand in He. inversion He. subst e. lra.
Qed.

(** The four turns of the loop on a face with four vertices and four edge
    normals. *)
Lemma polygonLoop_invariant (p a b c d n0 n1 n2 n3 : Cartesian3.t) (dir : R) :
  exists s4 : PolygonState,
    polygonLoop p [Some a; Some b; Some c; Some d]
      (NormalsArray [n0; n1; n2; n3]) dir [0; 1; 2; 3]%nat (MAX_VALUE, None)
    = Some s4
    /\ polygonInvariant p [Some a; Some b; Some c; Some d] [n0; n1; n2; n3]
         dir [3; 2; 1; 0]%nat s4.
Proof.
  set (vs := [Some a; Some b; Some c; Some d]).
  set (ns := [n0; n1; n2; n3]).
  assert (H0 : polygonInvariant p vs ns dir [] (MAX_VALUE, None)).
  { split; [reflexivity|]. split; [discriminate|]. intros i e []. }
  cbn [polygonLoop].
  destruct (polygonStep_invariant p vs ns dir _ _ 0 a b n0
              eq_refl eq_refl eq_refl H0) as (s1 & E1 & H1).
  rewrite E1; cbn [bind].
  destruct (polygonStep_invariant p vs ns dir _ _ 1 b c n1
              eq_refl eq_refl eq_refl H1) as (s2 & E2 & H2).
  rewrite E2; cbn [bind].
  destruct (polygonStep_invariant p vs ns dir _ _ 2 c d n2
              eq_refl eq_refl eq_refl H2) as (s3 & E3 & H3).
  rewrite E3; cbn [bind].
  destruct (polygonStep_invariant p vs ns dir _ _ 3 d a n3
              eq_refl eq_refl eq_refl H3) as (s4 & E4 & H4).
  rewrite E4; cbn [bind]. exists s4. split; [reflexivity | exact H4].
Qed.

Lemma closestPointPolygon_returns (p a b c d : Cartesian3.t)
    (normals : list Cartesian3.t) (plane : Plane.t) (dir : R) :
  length normals = 4%nat ->
  exists f : Cartesian3.t,
    closestPointPolygon p [Some a; Some b; Some c; Some d] plane
      (NormalsArray normals) dir = Some f.
Proof.
  intros Hlen.
  destruct normals as [| n0 [| n1 [| n2 [| n3 [| ? ?]]]]]; try discriminate.
  destruct (polygonLoop_invariant p a b c d n0 n1 n2 n3 dir)
    as (s4 & Eloop & _).
  unfold closestPointPolygon.
  change (seq 0 (length [Some a; Some b; Some c; Some d]))
    with [0; 1; 2; 3]%nat.
  rewrite Eloop. cbn [bind]. destruct (snd s4); eauto.
Qed.

(** X12.  On a face with four vertices and four edge normals,
    [closestPointPolygon] returns either the query point itself or the
    nearest point of an edge it did not skip.  No tested edge has a nearer
    point (among those nearer than [Number.MAX_VALUE]), and when every
    edge is skipped the query point is returned. *)
Theorem closestPointPolygon_nearest_tested_edge (p a b c d : Cartesian3.t)
    (normals : list Cartesian3.t) (plane : Plane.t) (dir : R) :
  length normals = 4%nat ->
  exists f : Cartesian3.t,
    closestPointPolygon p [Some a; Some b; Some c; Some d] plane
      (NormalsArray normals) dir = Some f
    /\ (f = p
        \/ exists i, (i < 4)%nat
             /\ edgeTested p [Some a; Some b; Some c; Some d] normals dir i
             /\ edgeCandidate p [Some a; Some b; Some c; Some d] i = Some f)
    /\ (forall i e, (i < 4)%nat ->
          edgeTested p [Some a; Some b; Some c; Some d] normals dir i ->
          edgeCandidate p [Some a; Some b; Some c; Some d] i = Some e ->
          Cartesian3.distance p e < MAX_VALUE ->
          Cartesian3.distance p f <= Cartesian3.distance p e)
    /\ ((forall i, (i < 4)%nat ->
           ~ edgeTested p [Some a; Some b; Some c; Some d] normals dir i) ->
        f = p).
Proof.
  intros Hlen.
  destruct normals as [| n0 [| n1 [| n2 [| n3 [| ? ?]]]]]; try discriminate.
  set (vs := [Some a; Some b; Some c; Some d]).
  set (ns := [n0; n1; n2; n3]).
  pose proof (polygonLoop_invariant p a b c d n0 n1 n2 n3 dir) as Hloop.
  fold vs in Hloop. fold ns in Hloop.
  destruct Hloop as (s4 & Eloop & H4).
  unfold closestPointPolygon.
  change (seq 0 (length vs)) with [0; 1; 2; 3]%nat.
  rewrite Eloop. cbn [bind].
  destruct H4 as (Hnone & Hsome & Hmin).
  assert (Hall : forall i, (i < 4)%nat -> In i [3; 2; 1; 0]%nat).
  { intros i Hi. destruct i as [| [| [| [| i]]]]; simpl; try tauto. lia. }
  assert (Hin4 : forall i, In i [3; 2; 1; 0]%nat -> (i < 4)%nat).
  { intros i Hi. simpl in Hi. lia. }
  destruct (snd s4) as [cp |] eqn:Hcp.
  - exists cp. split; [reflexivity|].
    destruct (Hsome cp eq_refl) as (Hd & j & Hj & Htj & Hcj).
    split; [right; exists j; split; [apply Hin4; exact Hj | tauto]|].
    split.
    + intros i e Hi Hti He _. rewrite <- Hd. apply (Hmin i e); auto.
    + intros Hnot. exfalso. apply (Hnot j); [apply Hin4; exact Hj | exact Htj].
  - exists p. split; [reflexivity|]. split; [left; reflexivity|].
    split; [| reflexivity].
    intros i e Hi Hti He Hlt.
    pose proof (Hmin i e (Hall i Hi) Hti He) as Hle.
    rewrite (Hnone eq_refl) in Hle. lra.
Qed.

(** ** distanceToCamera: when it returns *)

Lemma selectedIndices_lt_6 (this : TileBoundingS2Cell) (point : Cartesian3.t)
    (k : nat) :
  In k (selectedIndices this point) -> (k < 6)%nat.
Proof.
  unfold selectedIndices. rewrite in_app_iff. intros [H | H].
  - destruct (topBottomIndices_cases this point) as [E | [E | E]];
      rewrite E in H; simpl in H; lia.
  - rewrite in_map_iff in H. destruct H as (i & E & Hi).
    unfold violatedSides in Hi. apply filter_In in Hi.
    destruct Hi as (Hi & _). simpl in Hi. lia.
Qed.

(** The faces the constructor stores: four vertices and four edge normals
    each. *)
Lemma constructed_face_shape (planes : list Plane.t)
    (this : TileBoundingS2Cell) (k : nat) :
  fromBoundingPlanes planes = Some this ->
  (k < 6)%nat ->
  exists (a b c d : Cartesian3.t) (normals : list Cartesian3.t),
    faceVertices (faceOf this k) = [Some a; Some b; Some c; Some d]
    /\ faceEdgeNormals (faceOf this k) = Some normals
    /\ length normals = 4%nat.
Proof.
  intros Hbuilt Hk.
  destruct (fromBoundingPlanes_inv _ _ Hbuilt)
    as (p0 & p1 & p2 & p3 & p4 & p5 & rest & Hplanes & Hthis).
  subst planes this.
  destruct k as [| [| [| [| [| [| k]]]]]]; [ | | | | | | lia];
    do 5 eexists; (split; [reflexivity|]); split; reflexivity.
Qed.

Lemma constructed_lengths (planes : list Plane.t) (this : TileBoundingS2Cell) :
  fromBoundingPlanes planes = Some this ->
  (6 <= length (_boundingPlanes this))%nat
  /\ length (_vertices this) = 8%nat.
Proof.
  intros Hbuilt.
  destruct (fromBoundingPlanes_inv _ _ Hbuilt)
    as (p0 & p1 & p2 & p3 & p4 & p5 & rest & Hplanes & Hthis).
  subst planes this. simpl. split; [lia | reflexivity].
Qed.

Lemma plane_defined (this : TileBoundingS2Cell) (k : nat) :
  (6 <= length (_boundingPlanes this))%nat -> (k < 6)%nat ->
  exists plane, nth_error (_boundingPlanes this) k = Some plane.
Proof.
  intros Hlen Hk.
  destruct (nth_error (_boundingPlanes this) k) as [p |] eqn:E; [eauto|].
  apply nth_error_None in E. lia.
Qed.

(** X13.  On a volume as the constructor stores it, [distanceToCamera]
    returns a distance exactly when at most three planes are selected;
    with more it throws. *)
Theorem distanceToCamera_returns_iff (planes : list Plane.t)
    (this : TileBoundingS2Cell) (point : Cartesian3.t) :
  fromBoundingPlanes planes = Some this ->
  ((exists d : R, distanceToCamera this point = Some d)
   <-> (length (selectedIndices this point) <= 3)%nat).
Proof.
  intros Hbuilt.
  destruct (constructed_lengths _ _ Hbuilt) as (Hsix & Hverts).
  pose proof (selectPlanes_spec this point Hsix) as Hsel.
  split.
  - intros (d & Hd).
    destruct (le_lt_dec (length (selectedIndices this point)) 3)
      as [Hle | Hgt]; [exact Hle | exfalso].
    rewrite (more_than_three_selected_throws this point _ Hsel Hgt) in Hd.
    discriminate.
  - intros Hle.
    destruct (selectedIndices this point)
      as [| k0 [| k1 [| k2 [| k3 rest]]]] eqn:Hidx;
      try (simpl in Hle; lia).
    + exists 0. unfold distanceToCamera. rewrite Hsel. reflexivity.
    + assert (Hk : (k0 < 6)%nat)
        by (apply (selectedIndices_lt_6 this point); rewrite Hidx; left;
            reflexivity).
      destruct (plane_defined this k0 Hsix Hk) as (plane & Hplane).
      rewrite (distanceToCamera_one_selected this point k0 plane Hsix
                 Hidx Hplane).
      destruct (constructed_face_shape _ _ k0 Hbuilt Hk)
        as (a & b & c & d & normals & Hvs & Hns & Hlen).
      rewrite Hvs, Hns. cbn [normalsOf].
      destruct (closestPointPolygon_returns
                  (Plane.projectPointOntoPlane plane point) a b c d normals
                  plane (faceRotation (faceOf this k0)) Hlen) as (f & Hf).
      rewrite Hf. cbn [bind]. eexists. reflexivity.
    + assert (Hv : forall k, (k < 8)%nat ->
                exists v, nth_error (_vertices this) k = Some v)
        by (intros k Hk; apply vertex_defined; assumption).
      unfold distanceToCamera. rewrite Hsel. cbn [bind fst].
      destruct (Nat.eqb k0 0); [| destruct (Nat.eqb k0 1)].
      * destruct (Hv ((k1 + 3) mod 4)%nat) as (e0 & He0);
          [pose proof (Nat.mod_upper_bound (k1 + 3) 4); lia|].
        destruct (Hv ((k1 + 2) mod 4)%nat) as (e1 & He1);
          [pose proof (Nat.mod_upper_bound (k1 + 2) 4); lia|].
        rewrite He0, He1. cbn [bind]. eexists. reflexivity.
      * destruct (Hv (k1 mod 4)%nat) as (e0 & He0);
          [pose proof (Nat.mod_upper_bound k1 4); lia|].
        destruct (Hv ((k1 + 1) mod 4)%nat) as (e1 & He1);
          [pose proof (Nat.mod_upper_bound (k1 + 1) 4); lia|].
        rewrite He0, He1. cbn [bind]. eexists. reflexivity.
      * destruct (Hv (4 + (k0 + 3) mod 4)%nat) as (e0 & He0);
          [pose proof (Nat.mod_upper_bound (k0 + 3) 4); lia|].
        destruct (Hv ((k0 + 3) mod 4)%nat) as (e1 & He1);
          [pose proof (Nat.mod_upper_bound (k0 + 3) 4); lia|].
        rewrite He0, He1. cbn [bind]. eexists. reflexivity.
    + assert (Hv : forall k, (k < 8)%nat ->
                exists v, nth_error (_vertices this) k = Some v)
        by (intros k Hk; apply vertex_defined; assumption).
      unfold distanceToCamera. rewrite Hsel. cbn [bind fst].
      destruct (Nat.eqb k0 0).
      * destruct (Hv (k1 mod 4)%nat) as (v & Hvv);
          [pose proof (Nat.mod_upper_bound k1 4); lia|].
        rewrite Hvv. cbn [bind]. eexists. reflexivity.
      * destruct (Hv (4 + (k0 + 1) mod 4)%nat) as (v & Hvv);
          [pose proof (Nat.mod_upper_bound (k0 + 1) 4); lia|].
        rewrite Hvv. cbn [bind]. eexists. reflexivity.
Qed.

(** ** distanceToCamera: one plane selected *)

(** With exactly one plane violated, the distance is measured from a point
    of that plane. *)
Lemma one_plane_face_point (planes : list Plane.t) (this : TileBoundingS2Cell)
    (P : Cartesian3.t) (k : nat) (plane : Plane.t) :
  fromBoundingPlanes planes = Some this ->
  nonDegenerate planes ->
  nth_error planes k = Some plane ->
  Cartesian3.dot (Plane.normal plane) (Plane.normal plane) = 1 ->
  onlyViolated this P k ->
  exists f : Cartesian3.t,
    distanceToCamera this P = Some (Cartesian3.distance f P)
    /\ Plane.getPointDistance plane f = 0.
Proof.
  intros Hbuilt Hnd Hplane Hunit Hat.
  destruct (constructed_lengths _ _ Hbuilt) as (Hsix & _).
  assert (Hk : (k < 6)%nat) by (destruct Hat; assumption).
  destruct (fromBoundingPlanes_inv _ _ Hbuilt)
    as (p0 & p1 & p2 & p3 & p4 & p5 & rest & Hplanes & Hthis).
  subst planes.
  destruct (constructed_face p0 p1 p2 p3 p4 p5 rest k plane Hnd Hk Hplane Hunit)
    as (a & b & c & d0 & normals & Hvs & Hns & Hlen & Ha & Hb & Hc & Hd).
  rewrite <- Hthis in Hvs, Hns.
  assert (Hplane' : nth_error (_boundingPlanes this) k = Some plane)
    by (rewrite Hthis; exact Hplane).
  rewrite (distanceToCamera_one_selected this P k plane Hsix
             (onlyViolated_selected _ _ _ Hat) Hplane').
  rewrite Hvs, Hns. cbn [normalsOf].
  destruct (closestPointPolygon_on_plane plane plane
              (Plane.projectPointOntoPlane plane P) a b c d0 normals
              (faceRotation (faceOf this k)) Hlen Ha Hb Hc Hd
              (projectPointOntoPlane_on_plane plane Hunit P))
    as (f & Hface & Hon).
  rewrite Hface. cbn [bind]. exists f. split; [reflexivity | exact Hon].
Qed.

(** X14.  On a volume built from planes with no degenerate vertex, a point
    that violates exactly one plane, whose normal is a unit vector, gets a
    distance that is at least its signed distance to that plane, hence
    more than the tolerance: never 0. *)
Theorem distanceToCamera_at_least_plane_distance (planes : list Plane.t)
    (this : TileBoundingS2Cell) (P : Cartesian3.t) (k : nat)
    (plane : Plane.t) :
  fromBoundingPlanes planes = Some this ->
  nonDegenerate planes ->
  nth_error planes k = Some plane ->
  isUnit (Plane.normal plane) ->
  onlyViolated this P k ->
  exists d : R,
    distanceToCamera this P = Some d
    /\ Plane.getPointDistance plane P <= d
    /\ CesiumMath.EPSILON14 < d.
Proof.
  intros Hbuilt Hnd Hplane Hunit Hat.
  apply isUnit_dot in Hunit.
  destruct (one_plane_face_point _ _ _ _ _ Hbuilt Hnd Hplane Hunit Hat)
    as (f & Hd & Hon).
  assert (Hh : Plane.getPointDistance plane P > CesiumMath.EPSILON14).
  { destruct Hat as (_ & Hv & _). unfold planeViolated in Hv.
    destruct (fromBoundingPlanes_inv _ _ Hbuilt)
      as (p0 & p1 & p2 & p3 & p4 & p5 & rest & Hplanes & Hthis).
    rewrite Hthis in Hv. cbn [_boundingPlanes] in Hv.
    rewrite Hplane in Hv. apply violated_true. exact Hv. }
  pose proof EPSILON14_pos as Heps.
  set (h := Plane.getPointDistance plane P) in *.
  assert (Hle : h <= Cartesian3.distance f P).
  { unfold Cartesian3.distance, Cartesian3.magnitude.
    rewrite (magnitudeSquared_from_plane plane Hunit f P Hon). fold h.
    rewrite <- (sqrt_square h) at 1 by lra.
    apply sqrt_le_1_alt.
    pose proof (magnitudeSquared_nonneg
                  (Cartesian3.subtract f
                     (Plane.projectPointOntoPlane plane P))). lra. }
  exists (Cartesian3.distance f P). split; [exact Hd|]. split; lra.
Qed.

Lemma distance_to_projection (plane : Plane.t) (P : Cartesian3.t) :
  Cartesian3.dot (Plane.normal plane) (Plane.normal plane) = 1 ->
  0 <= Plane.getPointDistance plane P ->
  Cartesian3.distance (Plane.projectPointOntoPlane plane P) P
  = Plane.getPointDistance plane P.
Proof.
  intros Hunit Hh.
  unfold Cartesian3.distance, Cartesian3.magnitude.
  rewrite (magnitudeSquared_from_plane plane Hunit _ P
             (projectPointOntoPlane_on_plane plane Hunit P)).
  apply sqrt_of_square; [exact Hh|].
  replace (Cartesian3.magnitudeSquared
             (Cartesian3.subtract (Plane.projectPointOntoPlane plane P)
                (Plane.projectPointOntoPlane plane P))) with 0; [ring|].
  destruct (Plane.projectPointOntoPlane plane P). unfold_geometry. ring.
Qed.

(** X15.  When exactly one plane is violated, its normal is a unit vector
    and the projection of the point onto it is on the inner side of all
    four edges of the face (every edge is skipped), [distanceToCamera]
    returns the signed distance to that plane. *)
Theorem distanceToCamera_over_face (planes : list Plane.t)
    (this : TileBoundingS2Cell) (P : Cartesian3.t) (k : nat)
    (plane : Plane.t) (normals : list Cartesian3.t) :
  fromBoundingPlanes planes = Some this ->
  nth_error planes k = Some plane ->
  isUnit (Plane.normal plane) ->
  onlyViolated this P k ->
  faceEdgeNormals (faceOf this k) = Some normals ->
  (forall i, (i < 4)%nat ->
     ~ edgeTested (Plane.projectPointOntoPlane plane P)
         (faceVertices (faceOf this k)) normals
         (faceRotation (faceOf this k)) i) ->
  distanceToCamera this P = Some (Plane.getPointDistance plane P).
Proof.
  intros Hbuilt Hplane Hunit Hat Hns Hskipped.
  apply isUnit_dot in Hunit.
  destruct (constructed_lengths _ _ Hbuilt) as (Hsix & _).
  assert (Hk : (k < 6)%nat) by (destruct Hat; assumption).
  assert (Hplane' : nth_error (_boundingPlanes this) k = Some plane).
  { destruct (fromBoundingPlanes_inv _ _ Hbuilt)
      as (p0 & p1 & p2 & p3 & p4 & p5 & rest & Hplanes & Hthis).
    rewrite Hthis. exact Hplane. }
  assert (Hh : Plane.getPointDistance plane P > CesiumMath.EPSILON14).
  { destruct Hat as (_ & Hv & _). unfold planeViolated in Hv.
    rewrite Hplane' in Hv. apply violated_true. exact Hv. }
  pose proof EPSILON14_pos as Heps.
  destruct (constructed_face_shape _ _ k Hbuilt Hk)
    as (a & b & c & d & normals' & Hvs & Hns' & Hlen).
  assert (normals' = normals) by congruence. subst normals'.
  rewrite (distanceToCamera_one_selected this P k plane Hsix
             (onlyViolated_selected _ _ _ Hat) Hplane').
  rewrite Hvs, Hns in *. cbn [normalsOf].
  destruct normals as [| n0 [| n1 [| n2 [| n3 [| ? ?]]]]]; try discriminate.
  destruct (polygonLoop_invariant (Plane.projectPointOntoPlane plane P)
              a b c d n0 n1 n2 n3 (faceRotation (faceOf this k)))
    as (s4 & Eloop & _ & Hsome & _).
  unfold closestPointPolygon.
  change (seq 0 (length [Some a; Some b; Some c; Some d]))
    with [0; 1; 2; 3]%nat.
  rewrite Eloop. cbn [bind].
  destruct (snd s4) as [cp |].
  - exfalso. destruct (Hsome cp eq_refl) as (_ & j & Hj & Htj & _).
    apply (Hskipped j); [simpl in Hj; lia | exact Htj].
  - cbn [bind]. f_equal. apply distance_to_projection; [exact Hunit | lra].
Qed.

(** ** distanceToCamera: two planes selected, the pairs that index the
    shared edge *)

Lemma two_selected_distance (this : TileBoundingS2Cell) (point : Cartesian3.t)
    (k0 k1 i0 i1 : nat) (e0 e1 : Cartesian3.t) :
  (6 <= length (_boundingPlanes this))%nat ->
  selectedIndices this point = [k0; k1] ->
  i0 = (if Nat.eqb k0 0 then (k1 + 3) mod 4
        else if Nat.eqb k0 1 then k1 mod 4
        else 4 + (k0 + 3) mod 4)%nat ->
  i1 = (if Nat.eqb k0 0 then (k1 + 2) mod 4
        else if Nat.eqb k0 1 then (k1 + 1) mod 4
        else (k0 + 3) mod 4)%nat ->
  nth_error (_vertices this) i0 = Some e0 ->
  nth_error (_vertices this) i1 = Some e1 ->
  distanceToCamera this point
  = Some (Cartesian3.distance (closestPointLineSegment point e0 e1) point).
Proof.
  intros Hsix Hsel E0 E1 H0 H1. subst i0 i1.
  unfold distanceToCamera. rewrite (selectPlanes_spec this point Hsix).
  cbn [bind fst]. rewrite Hsel.
  destruct (Nat.eqb k0 0); [| destruct (Nat.eqb k0 1)];
    rewrite H0, H1; reflexivity.
Qed.

(** X16.  With the top plane and side plane [2 + i] selected, on a volume
    built from unit-normal planes with no degenerate vertex,
    [distanceToCamera] measures to the nearest point of the segment from
    [vertices[(i + 1) % 4]] to [vertices[i]], and both vertices lie on both
    selected planes: the segment is the shared edge. *)
Theorem distanceToCamera_top_and_side (planes : list Plane.t)
    (this : TileBoundingS2Cell) (point : Cartesian3.t) (i : nat) :
  fromBoundingPlanes planes = Some this ->
  unitNormals planes ->
  nonDegenerate planes ->
  (i < 4)%nat ->
  selectedIndices this point = [0; 2 + i]%nat ->
  exists e0 e1 : Cartesian3.t,
    nth_error (_vertices this) ((i + 1) mod 4) = Some e0
    /\ nth_error (_vertices this) i = Some e1
    /\ onBothPlanes this 0 (2 + i) e0
    /\ onBothPlanes this 0 (2 + i) e1
    /\ distanceToCamera this point
       = Some (Cartesian3.distance (closestPointLineSegment point e0 e1)
                 point).
Proof.
  intros Hbuilt Hunit Hnd Hi Hsel.
  destruct (constructed_lengths _ _ Hbuilt) as (Hsix & _).
  destruct (fromBoundingPlanes_inv _ _ Hbuilt)
    as (p0 & p1 & p2 & p3 & p4 & p5 & rest & Hplanes & Hthis).
  subst planes.
  pose proof (unitNormals_nth _ 0 p0 Hunit eq_refl) as U0.
  pose proof (unitNormals_nth _ 2 p2 Hunit eq_refl) as U2.
  pose proof (unitNormals_nth _ 3 p3 Hunit eq_refl) as U3.
  pose proof (unitNormals_nth _ 4 p4 Hunit eq_refl) as U4.
  pose proof (unitNormals_nth _ 5 p5 Hunit eq_refl) as U5.
  destruct Hnd as (D0 & D1 & D2 & D3 & D4 & D5 & D6 & D7).
  destruct i as [| [| [| [| i]]]]; [ | | | | lia];
    do 2 eexists;
    (split; [rewrite Hthis; reflexivity|]);
    (split; [rewrite Hthis; reflexivity|]);
    (split; [rewrite Hthis; do 2 eexists;
             (split; [reflexivity|]); (split; [reflexivity|]);
             split;
             first [ apply computeIntersection_on_p0; assumption
                   | apply computeIntersection_on_p1; assumption
                   | apply computeIntersection_on_p2; assumption ] |]);
    (split; [rewrite Hthis; do 2 eexists;
             (split; [reflexivity|]); (split; [reflexivity|]);
             split;
             first [ apply computeIntersection_on_p0; assumption
                   | apply computeIntersection_on_p1; assumption
                   | apply computeIntersection_on_p2; assumption ] |]);
    (eapply (two_selected_distance this point _ _ _ _ _ _ Hsix Hsel);
     [ reflexivity | reflexivity
     | rewrite Hthis; reflexivity | rewrite Hthis; reflexivity ]).
Qed.

(** X17.  With the consecutive side planes [2 + i] and [3 + i] selected
    ([i <= 2]), under the same conditions, [distanceToCamera] measures to
    the nearest point of the segment from [vertices[5 + i]] to
    [vertices[1 + i]], and both vertices lie on both selected planes. *)
Theorem distanceToCamera_consecutive_sides (planes : list Plane.t)
    (this : TileBoundingS2Cell) (point : Cartesian3.t) (i : nat) :
  fromBoundingPlanes planes = Some this ->
  unitNormals planes ->
  nonDegenerate planes ->
  (i < 3)%nat ->
  selectedIndices this point = [2 + i; 3 + i]%nat ->
  exists e0 e1 : Cartesian3.t,
    nth_error (_vertices this) (5 + i) = Some e0
    /\ nth_error (_vertices this) (1 + i) = Some e1
    /\ onBothPlanes this (2 + i) (3 + i) e0
    /\ onBothPlanes this (2 + i) (3 + i) e1
    /\ distanceToCamera this point
       = Some (Cartesian3.distance (closestPointLineSegment point e0 e1)
                 point).
Proof.
  intros Hbuilt Hunit Hnd Hi Hsel.
  destruct (constructed_lengths _ _ Hbuilt) as (Hsix & _).
  destruct (fromBoundingPlanes_inv _ _ Hbuilt)
    as (p0 & p1 & p2 & p3 & p4 & p5 & rest & Hplanes & Hthis).
  subst planes.
  pose proof (unitNormals_nth _ 2 p2 Hunit eq_refl) as U2.
  pose proof (unitNormals_nth _ 3 p3 Hunit eq_refl) as U3.
  pose proof (unitNormals_nth _ 4 p4 Hunit eq_refl) as U4.
  pose proof (unitNormals_nth _ 5 p5 Hunit eq_refl) as U5.
  destruct Hnd as (D0 & D1 & D2 & D3 & D4 & D5 & D6 & D7).
  destruct i as [| [| [| i]]]; [ | | | lia];
    do 2 eexists;
    (split; [rewrite Hthis; reflexivity|]);
    (split; [rewrite Hthis; reflexivity|]);
    (split; [rewrite Hthis; do 2 eexists;
             (split; [reflexivity|]); (split; [reflexivity|]);
             split;
             first [ apply computeIntersection_on_p0; assumption
                   | apply computeIntersection_on_p1; assumption
                   | apply computeIntersection_on_p2; assumption ] |]);
    (split; [rewrite Hthis; do 2 eexists;
             (split; [reflexivity|]); (split; [reflexivity|]);
             split;
             first [ apply computeIntersection_on_p0; assumption
                   | apply computeIntersection_on_p1; assumption
                   | apply computeIntersection_on_p2; assumption ] |]);
    (eapply (two_selected_distance this point _ _ _ _ _ _ Hsix Hsel);
     [ reflexivity | reflexivity
     | rewrite Hthis; reflexivity | rewrite Hthis; reflexivity ]).
Qed.

(** ** intersectPlane *)

Lemma intersectPlane_by_vote (this : TileBoundingS2Cell) (plane : Plane.t) :
  (intersectPlane this plane = INSIDE
   <-> Forall (fun v => signedDistance plane v >= 0) (_vertices this))
  /\ (intersectPlane this plane = OUTSIDE ->
      Forall (fun v => signedDistance plane v < 0) (_vertices this))
  /\ (_vertices this <> [] ->
      Forall (fun v => signedDistance plane v < 0) (_vertices this) ->
      intersectPlane this plane = OUTSIDE)
  /\ (~ Forall (fun v => signedDistance plane v >= 0) (_vertices this) ->
      ~ Forall (fun v => signedDistance plane v < 0) (_vertices this) ->
      intersectPlane this plane = INTERSECTING).
Proof.
  unfold intersectPlane.
  destruct (countVertex_fold plane (_vertices this) 0 0)
    as (plus & neg & E & L & HP & HN).
  rewrite E. simpl Nat.add. rewrite <- HP, <- HN.
  assert (Hne : _vertices this <> [] -> length (_vertices this) <> 0%nat)
    by (destruct (_vertices this); simpl; [tauto | discriminate]).
  destruct (Nat.eqb_spec plus (length (_vertices this))) as [Hp | Hp];
    [| destruct (Nat.eqb_spec neg (length (_vertices this))) as [Hn | Hn]];
    repeat split; intros; try discriminate; try tauto; try lia.
  exfalso. apply Hne; [assumption | lia].
Qed.

Lemma flipPlane_signedDistance (plane : Plane.t) (v : Cartesian3.t) :
  signedDistance (flipPlane plane) v = - signedDistance plane v.
Proof.
  destruct plane as [[a b c] d], v. unfold signedDistance, flipPlane.
  unfold_geometry. ring.
Qed.

(** X18.  If [intersectPlane] puts the volume [OUTSIDE] of a plane, it puts
    it [INSIDE] of the same plane seen from the other side. *)
Theorem intersectPlane_outside_flips_to_inside (this : TileBoundingS2Cell)
    (plane : Plane.t) :
  intersectPlane this plane = OUTSIDE ->
  intersectPlane this (flipPlane plane) = INSIDE.
Proof.
  intros H.
  apply (proj1 (proj2 (intersectPlane_by_vote this plane))) in H.
  apply (proj1 (intersectPlane_by_vote this (flipPlane plane))).
  rewrite Forall_forall in *. intros v Hv.
  rewrite flipPlane_signedDistance. specialize (H v Hv). lra.
Qed.

(** The planes and the vertices of a volume built by the constructor: the
    top vertices are on the top plane and the bottom vertices are
    [maxDistance] away from it. *)
Lemma construct_vertex_heights (s2Cell : S2Cell)
    (minimumHeight maximumHeight : R) (ellipsoid : Ellipsoid)
    (this : TileBoundingS2Cell) :
  let topPlane := topPlaneOf s2Cell maximumHeight ellipsoid in
  let maxDistance :=
    fold_left (lowerMaxDistance topPlane
                 (lowerCorner s2Cell minimumHeight ellipsoid))
      [0; 1; 2; 3]%nat 0 in
  construct s2Cell minimumHeight maximumHeight ellipsoid = Some this ->
  isUnit (Plane.normal topPlane) ->
  nonDegenerate
    (computeBoundingPlanes s2Cell minimumHeight maximumHeight ellipsoid) ->
  exists v0 v1 v2 v3 v4 v5 v6 v7 : Cartesian3.t,
    _vertices this = [v0; v1; v2; v3; v4; v5; v6; v7]
    /\ Forall (fun v => signedDistance topPlane v = 0) [v0; v1; v2; v3]
    /\ Forall (fun v => signedDistance topPlane v = maxDistance)
         [v4; v5; v6; v7].
Proof.
  intros topPlane maxDistance Hbuilt Hunit Hnd.
  apply isUnit_dot in Hunit.
  unfold construct in Hbuilt. unfold computeBoundingPlanes in *.
  cbn [map] in *. fold topPlane in Hbuilt, Hnd.
  fold maxDistance in Hbuilt, Hnd.
  rewrite (proj2 (fromBoundingPlanes_six _ _ _ _ _ _ [])) in Hbuilt.
  inversion Hbuilt as [Hthis]. clear Hbuilt. cbn [_vertices].
  destruct Hnd as (D0 & D1 & D2 & D3 & D4 & D5 & D6 & D7).
  assert (Ubottom : Cartesian3.dot
                      (Plane.normal (bottomPlaneOf topPlane maxDistance))
                      (Plane.normal (bottomPlaneOf topPlane maxDistance)) = 1).
  { rewrite <- Hunit. unfold bottomPlaneOf, Plane.clone.
    destruct topPlane as [[a b c] d]. unfold_geometry. ring. }
  assert (Hbottom : forall v,
            Plane.getPointDistance (bottomPlaneOf topPlane maxDistance) v = 0 ->
            signedDistance topPlane v = maxDistance).
  { intros v Hv. rewrite bottomPlaneOf_distance in Hv.
    change (signedDistance topPlane v)
      with (Plane.getPointDistance topPlane v). lra. }
  do 8 eexists. split; [reflexivity|].
  split; repeat constructor;
    first [ apply Hbottom; apply computeIntersection_on_p0; assumption
          | apply (computeIntersection_on_p0 topPlane); assumption ].
Qed.

(** X19.  On a volume built by the constructor with a unit normal at the
    centre and no degenerate vertex, a plane parallel to the top plane and
    [c > 0] farther out leaves the whole volume [OUTSIDE]. *)
Theorem intersectPlane_beyond_top (s2Cell : S2Cell)
    (minimumHeight maximumHeight : R) (ellipsoid : Ellipsoid)
    (this : TileBoundingS2Cell) (c : R) :
  construct s2Cell minimumHeight maximumHeight ellipsoid = Some this ->
  isUnit (Plane.normal (topPlaneOf s2Cell maximumHeight ellipsoid)) ->
  nonDegenerate
    (computeBoundingPlanes s2Cell minimumHeight maximumHeight ellipsoid) ->
  0 < c ->
  intersectPlane this
    (movePlane (topPlaneOf s2Cell maximumHeight ellipsoid) c) = OUTSIDE.
Proof.
  intros Hbuilt Hunit Hnd Hc.
  destruct (construct_vertex_heights _ _ _ _ _ Hbuilt Hunit Hnd)
    as (v0 & v1 & v2 & v3 & v4 & v5 & v6 & v7 & Hvs & Htop & Hbot).
  destruct (lowerMaxDistance_fold (topPlaneOf s2Cell maximumHeight ellipsoid)
              (lowerCorner s2Cell minimumHeight ellipsoid)) as (Hm & _).
  apply (proj1 (proj2 (proj2 (intersectPlane_by_vote this _)))).
  { rewrite Hvs. discriminate. }
  rewrite Hvs.
  assert (Hmove : forall v,
            signedDistance
              (movePlane (topPlaneOf s2Cell maximumHeight ellipsoid) c) v
            = signedDistance (topPlaneOf s2Cell maximumHeight ellipsoid) v - c).
  { intros v. unfold signedDistance, movePlane. simpl. ring. }
  rewrite Forall_forall in *. intros v Hv. rewrite Hmove.
  simpl in Hv.
  destruct Hv as [E | [E | [E | [E | Hv]]]];
    [ | | | | assert (Hin : In v [v4; v5; v6; v7]) by exact Hv;
              rewrite (Hbot v Hin); lra ];
    subst v; rewrite Htop by (simpl; tauto); lra.
Qed.


(** ** The constructor: the points of the coarse volumes *)

(** X21.  The array handed to [OrientedBoundingBox.fromPoints] has seven
    defined entries: the centre at both heights, the four corners at the
    maximum height, and the last corner alone at the minimum height.  The
    loop writes corner [i] at the minimum height into slot [3 + i], where
    the next turn writes corner [i + 1] at the maximum height, so the
    lowered corners 0, 1 and 2 are overwritten. *)
Theorem boundingPoints_contents (s2Cell : S2Cell)
    (minimumHeight maximumHeight : R)
    (ellipsoid defaultEllipsoid : Ellipsoid) :
  let center := centerOf s2Cell minimumHeight maximumHeight ellipsoid in
  boundingPoints s2Cell minimumHeight maximumHeight ellipsoid defaultEllipsoid
  = Some
      [ Some (liftTo defaultEllipsoid center maximumHeight);
        Some (liftTo defaultEllipsoid center minimumHeight);
        Some (liftTo defaultEllipsoid (getVertex s2Cell 0) maximumHeight);
        Some (liftTo defaultEllipsoid (getVertex s2Cell 1) maximumHeight);
        Some (liftTo defaultEllipsoid (getVertex s2Cell 2) maximumHeight);
        Some (liftTo defaultEllipsoid (getVertex s2Cell 3) maximumHeight);
        Some (liftTo defaultEllipsoid (getVertex s2Cell 3) minimumHeight) ].
Proof. reflexivity. Qed.

(** ** createDebugVolume *)

(** X22.  On a volume built from unit-normal planes with no degenerate
    vertex, each of the six outlines of [createDebugVolume] is given four
    defined positions that all lie on one bounding plane: the sides on
    the planes 2 to 5, then the bottom, then the top. *)
Theorem debugOutline_positions_coplanar (planes : list Plane.t)
    (this : TileBoundingS2Cell) (i : nat) :
  fromBoundingPlanes planes = Some this ->
  unitNormals planes ->
  nonDegenerate planes ->
  (i < 6)%nat ->
  length (debugOutlinePositions this) = 6%nat
  /\ exists a b c d : Cartesian3.t,
       nth_error (debugOutlinePositions this) i
       = Some [Some a; Some b; Some c; Some d]
       /\ onPlaneOf this (outlinePlane i) a
       /\ onPlaneOf this (outlinePlane i) b
       /\ onPlaneOf this (outlinePlane i) c
       /\ onPlaneOf this (outlinePlane i) d.
Proof.
  intros Hbuilt Hunit Hnd Hi.
  destruct (fromBoundingPlanes_inv _ _ Hbuilt)
    as (p0 & p1 & p2 & p3 & p4 & p5 & rest & Hplanes & Hthis).
  subst planes this.
  pose proof (unitNormals_nth _ 0 p0 Hunit eq_refl) as U0.
  pose proof (unitNormals_nth _ 1 p1 Hunit eq_refl) as U1.
  pose proof (unitNormals_nth _ 2 p2 Hunit eq_refl) as U2.
  pose proof (unitNormals_nth _ 3 p3 Hunit eq_refl) as U3.
  pose proof (unitNormals_nth _ 4 p4 Hunit eq_refl) as U4.
  pose proof (unitNormals_nth _ 5 p5 Hunit eq_refl) as U5.
  destruct Hnd as (D0 & D1 & D2 & D3 & D4 & D5 & D6 & D7).
  split; [reflexivity|].
  destruct i as [| [| [| [| [| [| i]]]]]]; [ | | | | | | lia];
    do 4 eexists; (split; [reflexivity|]);
    repeat split;
    (eexists; split; [reflexivity|]);
    first [ apply computeIntersection_on_p0; assumption
          | apply computeIntersection_on_p1; assumption
          | apply computeIntersection_on_p2; assumption ].
Qed.

(** ** closestPointPolygon without an array of edge normals; the working
    face *)

(** X23.  [closestPointPolygon] throws as soon as there is a vertex and
    [edgeNormals] is not an array, and returns the query point when the
    vertex array is empty. *)
Theorem closestPointPolygon_needs_normals_array (p : Cartesian3.t)
    (vertices : list (option Cartesian3.t)) (plane : Plane.t)
    (edgeNormals : EdgeNormalsArg) (dir : R) :
  ((forall a, edgeNormals <> NormalsArray a) -> vertices <> [] ->
   closestPointPolygon p vertices plane edgeNormals dir = None)
  /\ closestPointPolygon p [] plane edgeNormals dir = Some p.
Proof.
  split; [| reflexivity].
  intros Hnot Hne.
  destruct vertices as [| v vertices]; [contradiction|].
  unfold closestPointPolygon. cbn [length seq polygonLoop].
  unfold polygonStep at 1.
  destruct (index (v :: vertices) 0); cbn [bind]; [| reflexivity].
  destruct edgeNormals as [a | c |]; [exfalso; apply (Hnot a); reflexivity | |];
    reflexivity.
Qed.

(** X24.  With six planes the selection never throws, and the face it
    keeps for the one-plane case is that of the plane selected last: a
    violated side replaces the top or the bottom face, and a later side an
    earlier one. *)
Theorem selection_keeps_last_face (this : TileBoundingS2Cell)
    (point : Cartesian3.t) :
  (6 <= length (_boundingPlanes this))%nat ->
  exists sel : Selection,
    selectPlanes this point = Some sel
    /\ fst sel = selectedIndices this point
    /\ (fst sel = [] -> snd sel = None)
    /\ (forall k, last (fst sel) 6%nat = k -> fst sel <> [] ->
          snd sel = Some (faceOf this k)).
Proof.
  intros Hsix.
  exists (selectedIndices this point, workingFace this point).
  split; [apply selectPlanes_spec; exact Hsix|].
  split; [reflexivity|]. cbn [fst snd]. unfold workingFace.
  split.
  - intros E. rewrite E. reflexivity.
  - intros k Hlast Hne.
    destruct (exists_last Hne) as (front & z & E).
    rewrite E in *. rewrite last_last in Hlast. subst z.
    rewrite rev_app_distr. reflexivity.
Qed.

(** * Instances of the further properties *)

Lemma box_unitNormals : unitNormals boxPlanes.
Proof.
  unfold unitNormals, boxPlanes.
  repeat constructor; apply dot_isUnit; unfold_geometry; lra.
Qed.

(** X3 at the first corner of the unit cube. *)
Lemma vertices_lie_on_their_planes_witness :
  fromBoundingPlanes boxPlanes = Some box
  /\ exists upper lower : Cartesian3.t,
       nth_error (_vertices box) 0 = Some upper
       /\ nth_error (_vertices box) 4 = Some lower
       /\ onPlaneOf box 0 upper /\ onPlaneOf box 1 lower.
Proof.
  split; [exact box_constructed|].
  destruct (vertices_lie_on_their_planes boxPlanes box 0 box_constructed
              box_unitNormals box_nonDegenerate ltac:(lia))
    as (upper & lower & Hu & Hl & H0 & _ & _ & H1 & _).
  exists upper, lower. repeat split; assumption.
Defined.

(** X4 at the three planes of the first top corner of the unit cube. *)
Lemma computeIntersection_any_order_witness :
  normalDeterminant boxTop boxSide3 boxSide0 <> 0
  /\ computeIntersection boxSide3 boxSide0 boxTop
     = computeIntersection boxTop boxSide3 boxSide0.
Proof.
  assert (D : normalDeterminant boxTop boxSide3 boxSide0 <> 0)
    by (unfold boxTop, boxSide3, boxSide0; unfold_geometry; lra).
  split; [exact D|].
  exact (proj1 (computeIntersection_any_order boxTop boxSide3 boxSide0 D)).
Defined.

(** X6 at the middle of an edge of the unit cube. *)
Lemma closestPointLineSegment_fixes_segment_witness :
  0 <= 1 / 2 <= 1
  /\ closestPointLineSegment
       (segmentPoint (Cartesian3.mk 0 0 0) (Cartesian3.mk 1 0 0) (1 / 2))
       (Cartesian3.mk 0 0 0) (Cartesian3.mk 1 0 0)
     = segmentPoint (Cartesian3.mk 0 0 0) (Cartesian3.mk 1 0 0) (1 / 2).
Proof.
  assert (H : 0 <= 1 / 2 <= 1) by lra.
  split; [exact H|].
  exact (closestPointLineSegment_fixes_segment _ _ _ H).
Defined.

Lemma magnitude_of_unit (c : Cartesian3.t) :
  Cartesian3.dot c c = 1 -> Cartesian3.magnitude c <> 0.
Proof.
  intros H. apply dot_isUnit in H. unfold isUnit in H. rewrite H. lra.
Qed.

(** X8 at the first edge of the top face of the unit cube. *)
Lemma computeEdgeNormals_in_plane_witness :
  computeEdgeNormals boxTop (map Some (slice 0 4 boxVertices))
  = Some (faceNormals boxTop (Cartesian3.mk 0 0 1) (Cartesian3.mk 1 0 1)
            (Cartesian3.mk 1 1 1) (Cartesian3.mk 0 1 1))
  /\ isUnit (edgeNormalOf boxTop (Cartesian3.mk 0 0 1) (Cartesian3.mk 1 0 1))
  /\ Cartesian3.dot
       (edgeNormalOf boxTop (Cartesian3.mk 0 0 1) (Cartesian3.mk 1 0 1))
       (Plane.normal boxTop) = 0.
Proof.
  assert (Hsome : computeEdgeNormals boxTop (map Some (slice 0 4 boxVertices))
                  = Some (faceNormals boxTop (Cartesian3.mk 0 0 1)
                            (Cartesian3.mk 1 0 1) (Cartesian3.mk 1 1 1)
                            (Cartesian3.mk 0 1 1)))
    by reflexivity.
  assert (Hm : Cartesian3.magnitude
                 (Cartesian3.cross (Plane.normal boxTop)
                    (Cartesian3.subtract (Cartesian3.mk 0 0 1)
                       (Cartesian3.mk 1 0 1))) <> 0)
    by (apply magnitude_of_unit; unfold boxTop; unfold_geometry; lra).
  split; [exact Hsome|].
  destruct (computeEdgeNormals_in_plane boxTop _ _ 0
              (Cartesian3.mk 0 0 1) (Cartesian3.mk 1 0 1) _
              Hsome ltac:(lia) eq_refl eq_refl eq_refl Hm)
    as (Hunit & Hperp & _).
  split; [exact Hunit | exact Hperp].
Defined.

(** X9 at the first side of the flat unit cell. *)
Lemma computeBoundingPlanes_side_through_corners_witness :
  exists side : Plane.t,
    nth_error (computeBoundingPlanes unitCell 0 1 flatEllipsoid) 2 = Some side
    /\ isUnit (Plane.normal side)
    /\ Plane.getPointDistance side (getVertex unitCell 0) = 0
    /\ Plane.getPointDistance side (getVertex unitCell 1) = 0.
Proof.
  assert (Hm : Cartesian3.magnitude
                 (Cartesian3.cross
                    (Cartesian3.subtract (getVertex unitCell ((0 + 1) mod 4))
                       (getVertex unitCell 0))
                    (geodeticSurfaceNormal flatEllipsoid
                       (getVertex unitCell 0))) <> 0)
    by (apply magnitude_of_unit; simpl; unfold_geometry; lra).
  destruct (computeBoundingPlanes_side_through_corners unitCell 0 1
              flatEllipsoid 0 ltac:(lia) Hm)
    as (side & Hside & Hunit & H0 & H1 & _).
  exists side. repeat split; assumption.
Defined.

(** X10 at the unit cube and the camera above its front edge. *)
Lemma selection_lists_violated_planes_witness :
  construct unitCell 0 1 flatEllipsoid = Some box
  /\ exists face : option Face,
       selectPlanes box aboveFrontEdge
       = Some (violatedPlanes box aboveFrontEdge, face).
Proof.
  split; [exact box_is_constructed|].
  exact (proj2 (selection_lists_violated_planes unitCell 0 1 flatEllipsoid
                  box aboveFrontEdge box_is_constructed)).
Defined.

Lemma box_center_selection : selectedIndices box boxCenter = [].
Proof.
  rewrite (proj2 (constructed_selection _ _ _ _ _ boxCenter box_is_constructed)).
  decide_planes.
Qed.

Lemma box_center_distance : distanceToCamera box boxCenter = Some 0.
Proof.
  unfold distanceToCamera.
  rewrite selectPlanes_spec by (simpl; lia).
  cbn [bind fst]. rewrite box_center_selection. reflexivity.
Qed.

(** X11 at the centre of the unit cube. *)
Lemma distanceToCamera_nonneg_witness :
  distanceToCamera box boxCenter = Some 0 /\ 0 <= 0.
Proof.
  split; [exact box_center_distance|].
  exact (distanceToCamera_nonneg box boxCenter 0 box_center_distance).
Defined.

(** X12 on the top face of the unit cube, with its own edge normals. *)
Lemma closestPointPolygon_nearest_tested_edge_witness :
  exists f : Cartesian3.t,
    closestPointPolygon boxCenter
      [ Some (Cartesian3.mk 0 0 1); Some (Cartesian3.mk 1 0 1);
        Some (Cartesian3.mk 1 1 1); Some (Cartesian3.mk 0 1 1) ]
      boxTop
      (NormalsArray
         (faceNormals boxTop (Cartesian3.mk 0 0 1) (Cartesian3.mk 1 0 1)
            (Cartesian3.mk 1 1 1) (Cartesian3.mk 0 1 1)))
      (-1) = Some f.
Proof.
  destruct (closestPointPolygon_nearest_tested_edge boxCenter
              (Cartesian3.mk 0 0 1) (Cartesian3.mk 1 0 1)
              (Cartesian3.mk 1 1 1) (Cartesian3.mk 0 1 1)
              (faceNormals boxTop (Cartesian3.mk 0 0 1) (Cartesian3.mk 1 0 1)
                 (Cartesian3.mk 1 1 1) (Cartesian3.mk 0 1 1))
              boxTop (-1) eq_refl) as (f & Hf & _).
  exists f. exact Hf.
Defined.

(** X13 at the unit cube and its centre. *)
Lemma distanceToCamera_returns_iff_witness :
  fromBoundingPlanes boxPlanes = Some box
  /\ ((exists d : R, distanceToCamera box boxCenter = Some d)
      <-> (length (selectedIndices box boxCenter) <= 3)%nat).
Proof.
  split; [exact box_constructed|].
  exact (distanceToCamera_returns_iff boxPlanes box boxCenter box_constructed).
Defined.

(** X14 above the top face of the unit cube. *)
Lemma distanceToCamera_at_least_plane_distance_witness :
  onlyViolated box aboveBox 0
  /\ exists d : R,
       distanceToCamera box aboveBox = Some d
       /\ Plane.getPointDistance boxTop aboveBox <= d
       /\ CesiumMath.EPSILON14 < d.
Proof.
  assert (Hat : onlyViolated box aboveBox 0)
    by (apply box_onlyViolated_top; left; reflexivity).
  assert (Hunit : isUnit (Plane.normal boxTop))
    by (apply dot_isUnit; unfold boxTop; unfold_geometry; lra).
  split; [exact Hat|].
  exact (distanceToCamera_at_least_plane_distance boxPlanes box aboveBox 0
           boxTop box_constructed box_nonDegenerate eq_refl Hunit Hat).
Defined.

Lemma box_top_edge_normals :
  faceNormals boxTop (Cartesian3.mk 0 0 1) (Cartesian3.mk 1 0 1)
    (Cartesian3.mk 1 1 1) (Cartesian3.mk 0 1 1)
  = [ Cartesian3.mk 0 (-1) 0; Cartesian3.mk 1 0 0;
      Cartesian3.mk 0 1 0; Cartesian3.mk (-1) 0 0 ].
Proof.
  unfold faceNormals, edgeNormalOf.
  repeat f_equal;
    match goal with
    | |- Cartesian3.normalize ?c = ?u =>
        replace c with u by (apply c3_eq; unfold boxTop; unfold_geometry; lra)
    end;
    apply normalize_unit; unfold_geometry; lra.
Qed.

(** X15 above the top face of the unit cube: the projection is the centre
    of the face, inside all four edges. *)
Lemma distanceToCamera_over_face_witness :
  onlyViolated box aboveBox 0
  /\ distanceToCamera box aboveBox
     = Some (Plane.getPointDistance boxTop aboveBox).
Proof.
  assert (Hat : onlyViolated box aboveBox 0)
    by (apply box_onlyViolated_top; left; reflexivity).
  assert (Hunit : isUnit (Plane.normal boxTop))
    by (apply dot_isUnit; unfold boxTop; unfold_geometry; lra).
  assert (Hns : faceEdgeNormals (faceOf box 0)
                = Some [ Cartesian3.mk 0 (-1) 0; Cartesian3.mk 1 0 0;
                         Cartesian3.mk 0 1 0; Cartesian3.mk (-1) 0 0 ]).
  { rewrite <- box_top_edge_normals. reflexivity. }
  assert (Hskipped : forall i, (i < 4)%nat ->
            ~ edgeTested (Plane.projectPointOntoPlane boxTop aboveBox)
                (faceVertices (faceOf box 0))
                [ Cartesian3.mk 0 (-1) 0; Cartesian3.mk 1 0 0;
                  Cartesian3.mk 0 1 0; Cartesian3.mk (-1) 0 0 ]
                (faceRotation (faceOf box 0)) i).
  { intros i Hi (vi & ni & Hvi & Hni & Hnot). apply Hnot.
    destruct i as [| [| [| [| i]]]]; [ | | | | lia];
      cbv [faceOf box boxVertices faceVertices _vertices index nth_error
           slice firstn skipn map] in Hvi;
      cbn [nth_error] in Hni;
      inversion Hvi; inversion Hni; subst vi ni;
      unfold edgeSkipped, faceRotation, faceOf, boxTop, aboveBox;
      unfold_geometry; cbn; lra. }
  split; [exact Hat|].
  exact (distanceToCamera_over_face boxPlanes box aboveBox 0 boxTop _
           box_constructed eq_refl Hunit Hat Hns Hskipped).
Defined.

Lemma box_above_front_edge :
  selectedIndices box aboveFrontEdge = [0; 2]%nat.
Proof.
  rewrite (proj2 (constructed_selection _ _ _ _ _ aboveFrontEdge
                    box_is_constructed)).
  unfold aboveFrontEdge. decide_planes.
Qed.

Lemma box_beside_front_right_edge :
  selectedIndices box besideFrontRightEdge = [2; 3]%nat.
Proof.
  rewrite (proj2 (constructed_selection _ _ _ _ _ besideFrontRightEdge
                    box_is_constructed)).
  unfold besideFrontRightEdge. decide_planes.
Qed.

(** X16 above the front edge of the top face of the unit cube. *)
Lemma distanceToCamera_top_and_side_witness :
  selectedIndices box aboveFrontEdge = [0; 2]%nat
  /\ exists e0 e1 : Cartesian3.t,
       nth_error (_vertices box) 1 = Some e0
       /\ nth_error (_vertices box) 0 = Some e1
       /\ distanceToCamera box aboveFrontEdge
          = Some (Cartesian3.distance
                    (closestPointLineSegment aboveFrontEdge e0 e1)
                    aboveFrontEdge).
Proof.
  split; [exact box_above_front_edge|].
  destruct (distanceToCamera_top_and_side boxPlanes box aboveFrontEdge 0
              box_constructed box_unitNormals box_nonDegenerate
              ltac:(lia) box_above_front_edge)
    as (e0 & e1 & H0 & H1 & _ & _ & Hd).
  exists e0, e1. repeat split; assumption.
Defined.

(** X17 beside the vertical edge between the first two sides of the unit
    cube. *)
Lemma distanceToCamera_consecutive_sides_witness :
  selectedIndices box besideFrontRightEdge = [2; 3]%nat
  /\ exists e0 e1 : Cartesian3.t,
       nth_error (_vertices box) 5 = Some e0
       /\ nth_error (_vertices box) 1 = Some e1
       /\ distanceToCamera box besideFrontRightEdge
          = Some (Cartesian3.distance
                    (closestPointLineSegment besideFrontRightEdge e0 e1)
                    besideFrontRightEdge).
Proof.
  split; [exact box_beside_front_right_edge|].
  destruct (distanceToCamera_consecutive_sides boxPlanes box
              besideFrontRightEdge 0
              box_constructed box_unitNormals box_nonDegenerate
              ltac:(lia) box_beside_front_right_edge)
    as (e0 & e1 & H0 & H1 & _ & _ & Hd).
  exists e0, e1. repeat split; assumption.
Defined.

Lemma unitCell_top_unit :
  isUnit (Plane.normal (topPlaneOf unitCell 1 flatEllipsoid)).
Proof.
  apply dot_isUnit. unfold topPlaneOf. simpl. unfold_geometry. lra.
Qed.

Lemma unitCell_nonDegenerate :
  nonDegenerate (computeBoundingPlanes unitCell 0 1 flatEllipsoid).
Proof. rewrite unitCell_planes. exact box_nonDegenerate. Qed.

(** X19 on the unit cube, with the plane one unit above its top. *)
Lemma intersectPlane_beyond_top_witness :
  0 < 1
  /\ intersectPlane box (movePlane (topPlaneOf unitCell 1 flatEllipsoid) 1)
     = OUTSIDE.
Proof.
  assert (H : 0 < 1) by lra.
  split; [exact H|].
  exact (intersectPlane_beyond_top unitCell 0 1 flatEllipsoid box 1
           box_is_constructed unitCell_top_unit unitCell_nonDegenerate H).
Defined.

Lemma box_outside_moved_top :
  intersectPlane box (movePlane boxTop 1) = OUTSIDE.
Proof.
  apply (proj1 (proj2 (proj2 (intersectPlane_by_vote box _)))).
  - discriminate.
  - unfold box, boxVertices. cbn [_vertices].
    repeat constructor;
      unfold signedDistance, movePlane, boxTop; unfold_geometry; cbn; lra.
Qed.

(** X18 on the unit cube, with the plane one unit above its top. *)
Lemma intersectPlane_outside_flips_to_inside_witness :
  intersectPlane box (movePlane boxTop 1) = OUTSIDE
  /\ intersectPlane box (flipPlane (movePlane boxTop 1)) = INSIDE.
Proof.
  split; [exact box_outside_moved_top|].
  exact (intersectPlane_outside_flips_to_inside box _ box_outside_moved_top).
Defined.


(** X22 on the unit cube, at the outline of its first side. *)
Lemma debugOutline_positions_coplanar_witness :
  length (debugOutlinePositions box) = 6%nat
  /\ exists a b c d : Cartesian3.t,
       nth_error (debugOutlinePositions box) 0
       = Some [Some a; Some b; Some c; Some d]
       /\ onPlaneOf box (outlinePlane 0) a
       /\ onPlaneOf box (outlinePlane 0) b
       /\ onPlaneOf box (outlinePlane 0) c
       /\ onPlaneOf box (outlinePlane 0) d.
Proof.
  exact (debugOutline_positions_coplanar boxPlanes box 0 box_constructed
           box_unitNormals box_nonDegenerate ltac:(lia)).
Defined.

(** X24 on the unit cube and the camera beside its vertical edge: the
    face kept is that of the second side. *)
Lemma selection_keeps_last_face_witness :
  exists sel : Selection,
    selectPlanes box besideFrontRightEdge = Some sel
    /\ fst sel = [2; 3]%nat
    /\ snd sel = Some (faceOf box 3).
Proof.
  destruct (selection_keeps_last_face box besideFrontRightEdge
              ltac:(simpl; lia)) as (sel & Hsel & Hfst & _ & Hlast).
  exists sel. rewrite box_beside_front_right_edge in Hfst.
  split; [exact Hsel|]. split; [exact Hfst|].
  apply Hlast; rewrite Hfst; [reflexivity | discriminate].
Defined.
